(** * Hotel bill generator

    A shallow embedding of [streamlit_hotel_bill.py]: the synthetic data
    generators, the enrichment client, the invoice layout routine
    [create_pdf_bytes] and the form handler, followed by the properties
    of the specification that were checked against them.

    Conventions.
    - A Python [float] is a binary64 value: Rocq's primitive [float].
    - A Python [int] is a [Z]; a number that may be either is a [num].
    - A Python [str] is a [string] holding its UTF-8 bytes.  Blanks
      and line boundaries ([strip], [split], [splitlines]) and [len]
      are those of Unicode.  Case mapping ([lower], [title]) and the
      digit and blank classes of the regular expressions, of [int]
      and of [float] are the ASCII ones, which is what Python does on
      ASCII text: the properties that depend on them are stated for
      ASCII text.
    - The layout routine is given the name of a registered typeface,
      or none: the form handler passes no other.
    - The process-wide [random] source is a tape of draws that every
      generator consumes in program order.
    - A raised exception is the [Raise] case of [result].
    - The calls of the Streamlit user interface ([st.write], [st.info],
      [st.error], ...), and with them the [debug] flag, are left out:
      they decide no value. *)

From Stdlib Require Import ZArith QArith Qabs List String Ascii Bool Lia Lqa.
From Stdlib Require Import Floats DecimalString.
From Stdlib Require DecimalPos.
Import ListNotations.

Set Warnings "-inexact-float,-notation-for-abbreviation".
Local Open Scope string_scope.
Local Open Scope Z_scope.

(** ** Exceptions *)

Inductive exn : Type :=
| IndexError
| OverflowError
| ValueError
| TypeError
| ZeroDivisionError
| ExternalError.

Inductive result (A : Type) : Type :=
| Ok (a : A)
| Raise (e : exn).
Arguments Ok {A} a.
Arguments Raise {A} e.

Definition rbind {A B} (r : result A) (k : A -> result B) : result B :=
  match r with
  | Ok a => k a
  | Raise e => Raise e
  end.

Definition raises {A} (r : result A) : bool :=
  match r with
  | Ok _ => false
  | Raise _ => true
  end.

(** ** The random source *)

Definition tape := list N.

Definition Rand (A : Type) : Type := tape -> A * tape.

Definition ret {A} (a : A) : Rand A := fun t => (a, t).

Definition bind {A B} (m : Rand A) (k : A -> Rand B) : Rand B :=
  fun t => let (a, t') := m t in k a t'.

Declare Scope rand_scope.
Delimit Scope rand_scope with rand.
Notation "x <- m ;; k" := (bind m (fun x => k))
  (at level 100, m at next level, right associativity) : rand_scope.

(** One raw draw; an exhausted tape keeps answering 0. *)
Definition draw : Rand N :=
  fun t => match t with
           | [] => (0%N, [])
           | d :: t' => (d, t')
           end.

(** [random.randint(a, b)]: an integer of [a..b]. *)
Definition randint (a b : Z) : Rand Z :=
  fun t => let (d, t') := draw t in (a + Z.of_N d mod (b - a + 1), t').

(** [random.choice(seq)] on a non-empty sequence. *)
Definition choice {A} (dflt : A) (l : list A) : Rand A :=
  fun t => let (d, t') := draw t in
           (nth (N.to_nat d mod List.length l)%nat l dflt, t').

(** [for _ in range(n)] collecting one draw of [m] per turn. *)
Fixpoint repeatM {A} (n : nat) (m : Rand A) : Rand (list A) :=
  match n with
  | O => ret []
  | S n' => fun t => let (a, t1) := m t in
                     let (l, t2) := repeatM n' m t1 in (a :: l, t2)
  end.

(** ** Numbers *)

Inductive num : Type :=
| I (z : Z)
| F (f : float).

(** [int -> float]: round to nearest even, [OverflowError] when the
    integer is out of the binary64 range. *)
Definition float_of_Z (z : Z) : option float :=
  let f := SF2Prim (binary_normalize prec emax z 0 false) in
  if is_infinity f then None else Some f.

(** Small integer constants of the code, which convert exactly. *)
Definition fz (z : Z) : float :=
  SF2Prim (binary_normalize prec emax z 0 false).

(** The nearest binary64 to [p / q] for [q > 0]. *)
Definition float_of_ratio (neg : bool) (p : Z) (q : positive) : float :=
  match p with
  | Zpos p' => SF2Prim (SFdiv prec emax (S754_finite neg p' 0) (S754_finite false q 0))
  | _ => SF2Prim (S754_zero neg)
  end.

(** The float [k / 2^53]. *)
Definition unit_float (k : Z) : float :=
  SF2Prim (binary_normalize prec emax k (-53) false).

(** [random.random()]: [k / 2^53] for a [k] below [2^53]. *)
Definition random_unit : Rand float :=
  fun t => let (d, t') := draw t in (unit_float (Z.of_N d mod 2 ^ 53), t').

(** [random.uniform(a, b)] is [a + (b - a) * random()]. *)
Definition uniform (a b : float) : Rand float :=
  fun t => let (r, t') := random_unit t in ((a + (b - a) * r)%float, t').

(** Round half to even of [p / 2^k], and of [m * 2^e]. *)
Definition rhe_shift (p : Z) (k : Z) : Z :=
  let d := 2 ^ k in
  let q := p / d in
  let r := p mod d in
  match 2 * r ?= d with
  | Lt => q
  | Gt => q + 1
  | Eq => if Z.even q then q else q + 1
  end.

Definition rhe_scaled (m e : Z) : Z :=
  if 0 <=? e then m * 2 ^ e else rhe_shift m (- e).

(** The number of hundredths a finite float shows at two decimals:
    its exact magnitude times 100, rounded half to even. *)
Definition cents_abs (f : float) : option Z :=
  match Prim2SF f with
  | S754_zero _ => Some 0
  | S754_finite _ m e => Some (rhe_scaled (Zpos m * 100) e)
  | _ => None
  end.

(** The sign bit of a float; NaN counts as unsigned. *)
Definition sign_of (f : float) : bool :=
  match Prim2SF f with
  | S754_zero s | S754_infinity s | S754_finite s _ _ => s
  | S754_nan => false
  end.

(** The same with its sign: the amount shown, in hundredths. *)
Definition display_cents (f : float) : option Z :=
  match cents_abs f with
  | Some n => Some (if sign_of f then - n else n)
  | None => None
  end.


(** [round(x, 2)] on a float: the nearest float to the two-decimal
    rounding of the exact value; infinities and NaN are returned as
    they are. *)
Definition round2 (f : float) : float :=
  match cents_abs f with
  | Some n => float_of_ratio (sign_of f) n 100
  | None => f
  end.

(** ** Strings *)

Definition str_of_Z (z : Z) : string := NilZero.string_of_int (Z.to_int z).

Definition is_digit (c : ascii) : bool :=
  let n := nat_of_ascii c in (48 <=? n)%nat && (n <=? 57)%nat.

Definition is_upper (c : ascii) : bool :=
  let n := nat_of_ascii c in (65 <=? n)%nat && (n <=? 90)%nat.

Definition is_lower (c : ascii) : bool :=
  let n := nat_of_ascii c in (97 <=? n)%nat && (n <=? 122)%nat.

Definition is_space (c : ascii) : bool :=
  let n := nat_of_ascii c in
  ((9 <=? n)%nat && (n <=? 13)%nat) || ((28 <=? n)%nat && (n <=? 32)%nat).

Definition to_lower (c : ascii) : ascii :=
  if is_upper c then ascii_of_nat (nat_of_ascii c + 32) else c.

Definition to_upper (c : ascii) : ascii :=
  if is_lower c then ascii_of_nat (nat_of_ascii c - 32) else c.

Definition chars (s : string) : list ascii := list_ascii_of_string s.
Definition str (l : list ascii) : string := string_of_list_ascii l.

Fixpoint drop_while (p : ascii -> bool) (l : list ascii) : list ascii :=
  match l with
  | [] => []
  | c :: l' => if p c then drop_while p l' else l
  end.

Fixpoint take_while (p : ascii -> bool) (l : list ascii) : list ascii :=
  match l with
  | [] => []
  | c :: l' => if p c then c :: take_while p l' else []
  end.

(** The characters of a text.  A [str] is held as its UTF-8 bytes: a
    character is a lead byte with the continuation bytes it
    announces. *)
Definition is_continuation (c : ascii) : bool :=
  let n := nat_of_ascii c in (128 <=? n)%nat && (n <=? 191)%nat.

Definition continuation_count (c : ascii) : nat :=
  let n := nat_of_ascii c in
  if (n <? 192)%nat then 0%nat
  else if (n <? 224)%nat then 1%nat
  else if (n <? 240)%nat then 2%nat
  else if (n <? 248)%nat then 3%nat
  else 0%nat.

Fixpoint runes_from (need : nat) (cur : list ascii) (l : list ascii)
  : list (list ascii) :=
  match l with
  | [] => match cur with [] => [] | _ => [rev cur] end
  | c :: l' =>
      if (0 <? need)%nat && is_continuation c
      then match need with
           | 1%nat => rev (c :: cur) :: runes_from 0 [] l'
           | _ => runes_from (need - 1) (c :: cur) l'
           end
      else
        (match cur with [] => [] | _ => [rev cur] end ++
         match continuation_count c with
         | O => [c] :: runes_from 0 [] l'
         | n => runes_from n [c] l'
         end)%list
  end.

Definition runes (l : list ascii) : list (list ascii) := runes_from 0 [] l.

(** The code point a character encodes, when it is one. *)
Definition code_point (r : list ascii) : option N :=
  let b c := N_of_ascii c in
  match r with
  | [a] => if (b a <? 128)%N then Some (b a) else None
  | [a; a1] =>
      let n := ((b a - 192) * 64 + (b a1 - 128))%N in
      if (128 <=? n)%N then Some n else None
  | [a; a1; a2] =>
      let n := ((b a - 224) * 4096 + (b a1 - 128) * 64 + (b a2 - 128))%N in
      if (2048 <=? n)%N then Some n else None
  | [a; a1; a2; a3] =>
      let n := ((b a - 240) * 262144 + (b a1 - 128) * 4096 +
                (b a2 - 128) * 64 + (b a3 - 128))%N in
      if (65536 <=? n)%N then Some n else None
  | _ => None
  end.

(** [c.isspace()]: the blanks of [strip], [split] and [splitlines]
    are those of Unicode, not only the ASCII ones. *)
Definition is_space_cp (n : N) : bool :=
  ((9 <=? n) && (n <=? 13) || (28 <=? n) && (n <=? 32) ||
   (n =? 133) || (n =? 160) || (n =? 5760) ||
   (8192 <=? n) && (n <=? 8202) ||
   (n =? 8232) || (n =? 8233) || (n =? 8239) || (n =? 8287) || (n =? 12288))%N.

Definition is_space_rune (r : list ascii) : bool :=
  match code_point r with
  | Some n => is_space_cp n
  | None => false
  end.

Fixpoint drop_runes (p : list ascii -> bool) (l : list (list ascii))
  : list (list ascii) :=
  match l with
  | [] => []
  | r :: l' => if p r then drop_runes p l' else l
  end.

(** [s.strip()] *)
Definition strip (s : string) : string :=
  str (List.concat
         (rev (drop_runes is_space_rune
                 (rev (drop_runes is_space_rune (runes (chars s))))))).

(** [len(s)]: characters, not bytes. *)
Definition py_len (s : string) : nat := List.length (runes (chars s)).

(** [s.lower()] *)
Definition lower (s : string) : string := str (map to_lower (chars s)).

(** [s.title()]: a letter that follows a letter is lowered, any other
    letter is raised. *)
Fixpoint title_from (prev_cased : bool) (l : list ascii) : list ascii :=
  match l with
  | [] => []
  | c :: l' =>
      if is_upper c || is_lower c
      then (if prev_cased then to_lower c else to_upper c) :: title_from true l'
      else c :: title_from false l'
  end.

Definition title (s : string) : string := str (title_from false (chars s)).

(** [s.split()]: the maximal runs of non-blank characters. *)
Fixpoint split_ws_from (cur : list ascii) (l : list (list ascii)) : list string :=
  match l with
  | [] => match cur with [] => [] | _ => [str (rev cur)] end
  | r :: l' =>
      if is_space_rune r
      then match cur with
           | [] => split_ws_from [] l'
           | _ => str (rev cur) :: split_ws_from [] l'
           end
      else split_ws_from (rev r ++ cur)%list l'
  end.

Definition split_ws (s : string) : list string :=
  split_ws_from [] (runes (chars s)).

(** [s.startswith(p)] *)
Definition startswith (s p : string) : bool := prefix p s.

(** Whether [p] occurs in [s]. *)
Fixpoint contains (s p : string) : bool :=
  prefix p s ||
  match s with
  | EmptyString => false
  | String _ s' => contains s' p
  end.

(** Digits in groups of three, as the [,] format option writes them. *)
Fixpoint group3_rev (l : list ascii) : list ascii :=
  match l with
  | a :: b :: c :: ((_ :: _) as rest) => a :: b :: c :: ","%char :: group3_rev rest
  | _ => l
  end.

Definition group3 (s : string) : string := str (rev (group3_rev (rev (chars s)))).

Definition two_digits (n : Z) : string :=
  if n <? 10 then "0" ++ str_of_Z n else str_of_Z n.

(** [f"{x:,.2f}"] *)
Definition format_2f (x : float) : string :=
  match cents_abs x with
  | Some n =>
      (if sign_of x then "-" else "") ++
      group3 (str_of_Z (n / 100)) ++ "." ++ two_digits (n mod 100)
  | None =>
      if is_nan x then "nan" else if sign_of x then "-inf" else "inf"
  end.

(** [money(x, symbol)] *)
Definition money (x : float) (symbol : string) : string := symbol ++ format_2f x.

(** ** Synthetic data generators *)

Definition PAGE_MARGIN_MM : Z := 18.
Definition DEFAULT_HOTEL_NAME : string := "NEO ROBOTIC INN".
Definition DEFAULT_GST_PERCENT : float := 5.0%float.

Definition uppercase_letters : list ascii := chars "ABCDEFGHIJKLMNOPQRSTUVWXYZ".
Definition decimal_digits : list ascii := chars "0123456789".

(** [f"{n:02d}"] *)
Definition format_02d (n : Z) : string :=
  if (0 <=? n) && (n <? 10) then "0" ++ str_of_Z n else str_of_Z n.

Definition rand_gst_number : Rand string :=
  (n <- randint 1 35 ;;
   let state := format_02d n in
   l5 <- repeatM 5 (choice "A"%char uppercase_letters) ;;
   d4 <- repeatM 4 (choice "0"%char decimal_digits) ;;
   l1 <- choice "A"%char uppercase_letters ;;
   let pan := str l5 ++ str d4 ++ str [l1] in
   k <- randint 1 9 ;;
   l2 <- choice "A"%char uppercase_letters ;;
   ret (state ++ pan ++ str_of_Z k ++ "Z" ++ str [l2]))%rand.

Definition rand_mobile : Rand string :=
  (a <- randint 600 999 ;;
   b <- randint 1000000 9999999 ;;
   ret ("+91-" ++ str_of_Z a ++ str_of_Z b))%rand.

Definition generic_address : string := "12 Circuit Avenue, Tech Park, City".

Definition mumbai_addresses : list string :=
  [ "87 Marine Drive, Mumbai";
    "14 Bandra Kurla Complex, Mumbai";
    "5 Colaba Causeway, Mumbai";
    "210 Andheri East, Mumbai" ].

(** The curated table, in the order the dictionary literal lists it. *)
Definition city_addresses : list (string * list string) :=
  [ ("mumbai", mumbai_addresses);
    ("delhi", [ "32 Connaught Place, New Delhi";
                "108 Lajpat Nagar, New Delhi";
                "9 Patel Nagar, New Delhi";
                "256 INA Colony, New Delhi" ]);
    ("bangalore", [ "18 MG Road, Bengaluru";
                    "45 Indiranagar, Bengaluru";
                    "7 Whitefield Main Road, Bengaluru";
                    "88 Koramangala, Bengaluru" ]);
    ("hyderabad", [ "12 Banjara Hills, Hyderabad";
                    "56 Hitech City Rd, Hyderabad";
                    "3 Secunderabad Rd, Hyderabad" ]);
    ("chennai", [ "77 T Nagar, Chennai";
                  "21 Anna Salai, Chennai";
                  "9 Adyar, Chennai" ]);
    ("kolkata", [ "15 Park Street, Kolkata";
                  "88 Salt Lake, Kolkata";
                  "22 Ballygunge, Kolkata" ]);
    ("pune", [ "11 FC Road, Pune";
               "60 Koregaon Park, Pune";
               "9 Viman Nagar, Pune" ]);
    ("indore", [ "18 MG Road, Indore";
                 "44 Vijay Nagar, Indore";
                 "5 AB Road, Indore" ]) ].

Definition street_names : list string :=
  [ "Park Lane"; "Circuit Avenue"; "Industrial Area"; "MG Road";
    "Market Street"; "Station Road" ].

(** [c in city_addresses], giving the entry. *)
Definition lookup_city (c : string) : option (list string) :=
  match find (fun kv => String.eqb c (fst kv)) city_addresses with
  | Some kv => Some (snd kv)
  | None => None
  end.

(** The first key, in table order, that [c] starts with. *)
Definition lookup_city_prefix (c : string) : option (list string) :=
  match find (fun kv => startswith c (fst kv)) city_addresses with
  | Some kv => Some (snd kv)
  | None => None
  end.

Definition get_random_address (city : string) : Rand string :=
  match city with
  | EmptyString => ret generic_address
  | _ =>
      let c := lower (strip city) in
      match lookup_city c with
      | Some l => choice "" l
      | None =>
          match lookup_city_prefix c with
          | Some l => choice "" l
          | None =>
              (street_num <- randint 1 300 ;;
               street <- choice "" street_names ;;
               ret (str_of_Z street_num ++ " " ++ street ++ ", " ++ title city))%rand
          end
      end
  end.

Record hotel : Type := mk_hotel
  { h_name : string;
    h_price : num;
    h_phone : string }.

Definition hotel_names : list string :=
  [ "Grand Plaza"; "Mirage Residency"; "Sunset Suites"; "City Comfort";
    "Hotel Aurora"; "Royal Stay" ].

(** [max(500, r)] for a float [r]: [r] when [r > 500], else the
    integer 500. *)
Definition max_500 (r : float) : num :=
  if (fz 500 <? r)%float then F r else I 500.

(** The body of [for i in range(3)], [n] turns left. *)
Fixpoint suggestions_loop (n : nat) (city : string) (bill_amount : float)
  : Rand (result (list hotel)) :=
  match n with
  | O => ret (Ok [])
  | S n' =>
      fun t =>
        let (nm, t1) := choice "" hotel_names t in
        match split_ws city with
        | [] => (Raise IndexError, t1)
        | w :: _ =>
            let name := nm ++ " " ++ title w in
            let (u, t2) := uniform (-0.2)%float 0.2%float t1 in
            let delta := (bill_amount * u)%float in
            let price := max_500 (round2 (bill_amount + delta)%float) in
            let (phone, t3) := rand_mobile t2 in
            let (rest, t4) := suggestions_loop n' city bill_amount t3 in
            (rbind rest (fun l => Ok (mk_hotel name price phone :: l)), t4)
        end
  end.

Definition fallback_hotel_suggestions (city : string) (bill_amount : float)
  : Rand (result (list hotel)) :=
  suggestions_loop 3 city bill_amount.

(** How Python compares an integer with a [num]: [z <= p]. *)
Definition int_le_num (z : Z) (p : num) : bool :=
  match p with
  | I y => z <=? y
  | F f => (fz z <=? f)%float
  end.

(** [lo <= p <= hi] on floats, with [p] a [num]. *)
Definition num_within (lo hi : float) (p : num) : bool :=
  match p with
  | I y => ((lo <=? fz y) && (fz y <=? hi))%float
  | F f => ((lo <=? f) && (f <=? hi))%float
  end.

(** ** Text scanning used by the enrichment client *)

(** The line boundaries of [splitlines]: line feed, vertical tab,
    form feed, carriage return, the three separators 1C..1E, next
    line, line separator and paragraph separator. *)
Definition is_linebreak_cp (n : N) : bool :=
  ((10 <=? n) && (n <=? 13) || (28 <=? n) && (n <=? 30) ||
   (n =? 133) || (n =? 8232) || (n =? 8233))%N.

Definition is_linebreak (r : list ascii) : bool :=
  match code_point r with
  | Some n => is_linebreak_cp n
  | None => false
  end.

Definition is_rune (c : ascii) (r : list ascii) : bool :=
  match r with
  | [a] => Ascii.eqb a c
  | _ => false
  end.

(** [s.splitlines()] *)
Fixpoint splitlines_from (after_cr : bool) (cur : list ascii)
    (l : list (list ascii)) : list string :=
  match l with
  | [] => match cur with [] => [] | _ => [str (rev cur)] end
  | r :: l' =>
      if after_cr && is_rune "010"%char r
      then splitlines_from false cur l'
      else if is_linebreak r
           then str (rev cur) :: splitlines_from (is_rune "013"%char r) [] l'
           else splitlines_from false (rev r ++ cur)%list l'
  end.

Definition splitlines (s : string) : list string :=
  splitlines_from false [] (runes (chars s)).

Definition in_set (set : string) (c : ascii) : bool :=
  existsb (Ascii.eqb c) (chars set).

(** [re.sub(r"^[set]+", "", s)] and [re.sub(r"[set]+$", "", s)] *)
Definition strip_leading (set : string) (s : string) : string :=
  str (drop_while (in_set set) (chars s)).

Definition strip_trailing (set : string) (s : string) : string :=
  str (rev (drop_while (in_set set) (rev (chars s)))).

(** [re.split(r"[-–—]", line)]: a hyphen, or the three bytes of an
    en dash or an em dash. *)
Fixpoint split_dash_from (cur l : list ascii) : list string :=
  match l with
  | [] => [str (rev cur)]
  | c :: l' =>
      if Ascii.eqb c "-"%char then str (rev cur) :: split_dash_from [] l'
      else
        match l' with
        | c1 :: c2 :: l'' =>
            if Ascii.eqb c "226"%char && Ascii.eqb c1 "128"%char &&
               (Ascii.eqb c2 "147"%char || Ascii.eqb c2 "148"%char)
            then str (rev cur) :: split_dash_from [] l''
            else split_dash_from (c :: cur) l'
        | _ => split_dash_from (c :: cur) l'
        end
  end.

Definition split_dash (s : string) : list string := split_dash_from [] (chars s).

Definition is_digit_or_comma (c : ascii) : bool := is_digit c || Ascii.eqb c ","%char.

(** [re.search(r"([\d,]+(?:\.\d+)?)", s)]: the first run of digits and
    commas, with a fraction when one follows. *)
Definition search_price (s : string) : option (list ascii * list ascii) :=
  match drop_while (fun c => negb (is_digit_or_comma c)) (chars s) with
  | [] => None
  | l =>
      let run := take_while is_digit_or_comma l in
      match drop_while is_digit_or_comma l with
      | dot :: ((d :: _) as after) =>
          if Ascii.eqb dot "."%char && is_digit d
          then Some (run, take_while is_digit after)
          else Some (run, [])
      | _ => Some (run, [])
      end
  end.

Definition digits_value (l : list ascii) : Z :=
  fold_left (fun acc c => 10 * acc + (Z.of_nat (nat_of_ascii c) - 48)) l 0.

(** [float(group.replace(",", ""))] on what [search_price] matched:
    [ValueError] when no digit is left. *)
Definition float_of_price (m : list ascii * list ascii) : result float :=
  let ip := filter is_digit (fst m) in
  let fp := snd m in
  match ip, fp with
  | [], [] => Raise ValueError
  | _, _ =>
      Ok (float_of_ratio false (digits_value (ip ++ fp)%list)
            (Z.to_pos (10 ^ Z.of_nat (List.length fp))))
  end.

Definition phone_class (c : ascii) : bool :=
  is_digit c || Ascii.eqb c "-"%char || is_space c.

(** The length of the longest prefix of [run] that ends in a digit at
    index 7 or later. *)
Fixpoint last_digit_from (i : nat) (run : list ascii) : option nat :=
  match run with
  | [] => None
  | c :: run' =>
      match last_digit_from (S i) run' with
      | Some k => Some k
      | None => if is_digit c && (7 <=? i)%nat then Some (S i) else None
      end
  end.

(** [\+?\d[\d\-\s]{7,}\d] anchored at the head of [l]. *)
Definition match_phone_at (l : list ascii) : option (list ascii) :=
  let '(plus, l1) :=
    match l with
    | c :: r => if Ascii.eqb c "+"%char then ([c], r) else ([], l)
    | [] => ([], l)
    end in
  match l1 with
  | d :: l2 =>
      if is_digit d
      then match last_digit_from 0 (take_while phone_class l2) with
           | Some k => Some (plus ++ d :: firstn k l2)%list
           | None => None
           end
      else None
  | [] => None
  end.

(** [re.search(r"(\+?\d[\d\-\s]{7,}\d)", line)] *)
Fixpoint search_phone (l : list ascii) : option (list ascii) :=
  match match_phone_at l with
  | Some m => Some m
  | None => match l with
            | [] => None
            | _ :: l' => search_phone l'
            end
  end.

(** The shortest prefix of [l] after which [close], blanks and [final]
    follow; the answer is that prefix with [close], the blanks and
    [final]. *)
Fixpoint lazy_until (close final : ascii) (acc l : list ascii) : option (list ascii) :=
  match l with
  | [] => None
  | c :: l' =>
      let tail := drop_while is_space l' in
      let blanks := take_while is_space l' in
      match tail with
      | f :: _ =>
          if Ascii.eqb c close && Ascii.eqb f final
          then Some (rev acc ++ c :: blanks ++ [f])%list
          else lazy_until close final (c :: acc) l'
      | [] => lazy_until close final (c :: acc) l'
      end
  end.

(** [\[\s*\{.*?\}\s*\]] anchored at the head of [l]. *)
Definition match_array_at (l : list ascii) : option (list ascii) :=
  match l with
  | c :: l1 =>
      if Ascii.eqb c "["%char
      then match drop_while is_space l1 with
           | b :: l2 =>
               if Ascii.eqb b "{"%char
               then match lazy_until "}"%char "]"%char [] l2 with
                    | Some body => Some (c :: take_while is_space l1 ++ b :: body)%list
                    | None => None
                    end
               else None
           | [] => None
           end
      else None
  | [] => None
  end.

(** [re.search(r"(\[\s*\{.*?\}\s*\])", raw_text, re.S)] *)
Fixpoint search_array (l : list ascii) : option string :=
  match match_array_at l with
  | Some m => Some (str m)
  | None => match l with
            | [] => None
            | _ :: l' => search_array l'
            end
  end.

(** A literal at the head of [l]; the rest when it is there. *)
Fixpoint eat (lit l : list ascii) : option (list ascii) :=
  match lit, l with
  | [], _ => Some l
  | a :: lit', b :: l' => if Ascii.eqb a b then eat lit' l' else None
  | _ :: _, [] => None
  end.

Definition quote : ascii := "034"%char.

(** [\{\s*"address"\s*:\s*".*?"\s*\}] anchored at the head of [l]. *)
Definition match_address_at (l : list ascii) : option (list ascii) :=
  match l with
  | c :: l1 =>
      if Ascii.eqb c "{"%char
      then match eat (quote :: chars "address" ++ [quote])%list (drop_while is_space l1) with
           | Some l2 =>
               match drop_while is_space l2 with
               | colon :: l3 =>
                   if Ascii.eqb colon ":"%char
                   then match drop_while is_space l3 with
                        | q :: l4 =>
                            if Ascii.eqb q quote
                            then match lazy_until quote "}"%char [] l4 with
                                 | Some body =>
                                     Some (c :: take_while is_space l1 ++
                                           quote :: chars "address" ++ quote ::
                                           take_while is_space l2 ++ colon ::
                                           take_while is_space l3 ++ q :: body)%list
                                 | None => None
                                 end
                            else None
                        | [] => None
                        end
                   else None
               | [] => None
               end
           | None => None
           end
      else None
  | [] => None
  end.

(** [re.search(r"(\{\s*\"address\"\s*:\s*\".*?\"\s*\})", raw_text, re.S)] *)
Fixpoint search_address (l : list ascii) : option string :=
  match match_address_at l with
  | Some m => Some (str m)
  | None => match l with
            | [] => None
            | _ :: l' => search_address l'
            end
  end.

(** ** The program proper

    Four library functions are kept abstract: [textwrap.shorten], the
    [repr] of a float inside an f-string, and [json.loads] followed by
    the field reads of the two JSON branches (any exception they raise
    is the [Raise] case; both are called inside [try] blocks). *)

Section Program.

Variable shorten : string -> nat -> string -> string.
Variable float_repr : float -> string.
Variable json_address : string -> result (option string).
Variable json_hotels : string -> result (list (result (string * float * option string))).

(** *** External enrichment client *)

(** What one SDK attempt does: the import fails, a call made after the
    import fails, or a response text comes back. *)
Inductive sdk_outcome : Type :=
| ImportFails
| CallFails
| Responds (text : string).

(** [not api_key] is false *)
Definition is_set (v : option string) : bool :=
  match v with
  | Some (String _ _) => true
  | _ => false
  end.

(** The two attempts in turn: [(tried_any, raw_text)].  The second SDK
    is tried only while [raw_text] is still [None]. *)
Definition try_sdks (first second : sdk_outcome) : bool * option string :=
  match first with
  | Responds txt => (true, Some txt)
  | CallFails =>
      match second with
      | Responds txt => (true, Some txt)
      | _ => (true, None)
      end
  | ImportFails =>
      match second with
      | Responds txt => (true, Some txt)
      | CallFails => (true, None)
      | ImportFails => (false, None)
      end
  end.

Definition address_keywords : list string :=
  [ "road"; "rd"; "street"; "st"; "lane"; "drive"; "ave"; "park";
    "complex"; "colaba" ].

(** The characters of [["'\[\{]] and of [["'\]\}]]. *)
Definition opening_marks : string := String quote "'[{".
Definition closing_marks : string := String quote "']}".

(** The JSON branch of the address lookup; an exception is swallowed. *)
Definition address_from_json (raw_text : string) : option string :=
  match search_address (chars raw_text) with
  | Some group =>
      match json_address group with
      | Ok (Some (String _ _ as addr)) => Some (strip addr)
      | _ => None
      end
  | None => None
  end.

(** The fallback scan for the first plausible line. *)
Fixpoint first_plausible_line (lines : list string) : option string :=
  match lines with
  | [] => None
  | line :: rest =>
      match strip line with
      | EmptyString => first_plausible_line rest
      | stripped =>
          let line := strip_trailing closing_marks (strip_leading opening_marks stripped) in
          if existsb is_digit (chars line) ||
             existsb (contains (lower line)) address_keywords
          then Some line
          else if (py_len line <? 120)%nat then Some line
               else first_plausible_line rest
      end
  end.

Definition call_gemini_for_address (city : string) (api_key : option string)
    (first second : sdk_outcome) : result (option string) :=
  if negb (is_set api_key) then Ok None
  else
    let (tried_any, raw_text) := try_sdks first second in
    if negb tried_any then Ok None
    else
      match raw_text with
      | None | Some EmptyString => Ok None
      | Some raw =>
          match address_from_json raw with
          | Some addr => Ok (Some addr)
          | None => Ok (first_plausible_line (splitlines raw))
          end
      end.

(** [phone or rand_mobile()] *)
Definition phone_or_random (phone : option string) : Rand string :=
  match phone with
  | Some (String _ _ as p) => ret p
  | _ => rand_mobile
  end.

(** The loop over a parsed JSON array.  An entry that cannot be read
    ([h.get] on something that is no object, [float] on its price)
    ends the loop with its exception, after a phone number has been
    drawn for every entry before it that has none. *)
Fixpoint hotels_of_json (l : list (result (string * float * option string)))
  : Rand (result (list hotel)) :=
  match l with
  | [] => ret (Ok [])
  | Raise e :: _ => ret (Raise e)
  | Ok (name, price, phone) :: rest =>
      fun t =>
        let (ph, t1) := phone_or_random phone t in
        let (r, t2) := hotels_of_json rest t1 in
        (rbind r (fun hs => Ok (mk_hotel name (F price) ph :: hs)), t2)
  end.

(** What [json.loads] makes of the array found in the text, when
    there is one and it parses; [re.search] on a [raw_text] that is
    [None] raises inside the [try]. *)
Definition json_array (raw_text : option string)
  : option (list (result (string * float * option string))) :=
  match raw_text with
  | None => None
  | Some raw =>
      match search_array (chars raw) with
      | Some group =>
          match json_hotels group with
          | Ok l => Some l
          | Raise _ => None
          end
      | None => None
      end
  end.

(** The JSON branch of the hotel search: the hotels when the branch
    returns, [None] when it falls through (no match, an empty list,
    or a swallowed exception); the draws made before an exception
    are spent. *)
Definition json_branch (raw_text : option string) : Rand (option (list hotel)) :=
  fun t =>
    match json_array raw_text with
    | Some l =>
        let (r, t1) := hotels_of_json l t in
        (match r with
         | Ok ((_ :: _) as hs) => Some hs
         | _ => None
         end, t1)
    | None => (None, t)
    end.

(** The entries of the array when every one of them can be read. *)
Fixpoint readable (l : list (result (string * float * option string)))
  : option (list (string * float * option string)) :=
  match l with
  | [] => Some []
  | Ok x :: rest =>
      match readable rest with
      | Some l' => Some (x :: l')
      | None => None
      end
  | Raise _ :: _ => None
  end.

(** The parsed array when the JSON branch returns: it parses, is not
    empty, and every entry can be read. *)
Definition hotels_from_json (raw_text : option string)
  : option (list (string * float * option string)) :=
  match json_array raw_text with
  | Some l =>
      match readable l with
      | Some ((_ :: _) as l') => Some l'
      | _ => None
      end
  | None => None
  end.

(** The line-by-line branch of the hotel search; it sits outside any
    [try]. *)
Fixpoint hotels_of_lines (lines : list string) : Rand (result (list hotel)) :=
  match lines with
  | [] => ret (Ok [])
  | raw_line :: rest =>
      fun t =>
        match strip raw_line with
        | EmptyString => hotels_of_lines rest t
        | line =>
            match split_dash line with
            | p0 :: p1 :: _ =>
                let name := strip p0 in
                let price :=
                  match search_price p1 with
                  | Some m => float_of_price m
                  | None => Ok 0%float
                  end in
                match price with
                | Raise e => (Raise e, t)
                | Ok pr =>
                    let phone :=
                      option_map (fun m => strip (str m)) (search_phone (chars line)) in
                    let (ph, t1) := phone_or_random phone t in
                    let (r, t2) := hotels_of_lines rest t1 in
                    (rbind r (fun hs => Ok (mk_hotel name (F pr) ph :: hs)), t2)
                end
            | _ => hotels_of_lines rest t
            end
        end
  end.

Definition call_gemini_hotel_search (city : string) (min_price max_price : Z)
    (api_key : option string) (first second : sdk_outcome)
  : Rand (result (option (list hotel))) :=
  fun t =>
    if negb (is_set api_key) then (Ok None, t)
    else
      let (tried_any, raw_text) := try_sdks first second in
      if negb tried_any then (Ok None, t)
      else
        let (found, t0) := json_branch raw_text t in
        match found with
        | Some hs => (Ok (Some hs), t0)
        | None =>
            let text := match raw_text with Some s => s | None => "" end in
            let (r, t1) := hotels_of_lines (splitlines text) t0 in
            (rbind r (fun hs => Ok (match hs with
                                    | [] => None
                                    | _ => Some (firstn 5 hs)
                                    end)), t1)
        end.

(** *** Invoice layout engine *)

(** One entry of [items]: the dictionary with keys [desc], [qty] and
    [rate] that the form builds. *)
Record item : Type := mk_item
  { desc : string;
    qty : Z;
    rate : float }.

(** The calls made on the canvas, in order; the PDF bytes are what
    reportlab serialises from them. *)
Inductive op : Type :=
| Translate (dx dy : float)
| SetFont (name : string) (size : Z)
| DrawString (x y : num) (text : string)
| DrawRightString (x y : num) (text : string)
| Line (x1 y1 x2 y2 : num)
| DrawImage (x y : num) (width height : float)
| ShowPage
| Save.

(** The uploaded logo as the [try] block sees it: reading or drawing
    it fails, or it is an image of [iw] by [ih] pixels. *)
Inductive logo : Type :=
| LogoUnreadable
| LogoImage (iw ih : Z).

(** [reportlab.lib.units.mm] and [reportlab.lib.pagesizes.A4] *)
Definition mm : float := ((72.0 / 2.54) * 0.1)%float.
Definition A4 : float * float := ((fz 210 * mm)%float, (fz 297 * mm)%float).

Definition num_sub (y : num) (k : Z) : num :=
  match y with
  | I z => I (z - k)
  | F f => F (f - fz k)%float
  end.

Definition num_add (y : num) (k : Z) : num :=
  match y with
  | I z => I (z + k)
  | F f => F (f + fz k)%float
  end.

Definition num_lt (y : num) (k : Z) : bool :=
  match y with
  | I z => z <? k
  | F f => (f <? fz k)%float
  end.

Definition margin : float := (fz PAGE_MARGIN_MM * mm)%float.
Definition full_printable_width : float := (fst A4 - fz 2 * margin)%float.
Definition content_width : float := (full_printable_width * 0.70)%float.
Definition left_offset : float :=
  (margin + (full_printable_width - content_width) / fz 2)%float.
Definition top_y_origin : float := (snd A4 - margin)%float.

Definition col_sl_x : num := I 0.
Definition col_desc_x : num := I 36.
Definition col_qty_right : num := F (content_width * 0.60)%float.
Definition col_rate_right : num := F (content_width * 0.80)%float.
Definition col_amount_right : num := F content_width.
Definition desc_max_chars : nat := 50.
Definition right_x : float := (content_width - fz 160)%float.

Definition header_font (font_name : option string) : string :=
  match font_name with
  | Some (String _ _ as n) => n
  | _ => "Helvetica-Bold"
  end.

Definition regular_font (font_name : option string) : string :=
  match font_name with
  | Some (String _ _ as n) => n
  | _ => "Helvetica"
  end.

(** The logo block: the calls made, [title_x] and [top_y].  Any
    exception inside the [try] resets both offsets to 0. *)
Definition draw_logo (logo_file : option logo) : list op * num * num :=
  match logo_file with
  | Some (LogoImage iw ih) =>
      match float_of_Z iw, float_of_Z ih with
      | Some fiw, Some fih =>
          if iw =? 0 then ([], I 0, I 0)
          else
            let logo_w := (fz 40 * mm)%float in
            let logo_h := ((logo_w / fiw) * fih)%float in
            ([DrawImage (I 0) (F (- logo_h)%float) logo_w logo_h],
             F (logo_w + fz 8)%float,
             F (- logo_h / fz 2)%float)
      | _, _ => ([], I 0, I 0)
      end
  | _ => ([], I 0, I 0)
  end.

(** The five cells of one row. *)
Definition row_texts (currency : string) (i : Z) (it : item) (amount : float)
  : list string :=
  [ str_of_Z i;
    shorten (desc it) desc_max_chars "...";
    str_of_Z (qty it);
    money (rate it) currency;
    money amount currency ].

(** The canvas calls of one row at cursor [y]. *)
Definition row_ops (font currency : string) (y : num) (i : Z) (it : item)
    (amount : float) : list op :=
  [ SetFont font 10;
    DrawString col_sl_x y (str_of_Z i);
    DrawString col_desc_x y (shorten (desc it) desc_max_chars "...");
    DrawRightString col_qty_right y (str_of_Z (qty it));
    DrawRightString col_rate_right y (money (rate it) currency);
    DrawRightString col_amount_right y (money amount currency) ].

(** [showPage] and the translation that follows it. *)
Definition page_break_ops : list op :=
  [ ShowPage; Translate left_offset top_y_origin ].

(** The row loop from serial number [i], cursor [y] and running
    [subtotal]: the calls made, the cursor and the subtotal it ends
    with.  [qty * rate] raises when [qty] has no float. *)
Fixpoint draw_rows (font : string) (currency : string) (items : list item)
    (i : Z) (y : num) (subtotal : float) : result (list op * num * float) :=
  match items with
  | [] => Ok ([], y, subtotal)
  | it :: rest =>
      match float_of_Z (qty it) with
      | None => Raise OverflowError
      | Some q =>
          let amount := (q * rate it)%float in
          let subtotal := (subtotal + amount)%float in
          let row := row_ops font currency y i it amount in
          let y := num_sub y 16 in
          let '(brk, y) :=
            if num_lt y (-500)
            then (page_break_ops, I (-40))
            else ([], y) in
          match draw_rows font currency rest (i + 1) y subtotal with
          | Ok (ops, y', subtotal') => Ok ((row ++ brk ++ ops)%list, y', subtotal')
          | Raise e => Raise e
          end
      end
  end.

Definition gst_amount_of (subtotal gst_percent : float) : float :=
  round2 (subtotal * gst_percent / fz 100)%float.

Definition grand_total_of (subtotal gst_percent : float) : float :=
  round2 (subtotal + gst_amount_of subtotal gst_percent)%float.

(** Everything drawn before the row loop: the header block, the
    guest block and the head of the item table, with the cursor the
    row loop starts from. *)
Definition draw_preamble
    (hotel_name hotel_addr guest_name invoice_no date_str room_no : string)
    (gst_no hotel_phone : string)
    (font_name : option string) (logo_file : option logo) : list op * num :=
  let hfont := header_font font_name in
  let rfont := regular_font font_name in
  let '(logo_ops, title_x, top_y) := draw_logo logo_file in
  let head :=
    ([ Translate left_offset top_y_origin ] ++ logo_ops ++
     [ SetFont hfont 18;
       DrawString title_x top_y hotel_name;
       SetFont rfont 9;
       DrawString title_x (num_sub top_y 16) hotel_addr;
       DrawString title_x (num_sub top_y 28) ("Phone: " ++ hotel_phone);
       DrawString title_x (num_sub top_y 40) ("GSTIN: " ++ gst_no);
       SetFont rfont 9;
       DrawString (F right_x) top_y ("Invoice No: " ++ invoice_no);
       DrawString (F right_x) (num_sub top_y 12) ("Date: " ++ date_str);
       Line (I 0) (num_sub top_y 56) (F content_width) (num_sub top_y 56) ])%list in
  let y := num_sub top_y 76 in
  let guest :=
    [ SetFont hfont 10;
      DrawString (I 0) y "Guest Name:";
      SetFont rfont 10;
      DrawString (I 90) y guest_name;
      SetFont hfont 10;
      DrawString (F right_x) y "Room No:";
      SetFont rfont 10;
      DrawString (F (right_x + fz 60)%float) y room_no ] in
  let y := num_sub y 18 in
  let y_head := num_sub y 12 in
  let y_rule := num_sub y_head 6 in
  let table_head :=
    [ SetFont hfont 10;
      DrawString (I 0) y "Items";
      SetFont rfont 10;
      DrawString col_sl_x y_head "SL";
      DrawString col_desc_x y_head "Description";
      DrawRightString col_qty_right y_head "Qty";
      DrawRightString col_rate_right y_head "Rate";
      DrawRightString col_amount_right y_head "Amount";
      Line (I 0) y_rule (F content_width) y_rule ] in
  ((head ++ guest ++ table_head)%list, num_sub y_rule 14).

(** Everything drawn after the row loop, from the cursor [y] and the
    subtotal it ended with. *)
Definition draw_totals (font_name : option string) (currency payment_mode : string)
    (gst_percent : float) (y : num) (subtotal : float) : list op :=
  let hfont := header_font font_name in
  let rfont := regular_font font_name in
  let gst_amount := gst_amount_of subtotal gst_percent in
  let grand_total := grand_total_of subtotal gst_percent in
  let y := num_sub y 8 in
  let y_sub := num_sub y 16 in
  let y_gst := num_sub y_sub 14 in
  let y_tot := num_sub y_gst 14 in
  let y_pay := num_sub y_tot 26 in
  [ Line (I 0) y (F content_width) y;
    SetFont hfont 10;
    DrawRightString (F content_width) y_sub
      ("Subtotal: " ++ money subtotal currency);
    DrawRightString (F content_width) y_gst
      ("GST (" ++ float_repr gst_percent ++ "%): " ++ money gst_amount currency);
    DrawRightString (F content_width) y_tot
      ("Grand Total: " ++ money grand_total currency);
    SetFont rfont 9;
    DrawString (I 0) y_pay ("Payment Mode: " ++ payment_mode);
    DrawString (I 0) (num_sub y_pay 12) "Note: This is a computer-generated bill.";
    Save ].

Definition create_pdf_bytes
    (hotel_name hotel_addr guest_name invoice_no date_str room_no : string)
    (items : list item) (gst_no : string) (gst_percent : float)
    (payment_mode hotel_phone : string)
    (font_name : option string) (logo_file : option logo) (currency : string)
  : result (list op) :=
  let (preamble, y) :=
    draw_preamble hotel_name hotel_addr guest_name invoice_no date_str room_no
      gst_no hotel_phone font_name logo_file in
  match draw_rows (regular_font font_name) currency items 1 y 0%float with
  | Raise e => Raise e
  | Ok (rows, y, subtotal) =>
      Ok (preamble ++ rows ++
          draw_totals font_name currency payment_mode gst_percent y subtotal)%list
  end.

(** *** Typeface staging and the form handler *)

(** [os.remove(path)] on the set of existing paths. *)
Definition remove_file (path : string) (files : list string) : list string :=
  filter (fun p => negb (String.eqb p path)) files.

Definition file_exists (path : string) (files : list string) : bool :=
  existsb (String.eqb path) files.

(** [os.path.basename] *)
Definition basename (path : string) : string :=
  str (rev (take_while (fun c => negb (Ascii.eqb c "/"%char)) (rev (chars path)))).

(** [os.path.splitext(b)[0]]: cut at the last dot unless only dots
    come before it. *)
Definition splitext_root (b : string) : string :=
  let is_dot c := Ascii.eqb c "."%char in
  match drop_while (fun c => negb (is_dot c)) (rev (chars b)) with
  | _ :: before_rev =>
      if existsb (fun c => negb (is_dot c)) before_rev
      then str (rev before_rev)
      else b
  | [] => b
  end.

(** [register_font_from_bytes]: the staged file is written, then the
    registration succeeds ([registers]) or raises after the file has
    been removed again.  Result, files left, tape left. *)
Definition register_font_from_bytes (registers : bool)
    (ttf_bytes filename_hint : string) (files : list string)
  : tape -> result (string * string) * list string * tape :=
  fun t =>
    let (n, t1) := randint 1000 9999 t in
    let path := "./" ++ ".tmp_font_" ++ str_of_Z n ++ "_" ++ filename_hint in
    let files1 := path :: files in
    let name := splitext_root (basename path) in
    if registers then (Ok (name, path), files1, t1)
    else (Raise ExternalError, remove_file path files1, t1).

(** [int(x)] on a float *)
Definition int_of_float (f : float) : result Z :=
  match Prim2SF f with
  | S754_zero _ => Ok 0
  | S754_finite s m e =>
      let v := if 0 <=? e then Zpos m * 2 ^ e else Zpos m / 2 ^ (- e) in
      Ok (if s then - v else v)
  | S754_infinity _ => Raise OverflowError
  | S754_nan => Raise ValueError
  end.

(** The submitted form, with [items] as the form code has built it. *)
Record form : Type := mk_form
  { hotel_name : string;
    city : string;
    hotel_logo : option logo;
    font_file : option (string * string);
    hotel_phone_input : string;
    guest_name : string;
    room_no : string;
    invoice_no : string;
    date_str : string;
    bill_amount : float;
    gst_percent : float;
    force_fallback : bool;
    items : list item }.

(** What the handler meets outside the form: the environment variable,
    what each SDK attempt of each lookup does, whether the typeface
    registers, the files present and the random tape. *)
Record world : Type := mk_world
  { env_api_key : option string;
    addr_sdk1 : sdk_outcome;
    addr_sdk2 : sdk_outcome;
    hotel_sdk1 : sdk_outcome;
    hotel_sdk2 : sdk_outcome;
    font_registers : bool;
    files : list string;
    rng : tape }.

Definition default_currency : string := "₹".

Definition is_nonempty (s : string) : bool :=
  match s with
  | EmptyString => false
  | String _ _ => true
  end.

(** [hotel_name.replace(' ', '_')] *)
Definition underscored (s : string) : string :=
  str (map (fun c => if Ascii.eqb c " "%char then "_"%char else c) (chars s)).

(** The address step of the handler. *)
Definition resolve_address (f : form) (w : world) : Rand string :=
  let addr :=
    if negb (force_fallback f) && is_set (env_api_key w)
    then match call_gemini_for_address (city f) (env_api_key w)
                 (addr_sdk1 w) (addr_sdk2 w) with
         | Ok a => a
         | Raise _ => None
         end
    else None in
  match addr with
  | Some (String _ _ as a) => ret a
  | _ => get_random_address (city f)
  end.

(** The hotel search of the handler, inside its [try]: the price band
    is computed first, and any exception leaves [hotels = None]. *)
Definition search_hotels (f : form) (w : world) : Rand (option (list hotel)) :=
  fun t =>
    if negb (force_fallback f) && is_set (env_api_key w)
    then
      match int_of_float (bill_amount f * 0.8)%float,
            int_of_float (bill_amount f * 1.2)%float with
      | Ok lo, Ok high =>
          let low := Z.max 100 lo in
          let (r, t1) := call_gemini_hotel_search (city f) low high
                           (env_api_key w) (hotel_sdk1 w) (hotel_sdk2 w) t in
          (match r with Ok hs => hs | Raise _ => None end, t1)
      | _, _ => (None, t)
      end
    else (None, t).

(** The phone step: [chosen_phone], or the exception of the fallback
    generator, which nothing catches. *)
Definition choose_phone (f : form) (w : world) : Rand (result (option string)) :=
  fun t =>
    if is_nonempty (strip (hotel_phone_input f)) then (Ok None, t)
    else
      let (found, t1) := search_hotels f w t in
      let '(hotels, t2) :=
        match found with
        | Some ((_ :: _) as hs) => (Ok hs, t1)
        | _ => fallback_hotel_suggestions (city f) (bill_amount f) t1
        end in
      match hotels with
      | Raise e => (Raise e, t2)
      | Ok hs =>
          let (chosen, t3) := choice (mk_hotel "" (I 0) "") hs t2 in
          let (ph, t4) := phone_or_random (Some (h_phone chosen)) t3 in
          (Ok (Some ph), t4)
      end.

(** The [if submitted:] block.  It gives the download (file name and
    rendering) or the exception that ends the run, the files present
    afterwards and the tape left. *)
Definition handle_submit (f : form) (w : world)
  : result (string * list op) * list string * tape :=
  let '(font_name, font_tmp_path, files1, t1) :=
    match font_file f with
    | Some (font_bytes, name) =>
        match register_font_from_bytes (font_registers w) font_bytes name
                (files w) (rng w) with
        | (Ok (n, p), fs, t) => (Some n, Some p, fs, t)
        | (Raise _, fs, t) => (None, None, fs, t)
        end
    | None => (None, None, files w, rng w)
    end in
  let (addr, t2) := resolve_address f w t1 in
  let (chosen_phone, t3) := choose_phone f w t2 in
  match chosen_phone with
  | Raise e => (Raise e, files1, t3)
  | Ok chosen =>
      let (hotel_phone_final, t4) :=
        if is_nonempty (strip (hotel_phone_input f))
        then (strip (hotel_phone_input f), t3)
        else phone_or_random chosen t3 in
      let (gst_no, t5) := rand_gst_number t4 in
      match create_pdf_bytes (hotel_name f) addr (guest_name f) (invoice_no f)
              (date_str f) (room_no f) (items f) gst_no (gst_percent f)
              "Cash" hotel_phone_final font_name (hotel_logo f)
              default_currency with
      | Raise e => (Raise e, files1, t5)
      | Ok pdf_bytes =>
          let fname := underscored (hotel_name f) ++ "_bill.pdf" in
          let files2 :=
            match font_tmp_path with
            | Some (String _ _ as p) => remove_file p files1
            | _ => files1
            end in
          (Ok (fname, pdf_bytes), files2, t5)
      end
  end.

End Program.

(** ** Item entry of the form *)

(** [s.split(",")] *)
Fixpoint split_comma_from (cur l : list ascii) : list string :=
  match l with
  | [] => [str (rev cur)]
  | c :: l' =>
      if Ascii.eqb c ","%char then str (rev cur) :: split_comma_from [] l'
      else split_comma_from (c :: cur) l'
  end.

Definition split_comma (s : string) : list string := split_comma_from [] (chars s).

(** An optional sign in front of [l]: whether it is a minus, and the
    rest. *)
Definition take_sign (l : list ascii) : bool * list ascii :=
  match l with
  | c :: r =>
      if Ascii.eqb c "-"%char then (true, r)
      else if Ascii.eqb c "+"%char then (false, r)
      else (false, l)
  | [] => (false, l)
  end.

(** Digits with single underscores between them, as [int] reads
    them: at least one digit, and every underscore has a digit on
    both sides. *)
Fixpoint grouped_digits_from (prev_digit : bool) (l : list ascii) : bool :=
  match l with
  | [] => prev_digit
  | c :: l' =>
      if is_digit c then grouped_digits_from true l'
      else if Ascii.eqb c "_"%char then prev_digit && grouped_digits_from false l'
      else false
  end.

(** The default of [sys.int_max_str_digits]. *)
Definition int_max_str_digits : nat := 4300.

(** [int(s)] on a string: blanks around, a sign, grouped digits;
    [ValueError] otherwise, and beyond the digit limit. *)
Definition py_int (s : string) : result Z :=
  let (neg, body) := take_sign (chars (strip s)) in
  if grouped_digits_from false body
  then
    let ds := filter is_digit body in
    if (int_max_str_digits <? List.length ds)%nat then Raise ValueError
    else Ok (if neg then - digits_value ds else digits_value ds)
  else Raise ValueError.

(** The underscores [float] accepts: each between two digits.  The
    text without them, or [None]. *)
Fixpoint without_underscores (prev : ascii) (l : list ascii) : option (list ascii) :=
  match l with
  | [] => if Ascii.eqb prev "_"%char then None else Some []
  | c :: l' =>
      if Ascii.eqb c "_"%char
      then if is_digit prev then without_underscores c l' else None
      else if Ascii.eqb prev "_"%char && negb (is_digit c) then None
           else match without_underscores c l' with
                | Some r => Some (c :: r)
                | None => None
                end
  end.

(** A literal at the head of [l] whatever the case of its letters. *)
Definition eat_nocase (lit : string) (l : list ascii) : option (list ascii) :=
  eat (chars lit) (map to_lower (firstn (String.length lit) l) ++ skipn (String.length lit) l)%list.

(** The exponent part [e[+-]digits] at the end of a decimal, if [l]
    is one; no exponent is exponent 0. *)
Definition exponent_of (l : list ascii) : option Z :=
  match l with
  | [] => Some 0
  | c :: r =>
      if Ascii.eqb (to_lower c) "e"%char
      then let (neg, ds) := take_sign r in
           match ds with
           | [] => None
           | _ => if forallb is_digit ds
                  then Some (if neg then - digits_value ds else digits_value ds)
                  else None
           end
      else None
  end.

(** The nearest float to [m * 10^e]. *)
Definition float_of_decimal (neg : bool) (m e : Z) : float :=
  if 0 <=? e then float_of_ratio neg (m * 10 ^ e) 1
  else float_of_ratio neg m (Z.to_pos (10 ^ (- e))).

(** [float(s)] on a string: blanks around, grouping underscores, a
    sign, then [inf], [infinity], [nan] or a decimal with an optional
    fraction and exponent; [ValueError] otherwise. *)
Definition py_float (s : string) : result float :=
  match without_underscores "000"%char (chars (strip s)) with
  | None => Raise ValueError
  | Some l =>
      let (neg, body) := take_sign l in
      match eat_nocase "inf" body with
      | Some rest =>
          match rest with
          | [] => Ok (if neg then neg_infinity else infinity)
          | _ => match eat_nocase "inity" rest with
                 | Some [] => Ok (if neg then neg_infinity else infinity)
                 | _ => Raise ValueError
                 end
          end
      | None =>
          match eat_nocase "nan" body with
          | Some [] => Ok nan
          | Some _ => Raise ValueError
          | None =>
              let ip := take_while is_digit body in
              let after := drop_while is_digit body in
              let '(fp, tail) :=
                match after with
                | dot :: r =>
                    if Ascii.eqb dot "."%char
                    then (take_while is_digit r, drop_while is_digit r)
                    else ([], after)
                | [] => ([], after)
                end in
              match ip, fp with
              | [], [] => Raise ValueError
              | _, _ =>
                  match exponent_of tail with
                  | Some e =>
                      Ok (float_of_decimal neg (digits_value (ip ++ fp)%list)
                            (e - Z.of_nat (List.length fp)))
                  | None => Raise ValueError
                  end
              end
          end
      end
  end.

(** The loop over the lines of the text area: a line with fewer than
    three fields, or whose quantity or rate does not read, is
    skipped. *)
Fixpoint parse_item_lines (lines : list string) : list item :=
  match lines with
  | [] => []
  | line :: rest =>
      match map strip (split_comma line) with
      | d :: q :: r :: _ =>
          match py_int q, py_float r with
          | Ok qv, Ok rv => mk_item d qv rv :: parse_item_lines rest
          | _, _ => parse_item_lines rest
          end
      | _ => parse_item_lines rest
      end
  end.

(** [items] as the form builds it: the lines of the text area when
    "Add extra items" is ticked, else one item worth the bill
    amount. *)
Definition build_items (item_desc : string) (add_custom_items : bool)
    (raw_items : string) (bill_amount : float) : list item :=
  if add_custom_items
  then parse_item_lines (splitlines (strip raw_items))
  else [ mk_item item_desc 1 bill_amount ].

(** ** Notions used to state the properties *)

(** A positional pattern: one character class per position. *)
Fixpoint matches (pat : list (ascii -> bool)) (l : list ascii) : bool :=
  match pat, l with
  | [], [] => true
  | p :: pat', c :: l' => p c && matches pat' l'
  | _, _ => false
  end.

(** 2 digits, 5 letters, 4 digits, 1 letter, 1 digit, [Z], 1 letter. *)
Definition gst_pattern : list (ascii -> bool) :=
  ([is_digit; is_digit] ++ repeat is_upper 5 ++ repeat is_digit 4 ++
   [is_upper; is_digit; Ascii.eqb "Z"%char; is_upper])%list.

Definition is_gst_number (s : string) : bool := matches gst_pattern (chars s).

(** The amount of one row, [qty * rate], when [qty] has a float. *)
Definition amount_of (it : item) : option float :=
  match float_of_Z (qty it) with
  | Some q => Some (q * rate it)%float
  | None => None
  end.

(** The amounts of all rows. *)
Fixpoint amounts_of (l : list item) : option (list float) :=
  match l with
  | [] => Some []
  | it :: rest =>
      match amount_of it, amounts_of rest with
      | Some a, Some l' => Some (a :: l')
      | _, _ => None
      end
  end.

(** The running total: the amounts added one after the other, in
    binary64, none of them rounded to cents. *)
Definition float_sum (s : float) (l : list float) : float :=
  fold_left (fun acc a => (acc + a)%float) l s.


(** The text a canvas call draws, if it draws one. *)
Definition op_text (o : op) : option string :=
  match o with
  | DrawString _ _ s | DrawRightString _ _ s => Some s
  | _ => None
  end.

Fixpoint draw_texts (ops : list op) : list string :=
  match ops with
  | [] => []
  | o :: rest =>
      match op_text o with
      | Some s => s :: draw_texts rest
      | None => draw_texts rest
      end
  end.

Definition is_show_page (o : op) : bool :=
  match o with
  | ShowPage => true
  | _ => false
  end.

(** The calls of each page: [showPage] ends a page. *)
Fixpoint pages_of (ops : list op) : list (list op) :=
  match ops with
  | [] => [[]]
  | o :: rest =>
      match pages_of rest with
      | [] => [[o]]
      | p :: ps => if is_show_page o then [] :: p :: ps else (o :: p) :: ps
      end
  end.

Definition page_texts (ops : list op) : list (list string) :=
  map draw_texts (pages_of ops).

Definition page_breaks (ops : list op) : nat :=
  List.length (filter is_show_page ops).

(** The items with their serial numbers from [i] on, and the amount of
    each. *)
Fixpoint numbered (i : Z) (l : list (item * float)) : list (Z * item * float) :=
  match l with
  | [] => []
  | (it, a) :: rest => (i, it, a) :: numbered (i + 1) rest
  end.

(** The rows with their numbers and amounts. *)
Definition numbered_rows (i : Z) (l : list item) (amts : list float) :=
  numbered i (combine l amts).

(** The row cursor after [k] rows when no page break intervenes. *)
Fixpoint cursor_after (k : nat) (y : num) : num :=
  match k with
  | O => y
  | S k' => cursor_after k' (num_sub y 16)
  end.

(** Where the first row is drawn when there is no logo. *)
Definition first_row_y : num := I (-126).

(** [bill - 20% <= p <= bill + 20%] *)
Definition within_20_percent (bill : float) (p : num) : bool :=
  num_within (bill - bill * 0.2)%float (bill + bill * 0.2)%float p.

(** The price the generator derives from the draw [k] of
    [random.random()]. *)
Definition perturbed_price (bill : float) (k : Z) : num :=
  let u := (-0.2 + (0.2 - -0.2) * unit_float k)%float in
  max_500 (round2 (bill + bill * u)%float).

(** The cells of a list of numbered rows, row after row. *)
Definition rows_texts (shorten : string -> nat -> string -> string)
    (currency : string) (l : list (Z * item * float)) : list string :=
  flat_map (fun x => row_texts shorten currency (fst (fst x)) (snd (fst x)) (snd x)) l.

(** A trace made of whole rows, each at one cursor position and each
    followed by a page break or by nothing. *)
Inductive row_blocks (shorten : string -> nat -> string -> string)
    (font currency : string) : list (Z * item * float) -> list op -> Prop :=
| blocks_nil : row_blocks shorten font currency [] []
| blocks_row i it a rest y ops :
    row_blocks shorten font currency rest ops ->
    row_blocks shorten font currency ((i, it, a) :: rest)
      (row_ops shorten font currency y i it a ++ ops)
| blocks_break i it a rest y ops :
    row_blocks shorten font currency rest ops ->
    row_blocks shorten font currency ((i, it, a) :: rest)
      (row_ops shorten font currency y i it a ++ page_break_ops ++ ops).

(** Instances of the two abstract text functions for the runs below:
    [shorten] leaves a description alone when it has no blank to
    normalise and fits the width, as those runs' descriptions do, and
    5.0 prints as [5.0]. *)
Definition shorten_fitting (s : string) (width : nat) (placeholder : string) : string := s.
Definition repr_five (f : float) : string := "5.0".

(** The default form: one item worth the bill amount of 1000. *)
Definition default_items : list item := [ mk_item "Room & Services" 1 1000%float ].

(** Thirty rooms at 1000 each. *)
Definition thirty_items : list item := repeat (mk_item "Room" 1 1000%float) 30.



(** The default invoice around a list of items, tax at 5 percent. *)
Definition sample_invoice (l : list item) : result (list op) :=
  create_pdf_bytes shorten_fitting repr_five DEFAULT_HOTEL_NAME
    "87 Marine Drive, Mumbai" "Guest" "INV-1" "2026-11-04" "101" l
    "27ABCDE1234F1Z5" DEFAULT_GST_PERCENT "Cash" "+91-6001000000" None None "Rs".

(** The path under which the handler stages an uploaded typeface. *)
Definition staged_path (w : world) (name : string) : string :=
  "./" ++ ".tmp_font_" ++ str_of_Z (fst (randint 1000 9999 (rng w))) ++ "_" ++ name.

(** A price comes from a draw: it is [perturbed_price] at some [k]
    below [2^53]. *)
Definition price_from_draw (bill : float) (p : num) : Prop :=
  exists k, 0 <= k < 2 ^ 53 /\ p = perturbed_price bill k.




(** Above the +20% band around the bill amount. *)
Definition above_20_percent (bill : float) (p : num) : bool :=
  match p with
  | I y => (bill + bill * 0.2 <? fz y)%float
  | F f => (bill + bill * 0.2 <? f)%float
  end.

(** ** Notions used to state the further properties *)

(** A text of ASCII characters only. *)
Definition is_ascii_char (c : ascii) : bool := (nat_of_ascii c <? 128)%nat.

Definition is_ascii (s : string) : bool := forallb is_ascii_char (chars s).

(** "+91-", a digit of 6..9, then nine digits. *)
Definition is_six_to_nine (c : ascii) : bool :=
  let n := nat_of_ascii c in (54 <=? n)%nat && (n <=? 57)%nat.

Definition mobile_pattern : list (ascii -> bool) :=
  ([Ascii.eqb "+"%char; Ascii.eqb "9"%char; Ascii.eqb "1"%char; Ascii.eqb "-"%char;
    is_six_to_nine] ++ repeat is_digit 9)%list.

Definition is_mobile_number (s : string) : bool := matches mobile_pattern (chars s).

(** The shape of a synthetic hotel candidate for a city whose first
    word is [w]: one of the six names followed by the word in title
    case, and a phone number of the fixed pattern. *)
Definition synthetic_hotel (w : string) (h : hotel) : Prop :=
  (exists nm, In nm hotel_names /\ h_name h = nm ++ " " ++ title w) /\
  is_mobile_number (h_phone h) = true.

(** A text whose first run of digits and commas holds commas only,
    with no fraction after it. *)
Definition lone_commas (part : string) : bool :=
  match drop_while (fun c => negb (is_digit_or_comma c)) (chars part) with
  | [] => false
  | l =>
      forallb (fun c => Ascii.eqb c ","%char) (take_while is_digit_or_comma l) &&
      negb match drop_while is_digit_or_comma l with
           | dot :: d :: _ => Ascii.eqb dot "."%char && is_digit d
           | _ => false
           end
  end.

(** A response line whose second dash-separated part is such a
    text. *)
Definition price_unreadable (raw_line : string) : bool :=
  match strip raw_line with
  | EmptyString => false
  | line =>
      match split_dash line with
      | _ :: p1 :: _ => lone_commas p1
      | _ => false
      end
  end.

(** A response made of ASCII characters, or none. *)
Definition ascii_response (raw_text : option string) : bool :=
  match raw_text with
  | Some s => is_ascii s
  | None => true
  end.

(** SDKs whose responses, if any, are made of ASCII characters. *)
Definition ascii_outcome (o : sdk_outcome) : bool :=
  match o with
  | Responds text => is_ascii text
  | _ => true
  end.

Definition ascii_sdks (w : world) : bool :=
  ascii_outcome (addr_sdk1 w) && ascii_outcome (addr_sdk2 w) &&
  ascii_outcome (hotel_sdk1 w) && ascii_outcome (hotel_sdk2 w).

(** A line of the response with its quotes and brackets removed, as
    the address scan cleans it. *)
Definition cleaned_line (line : string) : string :=
  strip_trailing closing_marks (strip_leading opening_marks (strip line)).

(** Whether the handler leaves the enrichment client alone: "Force
    fallback" is ticked or the credential is not set. *)
Definition enrichment_off (f : form) (w : world) : bool :=
  force_fallback f || negb (is_set (env_api_key w)).

(** The form with "Force fallback" ticked. *)
Definition with_force_fallback (f : form) : form :=
  mk_form (hotel_name f) (city f) (hotel_logo f) (font_file f)
    (hotel_phone_input f) (guest_name f) (room_no f) (invoice_no f)
    (date_str f) (bill_amount f) (gst_percent f) true (items f).

(** The world with other SDK outcomes. *)
Definition with_sdks (w : world) (a1 a2 h1 h2 : sdk_outcome) : world :=
  mk_world (env_api_key w) a1 a2 h1 h2 (font_registers w) (files w) (rng w).

(** A form and a world for the runs below: the defaults of the form,
    a typeface upload, no credential. *)
Definition sample_form (phone : string) (l : list item) : form :=
  mk_form DEFAULT_HOTEL_NAME "Mumbai" None (Some ("ttf", "Roboto.ttf"))
    phone "Guest" "101" "INV-1" "2026-11-04" 1000%float 5%float false l.

Definition sample_world : world :=
  mk_world None ImportFails ImportFails ImportFails ImportFails true [] [3%N].

Definition sample_run (phone : string) (l : list item)
  : result (string * list op) * list string * tape :=
  handle_submit shorten_fitting repr_five
    (fun _ => Raise ExternalError) (fun _ => Raise ExternalError)
    (sample_form phone l) sample_world.




(** The texts drawn at the left edge, where the row loop writes the
    serial numbers. *)
Definition serial_cells (ops : list op) : list string :=
  flat_map (fun o => match o with
                     | DrawString (I 0) _ s => [s]
                     | _ => []
                     end) ops.

(** The typefaces a trace selects, in order. *)
Definition fonts_of (ops : list op) : list string :=
  flat_map (fun o => match o with
                     | SetFont n _ => [n]
                     | _ => []
                     end) ops.


(** A finite float whose sign bit is clear. *)
Definition finite_nonnegative (x : float) : bool :=
  match Prim2SF x with
  | S754_zero false | S754_finite false _ _ => true
  | _ => false
  end.

(** Reading an amount back from its display: the digits of the whole
    part, from the right, in groups of three set off by commas. *)
Fixpoint ungroup_rev (l : list ascii) : option (list ascii) :=
  match l with
  | a :: b :: c :: sep :: rest =>
      if Ascii.eqb sep ","%char && is_digit a && is_digit b && is_digit c
      then match ungroup_rev rest with
           | Some r => Some (a :: b :: c :: r)
           | None => None
           end
      else None
  | [] => None
  | _ => if forallb is_digit l then Some l else None
  end.

(** The hundredths a text of the shape [-#,###.##] stands for. *)
Definition read_amount (s : string) : option Z :=
  let (neg, body) := match chars s with
                     | "-"%char :: r => (true, r)
                     | r => (false, r)
                     end in
  match rev body with
  | d2 :: d1 :: dot :: whole_rev =>
      if Ascii.eqb dot "."%char && is_digit d1 && is_digit d2
      then match ungroup_rev whole_rev with
           | Some w =>
               let v := digits_value (rev w) * 100 + digits_value [d1; d2] in
               Some (if neg then - v else v)
           | None => None
           end
      else None
  | _ => None
  end.

(** A text without a comma. *)
Definition comma_free (s : string) : bool :=
  forallb (fun c => negb (Ascii.eqb c ","%char)) (chars s).

(** A line of the text area as the form's hint asks for it:
    [desc,qty,rate], the quantity in decimal writing. *)
Definition item_line (d : string) (q : Z) (rate_text : string) : string :=
  d ++ "," ++ str_of_Z q ++ "," ++ rate_text.

(** * Properties *)

(** ** The random source *)

Lemma draw_tape (t : tape) : exists d t', draw t = (d, t').
Proof. destruct t as [|d t']; simpl; eauto. Qed.

Lemma randint_range (a b : Z) (t : tape) :
  a <= b -> a <= fst (randint a b t) <= b.
Proof.
  intros Hab. unfold randint.
  destruct (draw t) as [d t']. simpl.
  pose proof (Z.mod_pos_bound (Z.of_N d) (b - a + 1)). lia.
Qed.

Lemma choice_In {A} (dflt : A) (l : list A) (t : tape) :
  l <> [] -> In (fst (choice dflt l t)) l.
Proof.
  intros Hl. unfold choice.
  destruct (draw t) as [d t']. simpl.
  apply nth_In. apply Nat.mod_upper_bound.
  destruct l; [congruence | simpl; lia].
Qed.

Lemma repeatM_Forall {A} (P : A -> Prop) (m : Rand A) :
  (forall t, P (fst (m t))) ->
  forall n t, Forall P (fst (repeatM n m t)) /\ List.length (fst (repeatM n m t)) = n.
Proof.
  intros Hm. induction n as [|n IH]; intros t; simpl.
  - split; [constructor | reflexivity].
  - specialize (Hm t). destruct (m t) as [a t1]. simpl in Hm.
    specialize (IH t1). destruct (repeatM n m t1) as [l t2]. simpl in *.
    destruct IH as [IH1 IH2]. split; [constructor; assumption | congruence].
Qed.

(** Checking a boolean property on every integer of a range. *)
Lemma forall_range (P : Z -> bool) (a : Z) (n : nat) :
  forallb P (map (fun k => a + Z.of_nat k) (seq 0 n)) = true ->
  forall z, a <= z < a + Z.of_nat n -> P z = true.
Proof.
  intros H z Hz. rewrite forallb_forall in H. apply H.
  apply in_map_iff. exists (Z.to_nat (z - a)). split; [lia|].
  apply in_seq. lia.
Qed.

(** ** Strings *)

Lemma chars_str (l : list ascii) : chars (str l) = l.
Proof. apply list_ascii_of_string_of_list_ascii. Qed.

Lemma str_chars (s : string) : str (chars s) = s.
Proof. apply string_of_list_ascii_of_string. Qed.

Lemma chars_app (a b : string) : chars (a ++ b) = (chars a ++ chars b)%list.
Proof. induction a as [|c a IH]; simpl; [reflexivity | now rewrite <- IH]. Qed.

Lemma matches_app (p1 p2 : list (ascii -> bool)) (l1 l2 : list ascii) :
  matches p1 l1 = true -> matches p2 l2 = true ->
  matches (p1 ++ p2) (l1 ++ l2) = true.
Proof.
  revert l1. induction p1 as [|p p1 IH]; intros [|c l1]; simpl; try discriminate; auto.
  intros H1 H2. apply andb_true_iff in H1 as [Hp H1].
  rewrite Hp. simpl. now apply IH.
Qed.

Lemma matches_repeat (p : ascii -> bool) (l : list ascii) :
  Forall (fun c => p c = true) l -> matches (repeat p (List.length l)) l = true.
Proof.
  induction 1 as [|c l Hc _ IH]; simpl; [reflexivity | now rewrite Hc].
Qed.

Lemma upper_choice (t : tape) :
  is_upper (fst (choice "A"%char uppercase_letters t)) = true.
Proof.
  assert (H : Forall (fun c => is_upper c = true) uppercase_letters)
    by (apply Forall_forall; apply forallb_forall; reflexivity).
  rewrite Forall_forall in H. apply H. apply choice_In. discriminate.
Qed.

Lemma digit_choice (t : tape) :
  is_digit (fst (choice "0"%char decimal_digits t)) = true.
Proof.
  assert (H : Forall (fun c => is_digit c = true) decimal_digits)
    by (apply Forall_forall; apply forallb_forall; reflexivity).
  rewrite Forall_forall in H. apply H. apply choice_In. discriminate.
Qed.

Lemma format_02d_two_digits (n : Z) :
  1 <= n <= 35 -> matches [is_digit; is_digit] (chars (format_02d n)) = true.
Proof.
  intros Hn.
  apply (forall_range (fun z => matches [is_digit; is_digit] (chars (format_02d z))) 1 35);
    [vm_compute; reflexivity | lia].
Qed.

Lemma str_of_Z_one_digit (n : Z) :
  1 <= n <= 9 -> matches [is_digit] (chars (str_of_Z n)) = true.
Proof.
  intros Hn.
  apply (forall_range (fun z => matches [is_digit] (chars (str_of_Z z))) 1 9);
    [vm_compute; reflexivity | lia].
Qed.

(** ** Synthetic data generators *)

(** C6. Whatever the random draws are, the tax ID is 15 characters
    long and reads: 2 digits, 5 uppercase letters, 4 digits, 1
    uppercase letter, 1 digit, the letter Z, 1 uppercase letter. *)
Theorem rand_gst_number_pattern (t : tape) :
  is_gst_number (fst (rand_gst_number t)) = true.
Proof.
  unfold rand_gst_number, bind, ret, is_gst_number, gst_pattern.
  pose proof (randint_range 1 35 t ltac:(lia)) as Hn.
  destruct (randint 1 35 t) as [n t1]. simpl in Hn.
  destruct (repeatM_Forall (fun c => is_upper c = true) _ upper_choice 5 t1) as [Hl5 Len5].
  destruct (repeatM 5 (choice "A"%char uppercase_letters) t1) as [l5 t2]. simpl in Hl5, Len5.
  destruct (repeatM_Forall (fun c => is_digit c = true) _ digit_choice 4 t2) as [Hd4 Len4].
  destruct (repeatM 4 (choice "0"%char decimal_digits) t2) as [d4 t3]. simpl in Hd4, Len4.
  pose proof (upper_choice t3) as Hl1.
  destruct (choice "A"%char uppercase_letters t3) as [l1 t4]. simpl in Hl1.
  pose proof (randint_range 1 9 t4 ltac:(lia)) as Hk.
  destruct (randint 1 9 t4) as [k t5]. simpl in Hk.
  pose proof (upper_choice t5) as Hl2.
  destruct (choice "A"%char uppercase_letters t5) as [l2 t6]. simpl in Hl2.
  cbn [fst]. rewrite !chars_app, !chars_str.
  apply matches_app; [now apply format_02d_two_digits|].
  rewrite <- !app_assoc.
  apply matches_app; [rewrite <- Len5; now apply matches_repeat|].
  apply matches_app; [rewrite <- Len4; now apply matches_repeat|].
  apply (matches_app [is_upper] _ [l1]); [simpl; now rewrite Hl1|].
  apply (matches_app [is_digit] _ (chars (str_of_Z k))); [now apply str_of_Z_one_digit|].
  simpl. now rewrite Hl2.
Qed.

Lemma prefix_refl (s : string) : prefix s s = true.
Proof.
  induction s as [|c s IH]; simpl; [reflexivity|].
  destruct (ascii_dec c c); [exact IH | congruence].
Qed.

Lemma contains_suffix (a p : string) : contains (a ++ p) p = true.
Proof.
  induction a as [|c a IH]; simpl.
  - destruct p as [|c p]; [reflexivity|].
    change (prefix (String c p) (String c p) || contains p (String c p) = true).
    now rewrite prefix_refl.
  - rewrite IH. apply orb_true_r.
Qed.

Lemma contains_app_r (a b p : string) : contains b p = true -> contains (a ++ b) p = true.
Proof.
  intros H. induction a as [|c a IH]; simpl; [exact H|].
  rewrite IH. apply orb_true_r.
Qed.

Lemma startswith_mumbai_lookup (c : string) :
  startswith c "mumbai" = true ->
  (lookup_city c = Some mumbai_addresses \/ lookup_city c = None) /\
  lookup_city_prefix c = Some mumbai_addresses.
Proof.
  intros H. split.
  - unfold lookup_city, city_addresses. cbn [find fst snd].
    repeat match goal with
           | |- context [String.eqb c ?k] =>
               let E := fresh "E" in
               destruct (String.eqb c k) eqn:E;
               [ apply String.eqb_eq in E; subst c;
                 first [ now left | discriminate H ] | ]
           end.
    now right.
  - unfold lookup_city_prefix, city_addresses. cbn [find fst snd].
    now rewrite H.
Qed.

(** C5. A city that reads "mumbai" once stripped and lowered, or that
    goes on after it, always gets one of the 4 curated Mumbai
    addresses; "Nowhereville" gets "<number> <street>, Nowhereville";
    the empty city gets the fixed placeholder. *)
Theorem get_random_address_cases :
  (forall city t,
      startswith (lower (strip city)) "mumbai" = true ->
      In (fst (get_random_address city t)) mumbai_addresses /\
      List.length mumbai_addresses = 4%nat) /\
  (forall t, exists n street,
      1 <= n <= 300 /\ In street street_names /\
      fst (get_random_address "Nowhereville" t)
      = str_of_Z n ++ " " ++ street ++ ", " ++ "Nowhereville" /\
      contains (fst (get_random_address "Nowhereville" t)) "Nowhereville" = true) /\
  (forall t, fst (get_random_address "" t) = generic_address).
Proof.
  split; [|split].
  - intros city t H. split; [|reflexivity].
    destruct (startswith_mumbai_lookup _ H) as [Hexact Hpre].
    unfold get_random_address.
    destruct city as [|c0 city']; [discriminate H|].
    destruct Hexact as [-> | ->].
    + apply choice_In. discriminate.
    + rewrite Hpre. apply choice_In. discriminate.
  - intros t.
    assert (E : get_random_address "Nowhereville" t
                = (street_num <- randint 1 300 ;;
                   street <- choice "" street_names ;;
                   ret (str_of_Z street_num ++ " " ++ street ++ ", " ++ "Nowhereville"))%rand t)
      by reflexivity.
    rewrite E. unfold bind, ret.
    pose proof (randint_range 1 300 t ltac:(lia)) as Hn.
    destruct (randint 1 300 t) as [n t1]. simpl in Hn.
    pose proof (choice_In "" street_names t1 ltac:(discriminate)) as Hs.
    destruct (choice "" street_names t1) as [street t2]. cbn [fst] in Hs.
    exists n, street. cbn [fst].
    split; [lia|]. split; [exact Hs|]. split; [reflexivity|].
    do 4 apply contains_app_r.
    apply (contains_suffix "").
  - intros t. reflexivity.
Qed.

Lemma uniform_draw (t : tape) :
  exists k t', 0 <= k < 2 ^ 53 /\
    uniform (-0.2)%float 0.2%float t
    = ((-0.2 + (0.2 - -0.2) * unit_float k)%float, t').
Proof.
  unfold uniform, random_unit.
  destruct (draw t) as [d t'].
  exists (Z.of_N d mod 2 ^ 53), t'. split; [|reflexivity].
  apply Z.mod_pos_bound. reflexivity.
Qed.

Lemma suggestions_loop_spec (city : string) (bill : float) (w : string) (ws : list string) :
  split_ws city = w :: ws ->
  forall n t, exists hs,
    fst (suggestions_loop n city bill t) = Ok hs /\
    List.length hs = n /\
    Forall (fun h => price_from_draw bill (h_price h)) hs.
Proof.
  intros Hw. induction n as [|n IH]; intros t.
  - exists []. simpl. repeat split. constructor.
  - cbn [suggestions_loop]. rewrite Hw.
    destruct (choice "" hotel_names t) as [nm t1].
    destruct (uniform_draw t1) as (k & t2 & Hk & ->).
    destruct (rand_mobile t2) as [phone t3].
    destruct (IH t3) as (hs & E & Hlen & Hall).
    destruct (suggestions_loop n city bill t3) as [rest t4].
    cbn [fst] in E. subst rest. cbn [fst rbind].
    eexists. split; [reflexivity|]. split; [simpl; congruence|].
    constructor; [|exact Hall].
    exists k. split; [exact Hk | reflexivity].
Qed.

Lemma max_500_at_least_500 (r : float) : int_le_num 500 (max_500 r) = true.
Proof.
  unfold max_500. destruct (fz 500 <? r)%float eqn:E.
  - cbn [int_le_num]. rewrite ltb_spec in E. rewrite leb_spec.
    unfold SFltb in E. unfold SFleb.
    destruct (SFcompare (Prim2SF (fz 500)) (Prim2SF r)) as [[]|]; congruence.
  - reflexivity.
Qed.

(** The generator raises on a city without a word, empty or blank. *)
Lemma fallback_raises_on_blank_city (city : string) (bill : float) (t : tape) :
  split_ws city = [] ->
  fst (fallback_hotel_suggestions city bill t) = Raise IndexError.
Proof.
  intros H. unfold fallback_hotel_suggestions. cbn [suggestions_loop].
  rewrite H. destruct (choice "" hotel_names t). reflexivity.
Qed.

(** C10. For a city with at least one word, whatever the bill amount
    and the draws, each of the three candidate prices is at least 500:
    a rounded price that is not above 500 is replaced by 500.  A city
    without a word makes the generator raise, so no price is returned
    for it.  With a bill amount of 100 the three prices of a run are
    500 each, above the +20% band. *)
Theorem fallback_prices_at_least_500 :
  (forall city bill t,
      split_ws city <> [] ->
      exists hs,
        fst (fallback_hotel_suggestions city bill t) = Ok hs /\
        Forall (fun h => int_le_num 500 (h_price h) = true) hs) /\
  (forall city bill t,
      split_ws city = [] ->
      fst (fallback_hotel_suggestions city bill t) = Raise IndexError) /\
  (exists h1 h2 h3,
      fst (fallback_hotel_suggestions "Mumbai" 100%float [5%N; 1%N; 9%N])
      = Ok [h1; h2; h3] /\
      Forall (fun h => h_price h = I 500 /\
                       above_20_percent 100%float (h_price h) = true)
        [h1; h2; h3]).
Proof.
  split.
  - intros city bill t Hcity.
    destruct (split_ws city) as [|w ws] eqn:Hw; [congruence|].
    destruct (suggestions_loop_spec city bill w ws Hw 3 t) as (hs & E & _ & Hall).
    exists hs. split; [exact E|].
    eapply Forall_impl; [|exact Hall].
    intros h (k & _ & ->). apply max_500_at_least_500.
  - split; [exact fallback_raises_on_blank_city|].
    do 3 eexists. split; [vm_compute; reflexivity|].
    repeat constructor.
Qed.

(** C8, as amended. For a city with at least one word, whatever the
    bill amount and the draws, exactly three candidates are returned,
    and each price is 500 unless the two-decimal rounding of
    bill + bill * u is above 500, in which case it is that rounding;
    u = -0.2 + 0.4 * r for a draw r = k / 2^53 of the unit interval. *)
Theorem fallback_three_candidates (city : string) (bill : float) (t : tape) :
  split_ws city <> [] ->
  exists h1 h2 h3,
    fst (fallback_hotel_suggestions city bill t) = Ok [h1; h2; h3] /\
    Forall (fun h => price_from_draw bill (h_price h)) [h1; h2; h3].
Proof.
  intros Hcity.
  destruct (split_ws city) as [|w ws] eqn:Hw; [congruence|].
  destruct (suggestions_loop_spec city bill w ws Hw 3 t) as (hs & E & Hlen & Hall).
  destruct hs as [|h1 [|h2 [|h3 [|h4 hs]]]]; try discriminate Hlen.
  exists h1, h2, h3. split; assumption.
Qed.

Lemma fallback_three_candidates_witness :
  exists h1 h2 h3,
    fst (fallback_hotel_suggestions "New Delhi" 1000%float [3%N; 4503599627370496%N])
    = Ok [h1; h2; h3] /\
    Forall (fun h => price_from_draw 1000%float (h_price h)) [h1; h2; h3].
Proof.
  apply (fallback_three_candidates "New Delhi" 1000%float [3%N; 4503599627370496%N]).
  vm_compute. discriminate.
Defined.

(** C8, as stated, fails: with a bill amount of 100 every candidate
    costs 500, outside 80..120. *)
Lemma fallback_prices_outside_band :
  exists h1 h2 h3,
    fst (fallback_hotel_suggestions "Mumbai" 100%float []) = Ok [h1; h2; h3] /\
    h_price h1 = I 500 /\
    within_20_percent 100%float (h_price h1) = false.
Proof.
  do 3 eexists. split; [vm_compute; reflexivity|].
  split; vm_compute; reflexivity.
Qed.


Lemma fallback_prices_at_least_500_witness :
  exists hs,
    fst (fallback_hotel_suggestions "Mumbai" 1000%float [1%N; 2%N]) = Ok hs /\
    Forall (fun h => int_le_num 500 (h_price h) = true) hs.
Proof.
  apply (proj1 fallback_prices_at_least_500 "Mumbai" 1000%float [1%N; 2%N]).
  vm_compute. discriminate.
Defined.

Lemma get_random_address_cases_witness :
  In (fst (get_random_address " MUMBAI Central" [2%N])) mumbai_addresses /\
  List.length mumbai_addresses = 4%nat.
Proof.
  apply (proj1 get_random_address_cases " MUMBAI Central" [2%N]).
  vm_compute. reflexivity.
Defined.

(** ** External enrichment client *)

Section Enrichment.

Variable json_address : string -> result (option string).
Variable json_hotels : string -> result (list (result (string * float * option string))).

(** X23. Without the credential variable (unset or empty) both
    lookups return [None]; the hotel search leaves the random tape
    alone. *)
Lemma enrichment_without_credential
    (city : string) (lo hi : Z) (api_key : option string)
    (first second : sdk_outcome) (t : tape) :
  is_set api_key = false ->
  call_gemini_for_address json_address city api_key first second = Ok None /\
  call_gemini_hotel_search json_hotels city lo hi api_key first second t = (Ok None, t).
Proof.
  intros H. unfold call_gemini_for_address, call_gemini_hotel_search.
  rewrite H. split; reflexivity.
Qed.

(** X24. The address lookup never raises. *)
Lemma call_gemini_for_address_never_raises
    (city : string) (api_key : option string) (first second : sdk_outcome) :
  raises (call_gemini_for_address json_address city api_key first second) = false.
Proof.
  unfold call_gemini_for_address.
  destruct (is_set api_key); [|reflexivity]. cbn [negb].
  destruct (try_sdks first second) as [tried raw].
  destruct tried; [|reflexivity]. cbn [negb].
  destruct raw as [[|c raw]|]; try reflexivity.
  destruct (address_from_json json_address (String c raw)); reflexivity.
Qed.

(** The loop over the array reads every entry when all can be read,
    and raises when one cannot. *)
Lemma hotels_of_json_readable (l : list (result (string * float * option string))) :
  forall l' t,
    readable l = Some l' ->
    exists hs,
      fst (hotels_of_json l t) = Ok hs /\ List.length hs = List.length l'.
Proof.
  induction l as [|[[[name price] phone]|e] rest IH]; intros l' t H; cbn [readable] in H.
  - injection H as <-. exists []. split; reflexivity.
  - destruct (readable rest) as [r|] eqn:E; [|discriminate]. injection H as <-.
    cbn [hotels_of_json]. destruct (phone_or_random phone t) as [ph t1].
    destruct (IH r t1 eq_refl) as (hs & Eh & Hl).
    destruct (hotels_of_json rest t1) as [r' t2]. cbn [fst] in Eh. subst r'.
    eexists. split; [reflexivity|]. cbn [List.length]. now rewrite Hl.
  - discriminate.
Qed.

Lemma hotels_of_json_unreadable (l : list (result (string * float * option string))) :
  forall t, readable l = None -> raises (fst (hotels_of_json l t)) = true.
Proof.
  induction l as [|[[[name price] phone]|e] rest IH]; intros t H; cbn [readable] in H.
  - discriminate.
  - destruct (readable rest) as [r|] eqn:E; [discriminate|].
    cbn [hotels_of_json]. destruct (phone_or_random phone t) as [ph t1].
    specialize (IH t1 eq_refl).
    destruct (hotels_of_json rest t1) as [[hs|e] t2]; [discriminate IH | reflexivity].
  - reflexivity.
Qed.

Lemma json_branch_returns (raw : option string) l (t : tape) :
  hotels_from_json json_hotels raw = Some l ->
  exists hs,
    fst (json_branch json_hotels raw t) = Some hs /\
    fst (hotels_of_json
           match json_array json_hotels raw with Some a => a | None => [] end t) = Ok hs /\
    List.length hs = List.length l.
Proof.
  unfold hotels_from_json, json_branch.
  destruct (json_array json_hotels raw) as [a|]; [|discriminate].
  destruct (readable a) as [[|x l']|] eqn:R; try discriminate.
  intros [= <-].
  destruct (hotels_of_json_readable a _ t R) as (hs & E & Hl).
  destruct (hotels_of_json a t) as [r t1]. cbn [fst] in E. subst r.
  destruct hs as [|h hs]; [discriminate Hl|].
  exists (h :: hs). split; [reflexivity|]. split; [reflexivity | exact Hl].
Qed.

Lemma json_branch_falls (raw : option string) (t : tape) :
  hotels_from_json json_hotels raw = None ->
  fst (json_branch json_hotels raw t) = None.
Proof.
  unfold hotels_from_json, json_branch.
  destruct (json_array json_hotels raw) as [a|]; [|reflexivity].
  destruct (readable a) as [[|x l']|] eqn:R; try discriminate; intros _.
  - destruct a as [|[x|e] a]; cbn [readable] in R.
    + reflexivity.
    + destruct (readable a); discriminate.
    + discriminate.
  - pose proof (hotels_of_json_unreadable a t R) as U.
    destruct (hotels_of_json a t) as [[hs|e] t1]; [discriminate U | reflexivity].
Qed.

(** The hotel search does not raise as long as its line-by-line
    branch is not reached with a comma-only price. *)
Lemma call_gemini_hotel_search_json_branch
    (city : string) (lo hi : Z) (api_key : option string)
    (first second : sdk_outcome) (t : tape) l :
  hotels_from_json json_hotels (snd (try_sdks first second)) = Some l ->
  raises (fst (call_gemini_hotel_search json_hotels city lo hi api_key first second t)) = false.
Proof.
  intros H. unfold call_gemini_hotel_search.
  destruct (is_set api_key); [|reflexivity]. cbn [negb].
  destruct (try_sdks first second) as [tried raw]. cbn [snd] in H.
  destruct tried; [|reflexivity]. cbn [negb].
  destruct (json_branch_returns raw l t H) as (hs & E & _).
  destruct (json_branch json_hotels raw t) as [found t0]. cbn [fst] in E. subst found.
  reflexivity.
Qed.

Lemma float_of_price_raises (m : list ascii * list ascii) (e : exn) :
  float_of_price m = Raise e -> e = ValueError.
Proof.
  unfold float_of_price.
  destruct (filter is_digit (fst m)), (snd m); intros H; congruence.
Qed.

(** The only exception the hotel search lets through is the
    [ValueError] of its line-by-line branch. *)
Lemma hotels_of_lines_raises (lines : list string) :
  forall t e, fst (hotels_of_lines lines t) = Raise e -> e = ValueError.
Proof.
  induction lines as [|raw_line rest IH]; intros t e; cbn [hotels_of_lines].
  - discriminate.
  - destruct (strip raw_line) as [|c line]; [apply IH|].
    destruct (split_dash (String c line)) as [|p0 [|p1 parts]]; try apply IH.
    destruct (search_price p1) as [m|].
    + destruct (float_of_price m) as [pr|e'] eqn:E.
      * destruct (phone_or_random _ t) as [ph t1].
        specialize (IH t1 e).
        destruct (hotels_of_lines rest t1) as [[hs|e''] t2]; cbn [fst rbind] in *.
        -- discriminate.
        -- exact IH.
      * cbn [fst]. intros [= <-]. eapply float_of_price_raises; exact E.
    + destruct (phone_or_random _ t) as [ph t1].
      specialize (IH t1 e).
      destruct (hotels_of_lines rest t1) as [[hs|e''] t2]; cbn [fst rbind] in *.
      * discriminate.
      * exact IH.
Qed.

(** X25. Whatever the hotel search raises is a [ValueError]. *)
Lemma call_gemini_hotel_search_raises_only_value_error
    (city : string) (lo hi : Z) (api_key : option string)
    (first second : sdk_outcome) (t : tape) (e : exn) :
  fst (call_gemini_hotel_search json_hotels city lo hi api_key first second t) = Raise e ->
  e = ValueError.
Proof.
  unfold call_gemini_hotel_search.
  destruct (is_set api_key); [|discriminate]. cbn [negb].
  destruct (try_sdks first second) as [tried raw].
  destruct tried; [|discriminate]. cbn [negb].
  destruct (json_branch json_hotels raw t) as [[found|] t0].
  - discriminate.
  - pose proof (hotels_of_lines_raises
                  (splitlines match raw with Some s => s | None => "" end) t0 e) as H.
    destruct (hotels_of_lines _ t0) as [[hs|e'] t1]; cbn [fst rbind] in *.
    + discriminate.
    + intros [= <-]. now apply H.
Qed.

(** C7 (the code departs from it). With the credential set and an SDK
    answering the one line "Hotel - , - x", the hotel search raises
    [ValueError] to its caller: the price pattern matches the lone
    comma, and [float] of the empty string left after removing commas
    is outside any [try]. *)
Theorem call_gemini_hotel_search_raises (t : tape) :
  fst (call_gemini_hotel_search json_hotels "Pune" 800 1200 (Some "key")
         ImportFails (Responds "Hotel - , - x") t)
  = Raise ValueError.
Proof. reflexivity. Qed.

End Enrichment.

(** ** Typeface staging *)

Section Staging.

Variable shorten : string -> nat -> string -> string.
Variable float_repr : float -> string.
Variable json_address : string -> result (option string).
Variable json_hotels : string -> result (list (result (string * float * option string))).

Lemma remove_file_gone (p : string) (l : list string) :
  file_exists p (remove_file p l) = false.
Proof.
  unfold file_exists, remove_file. induction l as [|q l IH]; simpl; [reflexivity|].
  destruct (String.eqb q p) eqn:E; simpl; [exact IH|].
  rewrite String.eqb_sym, E. exact IH.
Qed.

(** When the typeface does not register, the staged file is removed
    before the exception leaves [register_font_from_bytes]. *)
Lemma register_font_failure_cleans_up (ttf_bytes hint : string) (fs : list string) (t : tape) :
  exists path,
    register_font_from_bytes false ttf_bytes hint fs t
    = (Raise ExternalError, remove_file path (path :: fs), snd (randint 1000 9999 t)) /\
    file_exists path (remove_file path (path :: fs)) = false.
Proof.
  unfold register_font_from_bytes.
  destruct (randint 1000 9999 t) as [n t1].
  eexists. split; [reflexivity | apply remove_file_gone].
Qed.

(** X21. A run of the handler that ends normally leaves no staged
    file. *)
Lemma handle_submit_success_cleans_up (f : form) (w : world)
    (font_bytes name : string) dl fs t :
  font_file f = Some (font_bytes, name) ->
  handle_submit shorten float_repr json_address json_hotels f w = (Ok dl, fs, t) ->
  file_exists (staged_path w name) fs = false.
Proof.
  intros Hfont. unfold handle_submit, staged_path. rewrite Hfont.
  unfold register_font_from_bytes.
  destruct (randint 1000 9999 (rng w)) as [n t1]. cbn [fst].
  destruct (font_registers w).
  - destruct (resolve_address json_address f w t1) as [addr t2].
    destruct (choose_phone json_hotels f w t2) as [[chosen|e] t3]; [|discriminate].
    destruct (if is_nonempty (strip (hotel_phone_input f))
              then (strip (hotel_phone_input f), t3)
              else phone_or_random chosen t3) as [phone t4].
    destruct (rand_gst_number t4) as [gst t5].
    destruct (create_pdf_bytes _ _ _ _ _ _ _ _ _ _ _ _ _ _ _ _); [|discriminate].
    intros [= _ <- _].
    exact (remove_file_gone ("./" ++ ".tmp_font_" ++ str_of_Z n ++ "_" ++ name)
             (("./" ++ ".tmp_font_" ++ str_of_Z n ++ "_" ++ name) :: files w)).
  - destruct (resolve_address json_address f w t1) as [addr t2].
    destruct (choose_phone json_hotels f w t2) as [[chosen|e] t3]; [|discriminate].
    destruct (if is_nonempty (strip (hotel_phone_input f))
              then (strip (hotel_phone_input f), t3)
              else phone_or_random chosen t3) as [phone t4].
    destruct (rand_gst_number t4) as [gst t5].
    destruct (create_pdf_bytes _ _ _ _ _ _ _ _ _ _ _ _ _ _ _ _); [|discriminate].
    intros [= _ <- _].
    exact (remove_file_gone ("./" ++ ".tmp_font_" ++ str_of_Z n ++ "_" ++ name)
             (("./" ++ ".tmp_font_" ++ str_of_Z n ++ "_" ++ name) :: files w)).
Qed.

(** X22. A run that ends in an exception after the typeface
    registered leaves the staged file behind. *)
Lemma handle_submit_failure_leaves_file (f : form) (w : world)
    (font_bytes name : string) e fs t :
  font_file f = Some (font_bytes, name) ->
  font_registers w = true ->
  handle_submit shorten float_repr json_address json_hotels f w = (Raise e, fs, t) ->
  file_exists (staged_path w name) fs = true.
Proof.
  intros Hfont Hreg. unfold handle_submit, staged_path. rewrite Hfont.
  unfold register_font_from_bytes. rewrite Hreg.
  destruct (randint 1000 9999 (rng w)) as [n t1]. cbn [fst].
  assert (Hin : forall l, file_exists ("./" ++ ".tmp_font_" ++ str_of_Z n ++ "_" ++ name)
                            (("./" ++ ".tmp_font_" ++ str_of_Z n ++ "_" ++ name) :: l) = true).
  { intros l. unfold file_exists. cbn [existsb]. now rewrite String.eqb_refl. }
  destruct (resolve_address json_address f w t1) as [addr t2].
  destruct (choose_phone json_hotels f w t2) as [[chosen|e'] t3].
  - destruct (if is_nonempty (strip (hotel_phone_input f))
              then (strip (hotel_phone_input f), t3)
              else phone_or_random chosen t3) as [phone t4].
    destruct (rand_gst_number t4) as [gst t5].
    destruct (create_pdf_bytes _ _ _ _ _ _ _ _ _ _ _ _ _ _ _ _); [discriminate|].
    intros [= _ <- _]. exact (Hin (files w)).
  - intros [= _ <- _]. exact (Hin (files w)).
Qed.

(** C9 (the code departs from it). A typeface is uploaded and
    registers, and the one item has a quantity of 10^400, which has no
    float: rendering raises [OverflowError], the handler re-raises it,
    and the staged file is still there afterwards. *)
Theorem staged_font_left_behind_when_rendering_fails :
  let f := mk_form DEFAULT_HOTEL_NAME "Mumbai" None (Some ("ttf", "Roboto.ttf"))
             "" "Guest" "101" "INV-1" "2026-11-04" 1000%float 5%float true
             [mk_item "Room & Services" (10 ^ 400) 1%float] in
  let w := mk_world None ImportFails ImportFails ImportFails ImportFails true [] [] in
  let '(r, files_after, _) :=
    handle_submit shorten float_repr json_address json_hotels f w in
  r = Raise OverflowError /\
  files_after = ["./.tmp_font_1000_Roboto.ttf"] /\
  file_exists "./.tmp_font_1000_Roboto.ttf" (files w) = false.
Proof. vm_compute. repeat split. Qed.

(** The same run with a quantity of 1 succeeds and removes the file. *)
Lemma staged_font_removed_when_rendering_succeeds :
  let f := mk_form DEFAULT_HOTEL_NAME "Mumbai" None (Some ("ttf", "Roboto.ttf"))
             "" "Guest" "101" "INV-1" "2026-11-04" 1000%float 5%float true
             [mk_item "Room & Services" 1 1000%float] in
  let w := mk_world None ImportFails ImportFails ImportFails ImportFails true [] [] in
  let '(r, files_after, _) :=
    handle_submit shorten float_repr json_address json_hotels f w in
  raises r = false /\ files_after = [].
Proof. vm_compute. repeat split. Qed.

End Staging.

(** ** Invoice layout engine *)

Lemma amounts_of_length (l : list item) :
  forall amts, amounts_of l = Some amts -> List.length amts = List.length l.
Proof.
  induction l as [|it l IH]; intros amts H; simpl in H.
  - now injection H as <-.
  - destruct (amount_of it); [|discriminate].
    destruct (amounts_of l) as [a'|]; [|discriminate].
    injection H as <-. simpl. now rewrite (IH a' eq_refl).
Qed.

(** The numbered rows are the items themselves, in input order. *)
Lemma numbered_rows_items (l : list item) :
  forall amts i,
    List.length amts = List.length l ->
    map (fun x => snd (fst x)) (numbered_rows i l amts) = l.
Proof.
  unfold numbered_rows.
  induction l as [|it l IH]; intros [|a amts] i H; try discriminate; [reflexivity|].
  cbn [combine numbered map fst snd]. rewrite IH; [reflexivity|].
  simpl in H. congruence.
Qed.

Lemma numbered_rows_serials (l : list item) :
  forall amts i,
    List.length amts = List.length l ->
    map (fun x => fst (fst x)) (numbered_rows i l amts)
    = map (fun k => i + Z.of_nat k) (seq 0 (List.length l)).
Proof.
  unfold numbered_rows.
  induction l as [|it l IH]; intros [|a amts] i H; try discriminate; [reflexivity|].
  cbn [combine numbered map fst snd List.length seq].
  rewrite IH by (simpl in H; congruence).
  rewrite <- seq_shift, map_map. f_equal; [f_equal; lia|].
  apply map_ext. intros k. lia.
Qed.

Section Layout.

Variable shorten : string -> nat -> string -> string.
Variable float_repr : float -> string.

Lemma draw_texts_app (l1 l2 : list op) :
  draw_texts (l1 ++ l2) = (draw_texts l1 ++ draw_texts l2)%list.
Proof.
  induction l1 as [|o l1 IH]; simpl; [reflexivity|].
  destruct (op_text o); simpl; now rewrite IH.
Qed.

Lemma pages_of_nonempty (ops : list op) : pages_of ops <> [].
Proof.
  destruct ops as [|o ops]; simpl; [discriminate|].
  destruct (pages_of ops); [discriminate|].
  destruct (is_show_page o); discriminate.
Qed.

Lemma page_breaks_app (l1 l2 : list op) :
  page_breaks (l1 ++ l2) = (page_breaks l1 + page_breaks l2)%nat.
Proof. unfold page_breaks. now rewrite filter_app, length_app. Qed.

Lemma row_ops_texts (font cur : string) (y : num) (i : Z) (it : item) (a : float) :
  draw_texts (row_ops shorten font cur y i it a) = row_texts shorten cur i it a.
Proof. reflexivity. Qed.

Lemma row_ops_no_break (font cur : string) (y : num) (i : Z) (it : item) (a : float) :
  page_breaks (row_ops shorten font cur y i it a) = 0%nat.
Proof. reflexivity. Qed.

(** The row loop returns exactly when every quantity has a float; it
    then ends with the float sum of the amounts. *)
Lemma draw_rows_returns (font cur : string) (l : list item) :
  forall amts i y s,
    amounts_of l = Some amts ->
    exists ops y',
      draw_rows shorten font cur l i y s = Ok (ops, y', float_sum s amts).
Proof.
  induction l as [|it rest IH]; intros amts i y s H; simpl in H.
  - injection H as <-. simpl. eauto.
  - unfold amount_of in H. cbn [draw_rows].
    destruct (float_of_Z (qty it)) as [q|]; [|discriminate].
    destruct (amounts_of rest) as [amts'|] eqn:E; [|discriminate].
    injection H as <-.
    destruct (num_lt (num_sub y 16) (-500)).
    + destruct (IH amts' (i + 1) (I (-40)) (s + q * rate it)%float eq_refl)
        as (ops & y' & ->).
      simpl. eauto.
    + destruct (IH amts' (i + 1) (num_sub y 16) (s + q * rate it)%float eq_refl)
        as (ops & y' & ->).
      simpl. eauto.
Qed.

Lemma draw_rows_raises (font cur : string) (l : list item) :
  forall i y s,
    amounts_of l = None ->
    draw_rows shorten font cur l i y s = Raise OverflowError.
Proof.
  induction l as [|it rest IH]; intros i y s H; simpl in H; [discriminate|].
  unfold amount_of in H. cbn [draw_rows].
  destruct (float_of_Z (qty it)) as [q|]; [|reflexivity].
  destruct (amounts_of rest) as [amts'|] eqn:E; [discriminate|].
  destruct (num_lt (num_sub y 16) (-500)); now rewrite IH.
Qed.

(** What the row loop draws: whole rows, in input order, each one
    followed by a page break or by nothing. *)
Lemma draw_rows_blocks (font cur : string) (l : list item) :
  forall amts i y s ops y' s',
    amounts_of l = Some amts ->
    draw_rows shorten font cur l i y s = Ok (ops, y', s') ->
    row_blocks shorten font cur (numbered_rows i l amts) ops.
Proof.
  induction l as [|it rest IH]; intros amts i y s ops y' s' H D; simpl in H.
  - injection H as <-. simpl in D. injection D as <- _ _. constructor.
  - unfold amount_of in H. cbn [draw_rows] in D.
    destruct (float_of_Z (qty it)) as [q|]; [|discriminate].
    destruct (amounts_of rest) as [amts'|] eqn:E; [|discriminate].
    injection H as <-.
    unfold numbered_rows. cbn [combine numbered].
    destruct (num_lt (num_sub y 16) (-500)).
    + destruct (draw_rows shorten font cur rest (i + 1) (I (-40)) (s + q * rate it)%float)
        as [[[ops1 y1] s1]|] eqn:D1; [|discriminate].
      injection D as <- _ _.
      apply blocks_break. eapply IH; [reflexivity | exact D1].
    + destruct (draw_rows shorten font cur rest (i + 1) (num_sub y 16) (s + q * rate it)%float)
        as [[[ops1 y1] s1]|] eqn:D1; [|discriminate].
      injection D as <- _ _.
      apply blocks_row. eapply IH; [reflexivity | exact D1].
Qed.

(** In a trace of whole rows the texts are the cells of the rows, once
    each and in order. *)
Lemma row_blocks_texts (font cur : string) rows ops :
  row_blocks shorten font cur rows ops ->
  draw_texts ops = rows_texts shorten cur rows.
Proof.
  induction 1 as [|i it a rest y ops _ IH|i it a rest y ops _ IH].
  - reflexivity.
  - rewrite draw_texts_app, row_ops_texts, IH. reflexivity.
  - rewrite draw_texts_app, row_ops_texts, draw_texts_app, IH. reflexivity.
Qed.

(** Cut at [showPage], a trace of whole rows gives on every page the
    cells of consecutive whole rows. *)
Lemma row_blocks_pages (font cur : string) rows ops :
  row_blocks shorten font cur rows ops ->
  exists groups,
    List.concat groups = rows /\
    page_texts ops = map (rows_texts shorten cur) groups.
Proof.
  induction 1 as [|i it a rest y ops _ IH|i it a rest y ops _ IH].
  - exists [[]]. split; reflexivity.
  - destruct IH as (groups & Hc & Hp).
    unfold page_texts in *.
    destruct (pages_of ops) as [|p ps] eqn:Ep; [now apply pages_of_nonempty in Ep|].
    destruct groups as [|g gs]; [discriminate Hp|].
    cbn [map] in Hp. injection Hp as Hp1 Hp2.
    exists (((i, it, a) :: g) :: gs). split.
    + cbn [List.concat]. cbn [List.concat] in Hc. now rewrite <- Hc.
    + unfold row_ops. cbn [app pages_of is_show_page]. rewrite Ep.
      cbn [map draw_texts op_text]. rewrite Hp1, Hp2. reflexivity.
  - destruct IH as (groups & Hc & Hp).
    unfold page_texts in *.
    destruct (pages_of ops) as [|p ps] eqn:Ep; [now apply pages_of_nonempty in Ep|].
    exists ([(i, it, a)] :: groups). split.
    + cbn [List.concat app]. now rewrite Hc.
    + unfold row_ops, page_break_ops. cbn [app pages_of is_show_page]. rewrite Ep.
      cbn [map draw_texts op_text]. rewrite <- Hp. cbn [map]. reflexivity.
Qed.

(** Counting the page breaks of a trace that ends in [ops]. *)
Ltac count_breaks ops :=
  unfold page_breaks;
  cbn [filter is_show_page List.length app row_ops page_break_ops];
  change (List.length (filter is_show_page ops)) with (page_breaks ops).

Lemma cursor_after_succ (k : nat) (y : num) :
  cursor_after (S k) y = cursor_after k (num_sub y 16).
Proof. reflexivity. Qed.

(** The row loop starts a page exactly when the cursor, 16 lower after
    each row, gets below -500 within the rows at hand. *)
Lemma draw_rows_break_iff (font cur : string) (l : list item) :
  forall i y s ops y' s',
    draw_rows shorten font cur l i y s = Ok (ops, y', s') ->
    ((0 < page_breaks ops)%nat <->
     exists k, (1 <= k <= List.length l)%nat /\
               num_lt (cursor_after k y) (-500) = true).
Proof.
  induction l as [|it rest IH]; intros i y s ops y' s' D; cbn [draw_rows] in D.
  - injection D as <- _ _. cbn. split; [lia|]. intros (k & Hk & _). lia.
  - destruct (float_of_Z (qty it)) as [q|]; [|discriminate].
    destruct (num_lt (num_sub y 16) (-500)) eqn:C.
    + destruct (draw_rows shorten font cur rest (i + 1) (I (-40)) (s + q * rate it)%float)
        as [[[ops1 y1] s1]|]; [|discriminate].
      injection D as <- _ _.
      count_breaks ops1.
      split; [|lia].
      intros _. exists 1%nat. split; [simpl; lia | exact C].
    + destruct (draw_rows shorten font cur rest (i + 1) (num_sub y 16) (s + q * rate it)%float)
        as [[[ops1 y1] s1]|] eqn:D1; [|discriminate].
      injection D as <- _ _.
      count_breaks ops1.
      rewrite (IH _ _ _ _ _ _ D1). split.
      * intros (k & Hk & Hc). exists (S k). split; [simpl; lia | exact Hc].
      * intros (k & Hk & Hc). destruct k as [|k]; [lia|].
        destruct k as [|k].
        -- simpl in Hc. congruence.
        -- exists (S k). split; [simpl in Hk; lia | exact Hc].
Qed.

(** With an integer cursor at [z >= -500], the first break comes after
    [(z + 500) / 16 + 1] rows and the next ones every 29 rows. *)
Lemma draw_rows_break_count (font cur : string) (l : list item) :
  forall i z s ops y' s',
    -500 <= z ->
    draw_rows shorten font cur l i (I z) s = Ok (ops, y', s') ->
    Z.of_nat (page_breaks ops)
    = let n := Z.of_nat (List.length l) in
      let k := (z + 500) / 16 + 1 in
      if n <? k then 0 else 1 + (n - k) / 29.
Proof.
  induction l as [|it rest IH]; intros i z s ops y' s' Hz D; cbn [draw_rows] in D.
  - injection D as <- _ _. cbn [page_breaks filter List.length].
    cbv zeta. destruct (Z.ltb_spec (Z.of_nat 0) ((z + 500) / 16 + 1)); [reflexivity|].
    exfalso. Z.div_mod_to_equations. lia.
  - destruct (float_of_Z (qty it)) as [q|]; [|discriminate].
    cbn [num_sub num_lt] in D.
    destruct (Z.ltb_spec (z - 16) (-500)) as [C|C].
    + destruct (draw_rows shorten font cur rest (i + 1) (I (-40)) (s + q * rate it)%float)
        as [[[ops1 y1] s1]|] eqn:D1; [|discriminate].
      injection D as <- _ _.
      count_breaks ops1.
      specialize (IH (i + 1) (-40) _ _ _ _ ltac:(lia) D1). cbv zeta in IH.
      change ((-40 + 500) / 16 + 1) with 29 in IH.
      cbv zeta. cbn [List.length].
      destruct (Z.ltb_spec (Z.of_nat (S (List.length rest))) ((z + 500) / 16 + 1)) as [Hn|Hn].
      * exfalso. Z.div_mod_to_equations. lia.
      * destruct (Z.ltb_spec (Z.of_nat (List.length rest)) 29) as [Hr|Hr];
          Z.div_mod_to_equations; lia.
    + destruct (draw_rows shorten font cur rest (i + 1) (I (z - 16)) (s + q * rate it)%float)
        as [[[ops1 y1] s1]|] eqn:D1; [|discriminate].
      injection D as <- _ _.
      count_breaks ops1.
      specialize (IH (i + 1) (z - 16) _ _ _ _ ltac:(lia) D1). cbv zeta in IH.
      rewrite IH. cbv zeta. cbn [List.length].
      destruct (Z.ltb_spec (Z.of_nat (S (List.length rest))) ((z + 500) / 16 + 1)) as [Hn|Hn];
        destruct (Z.ltb_spec (Z.of_nat (List.length rest)) ((z - 16 + 500) / 16 + 1)) as [Hr|Hr];
        Z.div_mod_to_equations; lia.
Qed.

Variables hotel_name hotel_addr guest_name invoice_no date_str room_no : string.
Variables gst_no payment_mode hotel_phone currency : string.
Variable items : list item.
Variable gst_percent : float.
Variable font_name : option string.
Variable logo_file : option logo.

Local Notation preamble :=
  (draw_preamble hotel_name hotel_addr guest_name invoice_no date_str room_no
     gst_no hotel_phone font_name logo_file).
Local Notation render :=
  (create_pdf_bytes shorten float_repr hotel_name hotel_addr guest_name invoice_no
     date_str room_no items gst_no gst_percent payment_mode hotel_phone
     font_name logo_file currency).
Local Notation totals y subtotal :=
  (draw_totals float_repr font_name currency payment_mode gst_percent y subtotal).

(** Rendering returns when every quantity has a float: the preamble,
    the rows, then the totals drawn from the float sum of the amounts. *)
Lemma create_pdf_bytes_returns (amts : list float) :
  amounts_of items = Some amts ->
  exists rows y',
    draw_rows shorten (regular_font font_name) currency items 1 (snd preamble) 0%float
    = Ok (rows, y', float_sum 0%float amts) /\
    render = Ok (fst preamble ++ rows ++ totals y' (float_sum 0%float amts))%list.
Proof.
  intros H. unfold create_pdf_bytes.
  destruct preamble as [pre y]. cbn [fst snd].
  destruct (draw_rows_returns (regular_font font_name) currency items amts 1 y 0%float H)
    as (rows & y' & D).
  exists rows, y'. rewrite D. split; reflexivity.
Qed.

Lemma create_pdf_bytes_raises :
  amounts_of items = None -> render = Raise OverflowError.
Proof.
  intros H. unfold create_pdf_bytes.
  destruct preamble as [pre y].
  now rewrite draw_rows_raises.
Qed.

Lemma preamble_no_break : page_breaks (fst preamble) = 0%nat.
Proof.
  unfold draw_preamble, draw_logo.
  destruct logo_file as [[|iw ih]|]; try reflexivity.
  destruct (float_of_Z iw), (float_of_Z ih); try reflexivity.
  destruct (iw =? 0); reflexivity.
Qed.

Lemma totals_no_break (y : num) (s : float) : page_breaks (totals y s) = 0%nat.
Proof. reflexivity. Qed.

Lemma preamble_without_logo : logo_file = None -> snd preamble = first_row_y.
Proof. intros ->. reflexivity. Qed.

(** C1. Whenever rendering returns (every quantity has a float), it
    draws "Grand Total: " followed by the money format of
    round(subtotal + round(subtotal * tax_percent / 100, 2), 2), where
    subtotal is the running float sum of the row amounts. *)
Theorem grand_total_rendered (amts : list float) :
  amounts_of items = Some amts ->
  let subtotal := float_sum 0%float amts in
  exists ops y,
    render = Ok ops /\
    In (DrawRightString (F content_width) y
          ("Grand Total: " ++
           money (round2 (subtotal + round2 (subtotal * gst_percent / fz 100))%float)
                 currency))
       ops.
Proof.
  intros H subtotal.
  destruct (create_pdf_bytes_returns amts H) as (rows & y' & _ & E).
  eexists. eexists. split; [exact E|].
  apply in_or_app. right. apply in_or_app. right.
  unfold draw_totals, grand_total_of, gst_amount_of.
  do 4 right. left. reflexivity.
Qed.

(** C3. Whenever rendering returns, the texts of the row loop are the
    five cells of every item, once each and in input order, whatever
    the page breaks (the numbered rows are the items as given, and
    the preamble and the totals start no page); a page is started
    exactly when the row cursor,
    16 lower after each row, gets below -500 within the rows; without
    a logo that is after row 24 and then after every 29 rows. *)
Theorem rows_once_in_order_across_pages (amts : list float) :
  amounts_of items = Some amts ->
  exists rows y',
    render = Ok (fst preamble ++ rows ++ totals y' (float_sum 0%float amts))%list /\
    draw_texts rows = rows_texts shorten currency (numbered_rows 1 items amts) /\
    map (fun x => snd (fst x)) (numbered_rows 1 items amts) = items /\
    page_breaks (fst preamble ++ rows ++ totals y' (float_sum 0%float amts))
    = page_breaks rows /\
    ((0 < page_breaks rows)%nat <->
     exists k, (1 <= k <= List.length items)%nat /\
               num_lt (cursor_after k (snd preamble)) (-500) = true) /\
    (logo_file = None ->
     Z.of_nat (page_breaks rows)
     = let n := Z.of_nat (List.length items) in
       if n <? 24 then 0 else 1 + (n - 24) / 29).
Proof.
  intros H.
  destruct (create_pdf_bytes_returns amts H) as (rows & y' & D & E).
  exists rows, y'. split; [exact E|]. split; [|split; [|split; [|split]]].
  - eapply row_blocks_texts, draw_rows_blocks; eassumption.
  - apply numbered_rows_items. now apply amounts_of_length.
  - rewrite !page_breaks_app, preamble_no_break, totals_no_break. lia.
  - eapply draw_rows_break_iff; exact D.
  - intros Hlogo. rewrite (preamble_without_logo Hlogo) in D.
    unfold first_row_y in D.
    exact (draw_rows_break_count _ _ _ 1 (-126) _ _ _ _ ltac:(lia) D).
Qed.

(** C4. Whenever rendering returns, the calls of the row loop are
    whole rows: the six calls of a row are consecutive and share one
    cursor position, and a page break comes only after the last call
    of a row.  Cut at the page breaks, every page holds the cells of
    consecutive whole rows. *)
Theorem rows_never_split (amts : list float) :
  amounts_of items = Some amts ->
  exists rows y',
    render = Ok (fst preamble ++ rows ++ totals y' (float_sum 0%float amts))%list /\
    row_blocks shorten (regular_font font_name) currency (numbered_rows 1 items amts) rows /\
    exists groups,
      List.concat groups = numbered_rows 1 items amts /\
      page_texts rows = map (rows_texts shorten currency) groups.
Proof.
  intros H.
  destruct (create_pdf_bytes_returns amts H) as (rows & y' & D & E).
  exists rows, y'. split; [exact E|].
  assert (B : row_blocks shorten (regular_font font_name) currency
                (numbered_rows 1 items amts) rows)
    by (eapply draw_rows_blocks; eassumption).
  split; [exact B|]. eapply row_blocks_pages; exact B.
Qed.

End Layout.

(** ** Display rounding *)






Lemma rhe_scaled_nonneg (p e : Z) : 0 <= p -> 0 <= rhe_scaled p e.
Proof.
  intros Hp. unfold rhe_scaled, rhe_shift.
  destruct (Z.leb_spec 0 e) as [He|He].
  - apply Z.mul_nonneg_nonneg; [exact Hp | apply Z.pow_nonneg; lia].
  - assert (Hd : 0 < 2 ^ (- e)) by (apply Z.pow_pos_nonneg; lia).
    pose proof (Z.div_pos p (2 ^ (- e)) Hp Hd).
    destruct (2 * (p mod 2 ^ (- e)) ?= 2 ^ (- e)); try lia.
    destruct (Z.even _); lia.
Qed.

(** What [money] writes is the amount [display_cents] gives. *)
Lemma money_shows_display_cents (x : float) (symbol : string) (c : Z) :
  display_cents x = Some c ->
  money x symbol
  = symbol ++ (if sign_of x then "-" else "") ++
    group3 (str_of_Z (Z.abs c / 100)) ++ "." ++ two_digits (Z.abs c mod 100).
Proof.
  unfold display_cents, money, format_2f.
  destruct (cents_abs x) as [n|] eqn:E; [|discriminate].
  intros [= <-].
  assert (Hn : 0 <= n).
  { unfold cents_abs in E. destruct (Prim2SF x) as [s|s| |s m e]; try discriminate.
    - injection E as <-. lia.
    - injection E as <-. apply rhe_scaled_nonneg. lia. }
  replace (Z.abs (if sign_of x then - n else n)) with n
    by (destruct (sign_of x); lia).
  reflexivity.
Qed.

(** ** Accuracy of float addition *)




























(** ** The subtotal against the rows *)

Section Subtotal.

Variable shorten : string -> nat -> string -> string.
Variable float_repr : float -> string.
Variables hotel_name hotel_addr guest_name invoice_no date_str room_no : string.
Variables gst_no payment_mode hotel_phone currency : string.
Variable items : list item.
Variable gst_percent : float.
Variable font_name : option string.
Variable logo_file : option logo.

Local Notation render :=
  (create_pdf_bytes shorten float_repr hotel_name hotel_addr guest_name invoice_no
     date_str room_no items gst_no gst_percent payment_mode hotel_phone
     font_name logo_file currency).



End Subtotal.

(** ** Runs *)

(** [round(x, 2)] and the [,.2f] format on a few floats: ties go to
    the even hundredth of the exact binary value. *)
Example round2_values :
  round2 2.675%float = 2.67%float /\
  round2 0.125%float = 0.12%float /\
  round2 999.995%float = 1000%float /\
  round2 1e17%float = 1e17%float /\
  format_2f 1234567.891%float = "1,234,567.89" /\
  format_2f (-0.001)%float = "-0.00".
Proof. vm_compute. repeat split. Qed.

(** The scenario of the specification: one item of 1000 at 5 percent
    gives a subtotal of 1000.00, a tax of 50.00 and a total of
    1050.00. *)
Example default_invoice_totals :
  exists ops,
    sample_invoice default_items = Ok ops /\
    In "Subtotal: Rs1,000.00" (draw_texts ops) /\
    In "GST (5.0%): Rs50.00" (draw_texts ops) /\
    In "Grand Total: Rs1,050.00" (draw_texts ops) /\
    page_breaks ops = 0%nat.
Proof.
  eexists. split; [vm_compute; reflexivity|].
  cbn [draw_texts op_text]. repeat split; simpl; tauto.
Qed.

Lemma grand_total_rendered_witness :
  exists ops y,
    sample_invoice default_items = Ok ops /\
    In (DrawRightString (F content_width) y
          ("Grand Total: " ++
           money (round2 (1000 + round2 (1000 * DEFAULT_GST_PERCENT / fz 100))%float) "Rs"))
       ops.
Proof.
  exact (grand_total_rendered shorten_fitting repr_five DEFAULT_HOTEL_NAME
           "87 Marine Drive, Mumbai" "Guest" "INV-1" "2026-11-04" "101"
           "27ABCDE1234F1Z5" "Cash" "+91-6001000000" "Rs" default_items
           DEFAULT_GST_PERCENT None None [1000%float] eq_refl).
Defined.

Lemma rows_once_in_order_witness :
  exists rows,
    draw_texts rows
    = rows_texts shorten_fitting "Rs"
        (numbered_rows 1 thirty_items (repeat 1000%float 30)) /\
    Z.of_nat (page_breaks rows) = 1.
Proof.
  destruct (rows_once_in_order_across_pages shorten_fitting repr_five
              DEFAULT_HOTEL_NAME "87 Marine Drive, Mumbai" "Guest" "INV-1"
              "2026-11-04" "101" "27ABCDE1234F1Z5" "Cash" "+91-6001000000" "Rs"
              thirty_items DEFAULT_GST_PERCENT None None
              (repeat 1000%float 30) eq_refl)
    as (rows & y' & _ & T & _ & _ & _ & C).
  exists rows. split; [exact T|]. exact (C eq_refl).
Defined.

Lemma rows_never_split_witness :
  exists rows groups,
    row_blocks shorten_fitting "Helvetica" "Rs"
      (numbered_rows 1 thirty_items (repeat 1000%float 30)) rows /\
    List.concat groups = numbered_rows 1 thirty_items (repeat 1000%float 30) /\
    page_texts rows = map (rows_texts shorten_fitting "Rs") groups.
Proof.
  destruct (rows_never_split shorten_fitting repr_five
              DEFAULT_HOTEL_NAME "87 Marine Drive, Mumbai" "Guest" "INV-1"
              "2026-11-04" "101" "27ABCDE1234F1Z5" "Cash" "+91-6001000000" "Rs"
              thirty_items DEFAULT_GST_PERCENT None None
              (repeat 1000%float 30) eq_refl)
    as (rows & y' & _ & B & groups & Hc & Hp).
  exists rows, groups. split; [exact B|]. split; assumption.
Defined.



(** * Further properties *)

(** ** Decimal writing of integers *)

Lemma digits_value_from (l : list ascii) (a : Z) :
  fold_left (fun acc c => 10 * acc + (Z.of_nat (nat_of_ascii c) - 48)) l a
  = a * 10 ^ Z.of_nat (List.length l) + digits_value l.
Proof.
  unfold digits_value. revert a.
  induction l as [|c l IH]; intros a.
  - simpl. lia.
  - cbn [fold_left List.length]. rewrite IH, (IH (10 * 0 + _)).
    rewrite Nat2Z.inj_succ, Z.pow_succ_r by lia. lia.
Qed.

Lemma digits_value_cons (c : ascii) (l : list ascii) :
  digits_value (c :: l)
  = (Z.of_nat (nat_of_ascii c) - 48) * 10 ^ Z.of_nat (List.length l) + digits_value l.
Proof.
  unfold digits_value at 1. cbn [fold_left]. rewrite digits_value_from. lia.
Qed.

Lemma is_digit_value (c : ascii) :
  is_digit c = true -> 0 <= Z.of_nat (nat_of_ascii c) - 48 <= 9.
Proof.
  unfold is_digit. intros H. apply andb_true_iff in H as [H1 H2].
  apply Nat.leb_le in H1, H2. lia.
Qed.

(** A run of digits reads a number below 10 to its length. *)
Lemma digits_value_bound (l : list ascii) :
  forallb is_digit l = true ->
  0 <= digits_value l < 10 ^ Z.of_nat (List.length l).
Proof.
  induction l as [|c l IH]; intros H.
  - cbn. lia.
  - cbn [forallb] in H. apply andb_true_iff in H as [Hc Hl].
    specialize (IH Hl). apply is_digit_value in Hc.
    rewrite digits_value_cons. cbn [List.length].
    rewrite Nat2Z.inj_succ, Z.pow_succ_r by lia. nia.
Qed.

(** A run of digits that does not start with 0 reads a number of at
    least 10 to its length less one. *)
Lemma digits_value_lower (c : ascii) (l : list ascii) :
  forallb is_digit (c :: l) = true ->
  c <> "0"%char ->
  10 ^ Z.of_nat (List.length l) <= digits_value (c :: l).
Proof.
  intros H Hc. cbn [forallb] in H. apply andb_true_iff in H as [Hd Hl].
  pose proof (digits_value_bound l Hl) as B.
  rewrite digits_value_cons.
  assert (1 <= Z.of_nat (nat_of_ascii c) - 48).
  { pose proof (is_digit_value c Hd).
    destruct (Z.eq_dec (Z.of_nat (nat_of_ascii c)) 48) as [E|E]; [|lia].
    exfalso. apply Hc. rewrite <- (ascii_nat_embedding c).
    replace (nat_of_ascii c) with 48%nat by lia. reflexivity. }
  assert (0 < 10 ^ Z.of_nat (List.length l)) by (apply Z.pow_pos_nonneg; lia).
  nia.
Qed.

Lemma uint_digits (d : Decimal.uint) :
  forallb is_digit (chars (NilEmpty.string_of_uint d)) = true.
Proof. induction d; cbn; auto. Qed.

Ltac eval_digit :=
  repeat match goal with
         | |- context [Z.of_nat (nat_of_ascii ?c) - 48] =>
             let v := eval vm_compute in (Z.of_nat (nat_of_ascii c) - 48) in
             change (Z.of_nat (nat_of_ascii c) - 48) with v
         end.

Lemma uint_value_acc (d : Decimal.uint) (a : positive) :
  fold_left (fun acc c => 10 * acc + (Z.of_nat (nat_of_ascii c) - 48))
    (chars (NilEmpty.string_of_uint d)) (Zpos a)
  = Zpos (Pos.of_uint_acc d a).
Proof.
  revert a.
  induction d; intros a;
    cbn [NilEmpty.string_of_uint chars list_ascii_of_string fold_left Pos.of_uint_acc];
    try reflexivity; rewrite <- IHd; f_equal; eval_digit; lia.
Qed.

Lemma uint_value (d : Decimal.uint) :
  digits_value (chars (NilEmpty.string_of_uint d)) = Z.of_N (Pos.of_uint d).
Proof.
  unfold digits_value.
  induction d;
    cbn [NilEmpty.string_of_uint chars list_ascii_of_string fold_left Pos.of_uint];
    try reflexivity; eval_digit; try exact IHd;
    cbn [N.of_nat Z.of_N]; rewrite <- uint_value_acc; f_equal.
Qed.

Lemma nzhead_head (d : Decimal.uint) :
  match Decimal.nzhead d with
  | Decimal.D0 _ => False
  | _ => True
  end.
Proof. induction d; cbn; auto. Qed.

(** The decimal writing of a positive number: digits only, not
    starting with 0, reading back as the number. *)
Lemma pos_writing (p : positive) :
  exists c l,
    chars (NilEmpty.string_of_uint (Pos.to_uint p)) = c :: l /\
    c <> "0"%char /\
    forallb is_digit (c :: l) = true /\
    digits_value (c :: l) = Zpos p.
Proof.
  pose proof (uint_digits (Pos.to_uint p)) as Hd.
  pose proof (uint_value (Pos.to_uint p)) as Hv.
  rewrite DecimalPos.Unsigned.of_to in Hv.
  pose proof (DecimalPos.Unsigned.to_of (Pos.to_uint p)) as Hn.
  rewrite DecimalPos.Unsigned.of_to in Hn. cbn [N.to_uint] in Hn.
  pose proof (DecimalPos.Unsigned.to_uint_nonzero p) as Hz.
  pose proof (nzhead_head (Pos.to_uint p)) as Hh.
  unfold Decimal.unorm in Hn.
  set (d := Pos.to_uint p) in *. clearbody d.
  destruct (Decimal.nzhead d) eqn:E; try contradiction; subst d;
    try (exfalso; apply Hz; reflexivity);
    cbn [NilEmpty.string_of_uint chars list_ascii_of_string] in *;
    eexists; eexists; (split; [reflexivity|]); (split; [discriminate|]);
    split; assumption.
Qed.

Lemma str_of_Z_pos (p : positive) :
  str_of_Z (Zpos p) = NilEmpty.string_of_uint (Pos.to_uint p).
Proof.
  unfold str_of_Z. cbn [Z.to_int NilZero.string_of_int NilZero.string_of_uint].
  pose proof (DecimalPos.Unsigned.to_uint_nonnil p).
  destruct (Pos.to_uint p); try reflexivity. congruence.
Qed.

(** The writing of a natural number is made of digits and reads back
    as the number. *)
Lemma str_of_Z_digits (n : Z) :
  0 <= n ->
  forallb is_digit (chars (str_of_Z n)) = true /\
  digits_value (chars (str_of_Z n)) = n.
Proof.
  intros Hn. destruct n as [|p|p]; [split; reflexivity | | lia].
  rewrite str_of_Z_pos.
  destruct (pos_writing p) as (c & l & -> & _ & Hd & Hv). split; assumption.
Qed.

(** A number of [10^(k-1) .. 10^k - 1] is written with [k] digits. *)
Lemma str_of_Z_length (n : Z) (k : nat) :
  10 ^ (Z.of_nat k - 1) <= n < 10 ^ Z.of_nat k ->
  (0 < k)%nat ->
  List.length (chars (str_of_Z n)) = k.
Proof.
  intros Hn Hk.
  assert (0 < n).
  { assert (0 < 10 ^ (Z.of_nat k - 1)) by (apply Z.pow_pos_nonneg; lia). lia. }
  destruct n as [|p|p]; try lia.
  rewrite str_of_Z_pos.
  destruct (pos_writing p) as (c & l & -> & Hc & Hd & Hv).
  pose proof (digits_value_bound _ Hd) as B.
  pose proof (digits_value_lower c l Hd Hc) as L.
  rewrite Hv in B, L. cbn [List.length] in *.
  destruct (Nat.lt_trichotomy (S (List.length l)) k) as [C|[C|C]]; [|exact C|].
  - exfalso.
    assert (10 ^ Z.of_nat (S (List.length l)) <= 10 ^ (Z.of_nat k - 1))
      by (apply Z.pow_le_mono_r; lia).
    lia.
  - exfalso.
    assert (10 ^ Z.of_nat k <= 10 ^ Z.of_nat (List.length l))
      by (apply Z.pow_le_mono_r; lia).
    lia.
Qed.

(** ** More on the synthetic data generators *)

Lemma forallb_Forall_true {A} (p : A -> bool) (l : list A) :
  forallb p l = true -> Forall (fun x => p x = true) l.
Proof. intros H. apply Forall_forall. now apply forallb_forall. Qed.

Lemma rand_mobile_matches (t : tape) :
  is_mobile_number (fst (rand_mobile t)) = true.
Proof.
  unfold rand_mobile, bind, ret, is_mobile_number, mobile_pattern.
  pose proof (randint_range 600 999 t ltac:(lia)) as Ha.
  destruct (randint 600 999 t) as [a t1]. cbn [fst] in Ha.
  pose proof (randint_range 1000000 9999999 t1 ltac:(lia)) as Hb.
  destruct (randint 1000000 9999999 t1) as [b t2]. cbn [fst] in Hb.
  cbn [fst]. rewrite !chars_app.
  apply (matches_app [Ascii.eqb "+"%char; Ascii.eqb "9"%char; Ascii.eqb "1"%char;
                      Ascii.eqb "-"%char] _ (chars "+91-")); [reflexivity|].
  change (is_six_to_nine :: repeat is_digit 9)
    with ([is_six_to_nine; is_digit; is_digit] ++ repeat is_digit 7)%list.
  apply matches_app.
  - apply (forall_range
             (fun z => matches [is_six_to_nine; is_digit; is_digit] (chars (str_of_Z z)))
             600 400); [vm_compute; reflexivity | lia].
  - destruct (str_of_Z_digits b ltac:(lia)) as [Hd _].
    rewrite <- (str_of_Z_length b 7); [|cbn; lia|lia].
    apply matches_repeat. now apply forallb_Forall_true.
Qed.

(** X1. Whatever the draws, the phone number reads "+91-" followed by
    ten digits, the first of them 6, 7, 8 or 9. *)
Theorem rand_mobile_pattern (t : tape) :
  is_mobile_number (fst (rand_mobile t)) = true.
Proof. exact (rand_mobile_matches t). Qed.


Lemma prefix_head (a : ascii) (p s : string) :
  prefix (String a p) s = true -> exists s', s = String a s'.
Proof.
  destruct s as [|b s']; cbn; [discriminate|].
  destruct (ascii_dec a b) as [->|]; [eauto | discriminate].
Qed.

Lemma find_key_none (c : string) :
  (forall key l, In (key, l) city_addresses -> startswith c key = false) ->
  lookup_city c = None /\ lookup_city_prefix c = None.
Proof.
  intros H.
  assert (P : lookup_city_prefix c = None).
  { unfold lookup_city_prefix.
    destruct (find (fun kv => startswith c (fst kv)) city_addresses) as [[k l]|] eqn:E;
      [|reflexivity].
    apply find_some in E as [Hin Hk]. cbn [fst] in Hk.
    rewrite (H k l Hin) in Hk. discriminate. }
  split; [|exact P].
  unfold lookup_city.
  destruct (find (fun kv => String.eqb c (fst kv)) city_addresses) as [[k l]|] eqn:E;
    [|reflexivity].
  apply find_some in E as [Hin Hk]. cbn [fst] in Hk.
  apply String.eqb_eq in Hk. subst k.
  specialize (H c l Hin). unfold startswith in H. rewrite prefix_refl in H. discriminate.
Qed.

Ltac exact_key c H :=
  unfold lookup_city, city_addresses; cbn [find fst snd];
  repeat match goal with
         | |- context [String.eqb c ?k] =>
             let E := fresh "E" in
             destruct (String.eqb c k) eqn:E;
             [ apply String.eqb_eq in E; subst c;
               first [ now left | discriminate H ] | ]
         end;
  now right.

(** A key of the table that the city starts with decides the list. *)
Lemma known_city_lookup (key : string) (l : list string) (c : string) :
  In (key, l) city_addresses ->
  startswith c key = true ->
  (lookup_city c = Some l \/ lookup_city c = None) /\
  lookup_city_prefix c = Some l.
Proof.
  intros Hin H. cbn in Hin.
  repeat (destruct Hin as [Hin|Hin];
          [ injection Hin as <- <-;
            split;
            [ exact_key c H
            | unfold startswith in H;
              destruct (prefix_head _ _ _ H) as [s' ->];
              unfold lookup_city_prefix, city_addresses, startswith;
              cbn in H |- *; rewrite H; reflexivity ]
          | ]).
  contradiction.
Qed.

Lemma table_lists_nonempty (key : string) (l : list string) :
  In (key, l) city_addresses -> l <> [].
Proof.
  intros Hin. cbn in Hin.
  repeat (destruct Hin as [Hin|Hin]; [injection Hin as <- <-; discriminate|]).
  contradiction.
Qed.

Lemma table_keys_nonempty (key : string) (l : list string) :
  In (key, l) city_addresses -> key <> "".
Proof.
  intros Hin. cbn in Hin.
  repeat (destruct Hin as [Hin|Hin]; [injection Hin as <- <-; discriminate|]).
  contradiction.
Qed.

(** X2. A city that, stripped and lowered, is or starts with one of
    the eight keys of the table gets an entry of that key's list,
    whatever the draws. *)
Theorem get_random_address_known_city
    (key : string) (l : list string) (city : string) (t : tape) :
  In (key, l) city_addresses ->
  startswith (lower (strip city)) key = true ->
  In (fst (get_random_address city t)) l.
Proof.
  intros Hin H.
  destruct (known_city_lookup key l _ Hin H) as [Hexact Hpre].
  pose proof (table_lists_nonempty key l Hin) as Hl.
  unfold get_random_address.
  destruct city as [|c0 city'].
  - exfalso. apply (table_keys_nonempty key l Hin).
    cbn in H. destruct key; [reflexivity | discriminate].
  - destruct Hexact as [-> | ->].
    + now apply choice_In.
    + rewrite Hpre. now apply choice_In.
Qed.

Lemma get_random_address_known_city_witness :
  In (fst (get_random_address "  Pune Camp" [7%N]))
     [ "11 FC Road, Pune"; "60 Koregaon Park, Pune"; "9 Viman Nagar, Pune" ].
Proof.
  apply (get_random_address_known_city "pune" _ "  Pune Camp" [7%N]).
  - cbn. tauto.
  - vm_compute. reflexivity.
Defined.

(** X3. A non-empty city of ASCII characters that starts with none of
    the keys gets "<number> <street>, <City>": a number of 1..300,
    one of the six street names and the city in title case, blanks
    included. *)
Theorem get_random_address_unknown_city (city : string) (t : tape) :
  is_ascii city = true ->
  city <> "" ->
  (forall key l, In (key, l) city_addresses ->
                 startswith (lower (strip city)) key = false) ->
  exists n street,
    1 <= n <= 300 /\ In street street_names /\
    fst (get_random_address city t)
    = str_of_Z n ++ " " ++ street ++ ", " ++ title city.
Proof.
  intros _ Hcity H.
  destruct (find_key_none _ H) as [E1 E2].
  unfold get_random_address.
  destruct city as [|c0 city']; [congruence|].
  rewrite E1, E2. unfold bind, ret.
  pose proof (randint_range 1 300 t ltac:(lia)) as Hn.
  destruct (randint 1 300 t) as [n t1]. cbn [fst] in Hn.
  pose proof (choice_In "" street_names t1 ltac:(discriminate)) as Hs.
  destruct (choice "" street_names t1) as [street t2]. cbn [fst] in Hs.
  exists n, street. cbn [fst]. repeat split; try lia; assumption.
Qed.

Lemma get_random_address_unknown_city_witness :
  exists n street,
    1 <= n <= 300 /\ In street street_names /\
    fst (get_random_address "new delhi" [41%N; 3%N])
    = str_of_Z n ++ " " ++ street ++ ", " ++ "New Delhi".
Proof.
  apply (get_random_address_unknown_city "new delhi" [41%N; 3%N]).
  - reflexivity.
  - discriminate.
  - intros key l Hin. cbn in Hin.
    repeat (destruct Hin as [Hin|Hin]; [injection Hin as <- <-; reflexivity|]).
    contradiction.
Defined.

Lemma suggestions_loop_shape (city : string) (bill : float) (w : string) (ws : list string) :
  split_ws city = w :: ws ->
  forall n t, exists hs,
    fst (suggestions_loop n city bill t) = Ok hs /\
    Forall (synthetic_hotel w) hs.
Proof.
  intros Hw. induction n as [|n IH]; intros t.
  - exists []. split; [reflexivity | constructor].
  - cbn [suggestions_loop]. rewrite Hw.
    pose proof (choice_In "" hotel_names t ltac:(discriminate)) as Hnm.
    destruct (choice "" hotel_names t) as [nm t1]. cbn [fst] in Hnm.
    destruct (uniform (-0.2)%float 0.2%float t1) as [u t2].
    pose proof (rand_mobile_matches t2) as Hph.
    destruct (rand_mobile t2) as [phone t3]. cbn [fst] in Hph.
    destruct (IH t3) as (hs & E & Hall).
    destruct (suggestions_loop n city bill t3) as [rest t4].
    cbn [fst] in E. subst rest. cbn [fst rbind].
    eexists. split; [reflexivity|].
    constructor; [|exact Hall].
    split; [exists nm; split; [exact Hnm | reflexivity] | exact Hph].
Qed.

(** X4. For a city whose first word is made of ASCII characters,
    every synthetic candidate is named "<one of the six names> <that
    word in title case>" and carries a phone number of the fixed
    pattern. *)
Theorem fallback_names_and_phones
    (city : string) (bill : float) (t : tape) (w : string) (ws : list string) :
  split_ws city = w :: ws ->
  is_ascii w = true ->
  exists hs,
    fst (fallback_hotel_suggestions city bill t) = Ok hs /\
    Forall (synthetic_hotel w) hs.
Proof.
  intros Hw _. exact (suggestions_loop_shape city bill w ws Hw 3 t).
Qed.

Lemma fallback_names_and_phones_witness :
  exists hs,
    fst (fallback_hotel_suggestions " new delhi" 1000%float [4%N]) = Ok hs /\
    Forall (synthetic_hotel "new") hs.
Proof.
  apply (fallback_names_and_phones " new delhi" 1000%float [4%N] "new" ["delhi"]);
    vm_compute; reflexivity.
Defined.

Lemma format_02d_reads_back (n : Z) :
  1 <= n <= 35 ->
  List.length (chars (format_02d n)) = 2%nat /\
  digits_value (chars (format_02d n)) = n.
Proof.
  intros Hn.
  pose (P := fun z => (List.length (chars (format_02d z)) =? 2)%nat &&
                      (digits_value (chars (format_02d z)) =? z)).
  assert (H : P n = true)
    by (apply (forall_range P 1 35); [vm_compute; reflexivity | lia]).
  unfold P in H. apply andb_true_iff in H as [H1 H2].
  apply Nat.eqb_eq in H1. apply Z.eqb_eq in H2. split; assumption.
Qed.

Lemma one_nonzero_digit (k : Z) :
  1 <= k <= 9 ->
  exists c, chars (str_of_Z k) = [c] /\ c <> "0"%char.
Proof.
  intros Hk.
  pose (P := fun z => match chars (str_of_Z z) with
                      | [c] => negb (Ascii.eqb c "0"%char)
                      | _ => false
                      end).
  assert (H : P k = true)
    by (apply (forall_range P 1 9); [vm_compute; reflexivity | lia]).
  unfold P in H.
  destruct (chars (str_of_Z k)) as [|c [|c' l]]; try discriminate.
  exists c. split; [reflexivity|].
  intros ->. discriminate.
Qed.

(** X5. Whatever the draws, the two leading digits of the tax ID read
    a number of 1..35 and the digit before the fixed Z is never 0. *)
Theorem rand_gst_number_codes (t : tape) :
  let s := chars (fst (rand_gst_number t)) in
  1 <= digits_value (firstn 2 s) <= 35 /\
  nth 12 s "0"%char <> "0"%char /\
  nth 13 s "0"%char = "Z"%char.
Proof.
  unfold rand_gst_number, bind, ret.
  pose proof (randint_range 1 35 t ltac:(lia)) as Hn.
  destruct (randint 1 35 t) as [n t1]. cbn [fst] in Hn.
  destruct (repeatM_Forall (fun c => is_upper c = true) _ upper_choice 5 t1) as [_ Len5].
  destruct (repeatM 5 (choice "A"%char uppercase_letters) t1) as [l5 t2]. cbn [fst] in Len5.
  destruct (repeatM_Forall (fun c => is_digit c = true) _ digit_choice 4 t2) as [_ Len4].
  destruct (repeatM 4 (choice "0"%char decimal_digits) t2) as [d4 t3]. cbn [fst] in Len4.
  destruct (choice "A"%char uppercase_letters t3) as [l1 t4].
  pose proof (randint_range 1 9 t4 ltac:(lia)) as Hk.
  destruct (randint 1 9 t4) as [k t5]. cbn [fst] in Hk.
  destruct (choice "A"%char uppercase_letters t5) as [l2 t6].
  cbn [fst]. cbv zeta. rewrite !chars_app, !chars_str.
  destruct (format_02d_reads_back n Hn) as [L2 V2].
  destruct (one_nonzero_digit k Hk) as (c & -> & Hc).
  split; [|split].
  - rewrite firstn_app, L2, Nat.sub_diag, firstn_O, app_nil_r.
    rewrite <- L2, firstn_all. lia.
  - rewrite app_nth2 by lia. rewrite L2.
    rewrite <- !app_assoc.
    rewrite app_nth2 by lia. rewrite Len5.
    rewrite app_nth2 by (cbn; lia). rewrite Len4.
    exact Hc.
  - rewrite app_nth2 by lia. rewrite L2.
    rewrite <- !app_assoc.
    rewrite app_nth2 by lia. rewrite Len5.
    rewrite app_nth2 by (cbn; lia). rewrite Len4.
    reflexivity.
Qed.

(** ** More on the enrichment client *)

Section EnrichmentResults.

Variable json_address : string -> result (option string).
Variable json_hotels : string -> result (list (result (string * float * option string))).

Lemma rand_mobile_nonempty (t : tape) : fst (rand_mobile t) <> "".
Proof.
  unfold rand_mobile, bind, ret.
  destruct (randint 600 999 t) as [a t1].
  destruct (randint 1000000 9999999 t1) as [b t2].
  discriminate.
Qed.

Lemma phone_or_random_nonempty (phone : option string) (t : tape) :
  fst (phone_or_random phone t) <> "".
Proof.
  destruct phone as [[|c p]|]; cbn [phone_or_random]; try apply rand_mobile_nonempty.
  discriminate.
Qed.

Lemma hotels_of_json_phones (l : list (result (string * float * option string))) :
  forall t hs,
    fst (hotels_of_json l t) = Ok hs ->
    Forall (fun h => h_phone h <> "") hs.
Proof.
  induction l as [|[[[name price] phone]|e] rest IH]; intros t hs; cbn [hotels_of_json].
  - intros [= <-]. constructor.
  - pose proof (phone_or_random_nonempty phone t) as Hp.
    destruct (phone_or_random phone t) as [ph t1]. cbn [fst] in Hp.
    specialize (IH t1). destruct (hotels_of_json rest t1) as [[hs'|e] t2];
      cbn [fst rbind] in *; [|discriminate].
    intros [= <-]. constructor; [exact Hp | now apply IH].
  - discriminate.
Qed.

Lemma hotels_of_lines_phones (lines : list string) :
  forall t hs,
    fst (hotels_of_lines lines t) = Ok hs ->
    Forall (fun h => h_phone h <> "") hs.
Proof.
  induction lines as [|raw_line rest IH]; intros t hs; cbn [hotels_of_lines].
  - intros [= <-]. constructor.
  - destruct (strip raw_line) as [|c line]; [apply IH|].
    destruct (split_dash (String c line)) as [|p0 [|p1 parts]]; try apply IH.
    destruct (match search_price p1 with
              | Some m => float_of_price m
              | None => Ok 0%float
              end) as [pr|e]; [|discriminate].
    pose proof (phone_or_random_nonempty
                  (option_map (fun m => strip (str m)) (search_phone (chars (String c line)))) t)
      as Hp.
    destruct (phone_or_random _ t) as [ph t1]. cbn [fst] in Hp.
    specialize (IH t1).
    destruct (hotels_of_lines rest t1) as [[hs'|e] t2]; cbn [fst rbind] in *;
      [|discriminate].
    intros [= <-]. constructor; [exact Hp | now apply IH].
Qed.

Lemma firstn_In {A} (n : nat) (l : list A) (x : A) :
  In x (firstn n l) -> In x l.
Proof.
  intros H. rewrite <- (firstn_skipn n l). apply in_or_app. now left.
Qed.

(** X6. Whenever the hotel search returns a list, the list is not
    empty and every hotel in it has a phone number.  From the
    line-by-line branch it has at most 5 hotels; from the JSON branch
    it has every parsed entry, however many. *)
Theorem call_gemini_hotel_search_list
    (city : string) (lo hi : Z) (api_key : option string)
    (first second : sdk_outcome) (t : tape) (hs : list hotel) :
  fst (call_gemini_hotel_search json_hotels city lo hi api_key first second t)
  = Ok (Some hs) ->
  hs <> [] /\
  Forall (fun h => h_phone h <> "") hs /\
  match hotels_from_json json_hotels (snd (try_sdks first second)) with
  | Some l => List.length hs = List.length l
  | None => (List.length hs <= 5)%nat
  end.
Proof.
  unfold call_gemini_hotel_search.
  destruct (is_set api_key); [|discriminate]. cbn [negb].
  destruct (try_sdks first second) as [tried raw]. cbn [snd].
  destruct tried; [|discriminate]. cbn [negb].
  destruct (hotels_from_json json_hotels raw) as [l|] eqn:J.
  - destruct (json_branch_returns json_hotels raw l t J) as (hs' & E & Ej & Hlen).
    pose proof (hotels_of_json_phones _ t hs' Ej) as Hph.
    assert (Hl : l <> []).
    { unfold hotels_from_json in J.
      destruct (json_array json_hotels raw) as [a|]; [|discriminate].
      destruct (readable a) as [[|x l']|]; try discriminate.
      injection J as <-. discriminate. }
    destruct (json_branch json_hotels raw t) as [found t0]. cbn [fst] in E. subst found.
    intros [= <-]. split; [|split; assumption].
    destruct l; [congruence|]. destruct hs'; [discriminate Hlen | discriminate].
  - pose proof (json_branch_falls json_hotels raw t J) as E.
    destruct (json_branch json_hotels raw t) as [found t0]. cbn [fst] in E. subst found.
    pose proof (hotels_of_lines_phones
                  (splitlines match raw with Some s => s | None => "" end) t0) as Hph.
    destruct (hotels_of_lines _ t0) as [[hs'|e] t1]; cbn [fst rbind] in *;
      [|discriminate].
    specialize (Hph hs' eq_refl).
    destruct hs' as [|h hs']; [discriminate|].
    intros [= <-]. split; [|split].
    + discriminate.
    + apply Forall_forall. intros x Hx. rewrite Forall_forall in Hph.
      apply Hph. exact (firstn_In 5 (h :: hs') x Hx).
    + exact (firstn_le_length 5 (h :: hs')).
Qed.

Lemma raises_rbind_ok {A B} (r : result A) (f : A -> B) :
  raises (rbind r (fun a => Ok (f a))) = raises r.
Proof. now destruct r. Qed.

Lemma filter_digits_of_run (l : list ascii) :
  forallb is_digit_or_comma l = true ->
  (match filter is_digit l with [] => true | _ => false end)
  = forallb (fun c => Ascii.eqb c ","%char) l.
Proof.
  induction l as [|c l IH]; intros H; [reflexivity|].
  cbn [forallb] in H. apply andb_true_iff in H as [Hc Hl].
  cbn [filter forallb]. unfold is_digit_or_comma in Hc.
  destruct (is_digit c) eqn:D.
  - replace (Ascii.eqb c ","%char) with false; [reflexivity|].
    destruct (Ascii.eqb_spec c ","%char) as [->|]; [discriminate D | reflexivity].
  - cbn [orb] in Hc. rewrite Hc. exact (IH Hl).
Qed.

Lemma take_while_all (p : ascii -> bool) (l : list ascii) :
  forallb p (take_while p l) = true.
Proof.
  induction l as [|c l IH]; [reflexivity|].
  cbn [take_while]. destruct (p c) eqn:E; [|reflexivity].
  cbn [forallb]. now rewrite E.
Qed.

(** [float] fails on what the price pattern found exactly when the
    run it found holds commas only and no fraction follows. *)
Lemma price_raises_iff (part : string) :
  raises (match search_price part with
          | Some m => float_of_price m
          | None => Ok 0%float
          end) = lone_commas part.
Proof.
  unfold search_price, lone_commas.
  destruct (drop_while (fun c => negb (is_digit_or_comma c)) (chars part)) as [|c l];
    [reflexivity|].
  set (run := take_while is_digit_or_comma (c :: l)).
  pose proof (filter_digits_of_run run (take_while_all _ _)) as F.
  assert (G : forall fp,
             raises (float_of_price (run, fp))
             = forallb (fun c => Ascii.eqb c ","%char) run &&
               match fp with [] => true | _ => false end).
  { intros fp. unfold float_of_price. cbn [fst snd]. rewrite <- F.
    destruct (filter is_digit run); [|reflexivity].
    destruct fp; reflexivity. }
  destruct (drop_while is_digit_or_comma (c :: l)) as [|dot [|d after]].
  - rewrite G. reflexivity.
  - rewrite G. reflexivity.
  - destruct (Ascii.eqb dot "."%char && is_digit d) eqn:E.
    + rewrite G. apply andb_true_iff in E as [_ Ed].
      cbn [take_while]. rewrite Ed. cbn [negb]. now rewrite andb_false_r.
    + rewrite G. reflexivity.
Qed.

Lemma hotels_of_lines_raises_iff (lines : list string) :
  forall t, raises (fst (hotels_of_lines lines t)) = existsb price_unreadable lines.
Proof.
  induction lines as [|raw_line rest IH]; intros t; cbn [hotels_of_lines existsb].
  - reflexivity.
  - unfold price_unreadable at 1.
    destruct (strip raw_line) as [|c line]; [apply IH|].
    destruct (split_dash (String c line)) as [|p0 [|p1 parts]]; try apply IH.
    rewrite <- (price_raises_iff p1).
    destruct (match search_price p1 with
              | Some m => float_of_price m
              | None => Ok 0%float
              end) as [pr|e]; cbn [raises]; [|reflexivity].
    destruct (phone_or_random _ t) as [ph t1].
    specialize (IH t1).
    destruct (hotels_of_lines rest t1) as [r t2]. cbn [fst] in *.
    now rewrite raises_rbind_ok.
Qed.

(** X7. On an ASCII response, the hotel search raises exactly when
    the credential is set, an SDK was importable, the JSON branch did
    not return, and some line of the response has, in its second
    dash-separated part, a first run of digits and commas that holds
    commas only, with no fraction after it; lines before it do not
    matter. *)
Theorem call_gemini_hotel_search_raises_iff
    (city : string) (lo hi : Z) (api_key : option string)
    (first second : sdk_outcome) (t : tape) :
  ascii_response (snd (try_sdks first second)) = true ->
  raises (fst (call_gemini_hotel_search json_hotels city lo hi api_key first second t))
  = is_set api_key && fst (try_sdks first second) &&
    match hotels_from_json json_hotels (snd (try_sdks first second)) with
    | Some _ => false
    | None =>
        existsb price_unreadable
          (splitlines match snd (try_sdks first second) with
                      | Some s => s
                      | None => ""
                      end)
    end.
Proof.
  intros _. unfold call_gemini_hotel_search.
  destruct (is_set api_key); [|reflexivity]. cbn [negb andb].
  destruct (try_sdks first second) as [tried raw]. cbn [fst snd].
  destruct tried; [|reflexivity]. cbn [negb].
  destruct (hotels_from_json json_hotels raw) as [l|] eqn:J.
  - destruct (json_branch_returns json_hotels raw l t J) as (hs & E & _).
    destruct (json_branch json_hotels raw t) as [found t0]. cbn [fst] in E. subst found.
    reflexivity.
  - pose proof (json_branch_falls json_hotels raw t J) as E.
    destruct (json_branch json_hotels raw t) as [found t0]. cbn [fst] in E. subst found.
    rewrite <- (hotels_of_lines_raises_iff _ t0).
    destruct (hotels_of_lines _ t0) as [r t1]. cbn [fst].
    now destruct r as [[|h hs]|e].
Qed.

Lemma first_plausible_line_skips_blanks (blanks : list string) (l : list string) :
  Forall (fun s => strip s = "") blanks ->
  first_plausible_line (blanks ++ l) = first_plausible_line l.
Proof.
  induction 1 as [|b blanks Hb _ IH]; [reflexivity|].
  cbn [app first_plausible_line]. now rewrite Hb.
Qed.

(** X8. When the response has no JSON address, the address lookup
    returns the first non-blank line, cleaned of surrounding quotes
    and brackets, as soon as that cleaned line has fewer than 120
    characters: its content is not looked at. *)
Theorem call_gemini_for_address_first_line
    (city : string) (api_key : option string) (first second : sdk_outcome)
    (raw : string) (blanks : list string) (line : string) (rest : list string) :
  is_set api_key = true ->
  try_sdks first second = (true, Some raw) ->
  address_from_json json_address raw = None ->
  splitlines raw = (blanks ++ line :: rest)%list ->
  Forall (fun s => strip s = "") blanks ->
  strip line <> "" ->
  (py_len (cleaned_line line) < 120)%nat ->
  call_gemini_for_address json_address city api_key first second
  = Ok (Some (cleaned_line line)).
Proof.
  intros Hkey Hsdk Hjson Hlines Hblank Hline Hlen.
  unfold call_gemini_for_address. rewrite Hkey, Hsdk. cbn [negb].
  destruct raw as [|c raw']; [destruct blanks; discriminate Hlines|].
  rewrite Hjson, Hlines, first_plausible_line_skips_blanks by exact Hblank.
  cbn [first_plausible_line]. unfold cleaned_line in *.
  destruct (strip line) as [|c0 l0]; [congruence|].
  destruct (existsb is_digit _ || existsb _ address_keywords); [reflexivity|].
  apply Nat.ltb_lt in Hlen. now rewrite Hlen.
Qed.

End EnrichmentResults.

Lemma call_gemini_hotel_search_list_witness :
  match fst (call_gemini_hotel_search (fun _ => Raise ExternalError) "Pune" 800 1200
               (Some "key") ImportFails
               (Responds "Taj - INR 3,000 - +91-98765 43210") []) with
  | Ok (Some hs) =>
      hs <> [] /\ Forall (fun h => h_phone h <> "") hs /\ (List.length hs <= 5)%nat
  | _ => False
  end.
Proof.
  destruct (fst (call_gemini_hotel_search (fun _ => Raise ExternalError) "Pune" 800 1200
                   (Some "key") ImportFails
                   (Responds "Taj - INR 3,000 - +91-98765 43210") []))
    as [[hs|]|e] eqn:E.
  - exact (call_gemini_hotel_search_list (fun _ => Raise ExternalError) "Pune" 800 1200
             (Some "key") ImportFails
             (Responds "Taj - INR 3,000 - +91-98765 43210") [] hs E).
  - vm_compute in E. discriminate.
  - vm_compute in E. discriminate.
Defined.

Lemma call_gemini_for_address_first_line_witness :
  call_gemini_for_address (fun _ => Raise ExternalError) "Pune" (Some "key")
    ImportFails (Responds (String "010" "  'Ask the front desk'  "))
  = Ok (Some "Ask the front desk").
Proof.
  apply (call_gemini_for_address_first_line (fun _ => Raise ExternalError) "Pune" (Some "key")
           ImportFails (Responds (String "010" "  'Ask the front desk'  "))
           (String "010" "  'Ask the front desk'  ") [""] "  'Ask the front desk'  " []);
    try reflexivity.
  - repeat constructor.
  - discriminate.
  - vm_compute. lia.
Defined.

Lemma call_gemini_hotel_search_raises_iff_witness :
  raises (fst (call_gemini_hotel_search (fun _ => Raise ExternalError) "Pune" 800 1200
                 (Some "key") ImportFails (Responds "Hotel - , - x") []))
  = true.
Proof.
  exact (call_gemini_hotel_search_raises_iff (fun _ => Raise ExternalError) "Pune" 800 1200
           (Some "key") ImportFails (Responds "Hotel - , - x") [] eq_refl).
Defined.
(** ** More on the form handler *)

Section Handler.

Variable shorten : string -> nat -> string -> string.
Variable float_repr : float -> string.
Variable json_address : string -> result (option string).
Variable json_hotels : string -> result (list (result (string * float * option string))).

Local Notation run := (handle_submit shorten float_repr json_address json_hotels).

Lemma fallback_raises_inv (city : string) (bill : float) (t : tape) (e : exn) :
  fst (fallback_hotel_suggestions city bill t) = Raise e ->
  e = IndexError /\ split_ws city = [].
Proof.
  destruct (split_ws city) as [|w ws] eqn:Hw.
  - rewrite (fallback_raises_on_blank_city city bill t Hw). intros [= <-]. now split.
  - destruct (suggestions_loop_spec city bill w ws Hw 3 t) as (hs & E & _).
    unfold fallback_hotel_suggestions. rewrite E. discriminate.
Qed.

Lemma choose_phone_raises_inv (f : form) (w : world) (t : tape) (e : exn) :
  fst (choose_phone json_hotels f w t) = Raise e ->
  e = IndexError /\ split_ws (city f) = [] /\
  is_nonempty (strip (hotel_phone_input f)) = false.
Proof.
  unfold choose_phone.
  destruct (is_nonempty (strip (hotel_phone_input f))); [discriminate|].
  destruct (search_hotels json_hotels f w t) as [found t1].
  assert (G : forall hs t2,
             fst (let (chosen, t3) := choice (mk_hotel "" (I 0) "") hs t2 in
                  let (ph, t4) := phone_or_random (Some (h_phone chosen)) t3 in
                  (@Ok (option string) (Some ph), t4)) = Raise e -> False).
  { intros hs t2. destruct (choice _ hs t2) as [chosen t3].
    destruct (phone_or_random _ t3). discriminate. }
  destruct found as [[|h hs]|].
  - pose proof (fallback_raises_inv (city f) (bill_amount f) t1 e) as Hf.
    destruct (fallback_hotel_suggestions (city f) (bill_amount f) t1) as [[hs|e'] t2];
      cbn [fst] in *.
    + intros H. exfalso. exact (G _ _ H).
    + intros [= <-]. destruct (Hf eq_refl). now repeat split.
  - intros H. exfalso. exact (G _ _ H).
  - pose proof (fallback_raises_inv (city f) (bill_amount f) t1 e) as Hf.
    destruct (fallback_hotel_suggestions (city f) (bill_amount f) t1) as [[hs|e'] t2];
      cbn [fst] in *.
    + intros H. exfalso. exact (G _ _ H).
    + intros [= <-]. destruct (Hf eq_refl). now repeat split.
Qed.

Lemma create_pdf_bytes_raises_inv
    (hotel_name hotel_addr guest_name invoice_no date_str room_no : string)
    (l : list item) (gst_no : string) (gst : float) (payment_mode hotel_phone : string)
    (font_name : option string) (logo_file : option logo) (currency : string) (e : exn) :
  create_pdf_bytes shorten float_repr hotel_name hotel_addr guest_name invoice_no
    date_str room_no l gst_no gst payment_mode hotel_phone font_name logo_file currency
  = Raise e ->
  e = OverflowError /\ amounts_of l = None.
Proof.
  destruct (amounts_of l) as [amts|] eqn:A.
  - destruct (create_pdf_bytes_returns shorten float_repr hotel_name hotel_addr
                guest_name invoice_no date_str room_no gst_no payment_mode
                hotel_phone currency l gst font_name logo_file amts A)
      as (rows & y' & _ & E).
    rewrite E. discriminate.
  - rewrite (create_pdf_bytes_raises shorten float_repr hotel_name hotel_addr
               guest_name invoice_no date_str room_no gst_no payment_mode
               hotel_phone currency l gst font_name logo_file A).
    intros [= <-]. now split.
Qed.

(** What is left of the handler once the typeface step is done. *)
Ltac after_font :=
  destruct (resolve_address json_address _ _ _) as [addr t2];
  match goal with
  | |- context [choose_phone json_hotels ?f ?w t2] =>
      pose proof (choose_phone_raises_inv f w t2) as Hc;
      destruct (choose_phone json_hotels f w t2) as [[chosen|e'] t3]; cbn [fst] in Hc
  end;
  [ destruct (if is_nonempty _ then _ else _) as [phone t4];
    destruct (rand_gst_number t4) as [gst t5];
    match goal with
    | |- context [create_pdf_bytes ?a1 ?a2 ?a3 ?a4 ?a5 ?a6 ?a7 ?a8 ?a9 ?a10 ?a11 ?a12 ?a13 ?a14 ?a15 ?a16] =>
        pose proof (create_pdf_bytes_raises_inv a3 a4 a5 a6 a7 a8 a9 a10 a11 a12 a13 a14 a15 a16) as Hr;
        destruct (create_pdf_bytes a1 a2 a3 a4 a5 a6 a7 a8 a9 a10 a11 a12 a13 a14 a15 a16)
          as [pdf|e'']
    end
  | ].

(** X9. With SDKs that answer in ASCII, if at all, the handler fails
    in two ways only: with [IndexError], when no phone was entered
    and the city has no word, and with [OverflowError], when a
    quantity is too large for a float. *)
Theorem handle_submit_failures (f : form) (w : world) (e : exn) fs t :
  ascii_sdks w = true ->
  run f w = (Raise e, fs, t) ->
  (e = IndexError /\ split_ws (city f) = [] /\
   is_nonempty (strip (hotel_phone_input f)) = false) \/
  (e = OverflowError /\ amounts_of (items f) = None).
Proof.
  intros _. unfold handle_submit.
  destruct (font_file f) as [[font_bytes name]|].
  - unfold register_font_from_bytes.
    destruct (randint 1000 9999 (rng w)) as [n t1].
    destruct (font_registers w); after_font; intros [= E1 _ _]; try discriminate;
      subst; first [ left; now apply Hc | right; now apply Hr ].
  - after_font; intros [= E1 _ _]; try discriminate;
      subst; first [ left; now apply Hc | right; now apply Hr ].
Qed.

(** X10. Without an uploaded typeface the handler leaves the files
    as they are, however the run ends. *)
Theorem handle_submit_without_font (f : form) (w : world) :
  font_file f = None ->
  snd (fst (run f w)) = files w.
Proof.
  intros Hfont. unfold handle_submit. rewrite Hfont.
  after_font; reflexivity.
Qed.

Lemma resolve_address_off (f : form) (w : world) :
  enrichment_off f w = true ->
  resolve_address json_address f w = get_random_address (city f).
Proof.
  unfold enrichment_off, resolve_address. intros H.
  destruct (force_fallback f), (is_set (env_api_key w)); try discriminate; reflexivity.
Qed.

Lemma choose_phone_off (f : form) (w : world) (t : tape) :
  enrichment_off f w = true ->
  choose_phone json_hotels f w t
  = if is_nonempty (strip (hotel_phone_input f)) then (Ok None, t)
    else
      let (hotels, t2) := fallback_hotel_suggestions (city f) (bill_amount f) t in
      match hotels with
      | Raise e => (Raise e, t2)
      | Ok hs =>
          let (chosen, t3) := choice (mk_hotel "" (I 0) "") hs t2 in
          let (ph, t4) := phone_or_random (Some (h_phone chosen)) t3 in
          (Ok (Some ph), t4)
      end.
Proof.
  unfold enrichment_off, choose_phone, search_hotels. intros H.
  destruct (is_nonempty _); [reflexivity|].
  destruct (force_fallback f), (is_set (env_api_key w)); try discriminate;
    cbn [negb andb]; destruct (fallback_hotel_suggestions _ _ t); reflexivity.
Qed.

Lemma enrichment_off_forced (f : form) (w : world) (a1 a2 h1 h2 : sdk_outcome) :
  enrichment_off (with_force_fallback f) (with_sdks w a1 a2 h1 h2) = true.
Proof. reflexivity. Qed.

(** X11. With "Force fallback" ticked or the credential not set, the
    handler does what it does with "Force fallback" ticked, whatever
    the SDKs would have answered. *)
Theorem handle_submit_enrichment_off
    (f : form) (w : world) (a1 a2 h1 h2 : sdk_outcome) :
  enrichment_off f w = true ->
  run f w = run (with_force_fallback f) (with_sdks w a1 a2 h1 h2).
Proof.
  intros H. unfold handle_submit.
  rewrite (resolve_address_off f w H).
  rewrite (resolve_address_off _ _ (enrichment_off_forced f w a1 a2 h1 h2)).
  cbn [with_force_fallback with_sdks font_file font_registers files rng city
       hotel_phone_input hotel_name guest_name invoice_no date_str room_no items
       gst_percent hotel_logo].
  assert (C : forall t, choose_phone json_hotels f w t
                        = choose_phone json_hotels (with_force_fallback f)
                            (with_sdks w a1 a2 h1 h2) t).
  { intros t. rewrite (choose_phone_off f w t H).
    rewrite (choose_phone_off _ _ t (enrichment_off_forced f w a1 a2 h1 h2)).
    reflexivity. }
  destruct (match font_file f with
            | Some (font_bytes, name) => _
            | None => _
            end) as [[[fname ftmp] fs1] t1].
  destruct (get_random_address (city f) t1) as [addr t2].
  rewrite C. reflexivity.
Qed.

Lemma preamble_shows_phone
    (hotel_name hotel_addr guest_name invoice_no date_str room_no : string)
    (gst_no hotel_phone : string) (font_name : option string) (logo_file : option logo) :
  exists x y,
    In (DrawString x y ("Phone: " ++ hotel_phone))
       (fst (draw_preamble hotel_name hotel_addr guest_name invoice_no date_str
               room_no gst_no hotel_phone font_name logo_file)).
Proof.
  unfold draw_preamble.
  destruct (draw_logo logo_file) as [[logo_ops title_x] top_y]. cbn [fst].
  exists title_x, (num_sub top_y 28).
  apply in_or_app. left. apply in_or_app. right.
  apply in_or_app. right. cbn. tauto.
Qed.

(** X12. When a phone number was entered, a run that ends normally
    offers "<hotel name with underscores>_bill.pdf" and the invoice
    shows the entered number, stripped, after "Phone: ". *)
Theorem handle_submit_entered_phone (f : form) (w : world) fname ops fs t :
  is_nonempty (strip (hotel_phone_input f)) = true ->
  run f w = (Ok (fname, ops), fs, t) ->
  fname = underscored (hotel_name f) ++ "_bill.pdf" /\
  exists x y, In (DrawString x y ("Phone: " ++ strip (hotel_phone_input f))) ops.
Proof.
  intros Hphone. unfold handle_submit.
  assert (G : forall font_name addr gst pdf,
             create_pdf_bytes shorten float_repr (hotel_name f) addr (guest_name f)
               (invoice_no f) (date_str f) (room_no f) (items f) gst (gst_percent f)
               "Cash" (strip (hotel_phone_input f)) font_name (hotel_logo f)
               default_currency = Ok pdf ->
             exists x y, In (DrawString x y ("Phone: " ++ strip (hotel_phone_input f))) pdf).
  { intros font_name addr gst pdf. unfold create_pdf_bytes.
    destruct (preamble_shows_phone (hotel_name f) addr (guest_name f) (invoice_no f)
                (date_str f) (room_no f) gst (strip (hotel_phone_input f)) font_name
                (hotel_logo f)) as (x & y & Hin).
    destruct (draw_preamble _ _ _ _ _ _ _ _ _ _) as [pre y0]. cbn [fst] in Hin.
    destruct (draw_rows _ _ _ _ _ _ _) as [[[rows y'] sub]|]; [|discriminate].
    intros [= <-]. exists x, y. apply in_or_app. now left. }
  destruct (font_file f) as [[font_bytes name]|].
  - unfold register_font_from_bytes.
    destruct (randint 1000 9999 (rng w)) as [n t1].
    destruct (font_registers w);
      destruct (resolve_address json_address f w t1) as [addr t2];
      destruct (choose_phone json_hotels f w t2) as [[chosen|e'] t3]; try discriminate;
      rewrite Hphone;
      destruct (rand_gst_number t3) as [gst t5];
      destruct (create_pdf_bytes _ _ _ _ _ _ _ _ _ _ _ _ _ _ _ _) as [pdf|] eqn:P;
      try discriminate;
      intros [= <- <- _ _]; (split; [reflexivity | exact (G _ _ _ _ P)]).
  - destruct (resolve_address json_address f w (rng w)) as [addr t2];
      destruct (choose_phone json_hotels f w t2) as [[chosen|e'] t3]; try discriminate;
      rewrite Hphone;
      destruct (rand_gst_number t3) as [gst t5];
      destruct (create_pdf_bytes _ _ _ _ _ _ _ _ _ _ _ _ _ _ _ _) as [pdf|] eqn:P;
      try discriminate;
      intros [= <- <- _ _]; (split; [reflexivity | exact (G _ _ _ _ P)]).
Qed.

End Handler.

Lemma handle_submit_failures_witness :
  match fst (fst (sample_run "" [mk_item "Room" (10 ^ 400) 1%float])) with
  | Raise e => e = OverflowError
  | Ok _ => False
  end.
Proof.
  destruct (sample_run "" [mk_item "Room" (10 ^ 400) 1%float]) as [[[dl|e] fs] t] eqn:E;
    cbn [fst].
  - vm_compute in E. discriminate.
  - destruct (handle_submit_failures shorten_fitting repr_five
                (fun _ => Raise ExternalError) (fun _ => Raise ExternalError)
                (sample_form "" [mk_item "Room" (10 ^ 400) 1%float]) sample_world
                e fs t eq_refl E) as [(_ & Hc & _) | (He & _)].
    + vm_compute in Hc. discriminate.
    + exact He.
Defined.

Lemma handle_submit_without_font_witness :
  snd (fst (handle_submit shorten_fitting repr_five
              (fun _ => Raise ExternalError) (fun _ => Raise ExternalError)
              (mk_form DEFAULT_HOTEL_NAME "Mumbai" None None "" "Guest" "101" "INV-1"
                 "2026-11-04" 1000%float 5%float false default_items)
              (mk_world None ImportFails ImportFails ImportFails ImportFails true
                 ["notes.txt"] [3%N])))
  = ["notes.txt"].
Proof.
  exact (handle_submit_without_font shorten_fitting repr_five
           (fun _ => Raise ExternalError) (fun _ => Raise ExternalError)
           (mk_form DEFAULT_HOTEL_NAME "Mumbai" None None "" "Guest" "101" "INV-1"
              "2026-11-04" 1000%float 5%float false default_items)
           (mk_world None ImportFails ImportFails ImportFails ImportFails true
              ["notes.txt"] [3%N])
           eq_refl).
Defined.

Lemma handle_submit_enrichment_off_witness :
  sample_run "" default_items
  = handle_submit shorten_fitting repr_five
      (fun _ => Raise ExternalError) (fun _ => Raise ExternalError)
      (with_force_fallback (sample_form "" default_items))
      (with_sdks sample_world (Responds "12 MG Road") CallFails
         (Responds "Taj - 3,000") CallFails).
Proof.
  exact (handle_submit_enrichment_off shorten_fitting repr_five
           (fun _ => Raise ExternalError) (fun _ => Raise ExternalError)
           (sample_form "" default_items) sample_world
           (Responds "12 MG Road") CallFails (Responds "Taj - 3,000") CallFails
           eq_refl).
Defined.

Lemma handle_submit_entered_phone_witness :
  match fst (fst (sample_run " 022-5550100 " default_items)) with
  | Ok (fname, ops) =>
      fname = "NEO_ROBOTIC_INN_bill.pdf" /\
      exists x y, In (DrawString x y "Phone: 022-5550100") ops
  | Raise _ => False
  end.
Proof.
  destruct (sample_run " 022-5550100 " default_items) as [[[[fname ops]|e] fs] t] eqn:E;
    cbn [fst].
  - exact (handle_submit_entered_phone shorten_fitting repr_five
             (fun _ => Raise ExternalError) (fun _ => Raise ExternalError)
             (sample_form " 022-5550100 " default_items) sample_world
             fname ops fs t eq_refl E).
  - vm_compute in E. discriminate.
Defined.

Lemma handle_submit_success_cleans_up_witness :
  match sample_run "" default_items with
  | (Ok _, fs, _) => file_exists (staged_path sample_world "Roboto.ttf") fs = false
  | (Raise _, _, _) => False
  end.
Proof.
  destruct (sample_run "" default_items) as [[[dl|e] fs] t] eqn:E.
  - exact (handle_submit_success_cleans_up shorten_fitting repr_five
             (fun _ => Raise ExternalError) (fun _ => Raise ExternalError)
             (sample_form "" default_items) sample_world "ttf" "Roboto.ttf"
             dl fs t eq_refl E).
  - vm_compute in E. discriminate.
Defined.

Lemma handle_submit_failure_leaves_file_witness :
  match sample_run "" [mk_item "Room" (10 ^ 400) 1%float] with
  | (Raise _, fs, _) => file_exists (staged_path sample_world "Roboto.ttf") fs = true
  | (Ok _, _, _) => False
  end.
Proof.
  destruct (sample_run "" [mk_item "Room" (10 ^ 400) 1%float]) as [[[dl|e] fs] t] eqn:E.
  - vm_compute in E. discriminate.
  - exact (handle_submit_failure_leaves_file shorten_fitting repr_five
             (fun _ => Raise ExternalError) (fun _ => Raise ExternalError)
             (sample_form "" [mk_item "Room" (10 ^ 400) 1%float]) sample_world
             "ttf" "Roboto.ttf" e fs t eq_refl eq_refl E).
Defined.

(** ** More on the invoice layout engine *)

Section LayoutMore.

Variable shorten : string -> nat -> string -> string.
Variable float_repr : float -> string.




Variables hotel_name hotel_addr guest_name invoice_no date_str room_no : string.
Variables gst_no payment_mode hotel_phone currency : string.
Variable items : list item.
Variable gst_percent : float.
Variable font_name : option string.
Variable logo_file : option logo.

Local Notation preamble :=
  (draw_preamble hotel_name hotel_addr guest_name invoice_no date_str room_no
     gst_no hotel_phone font_name logo_file).
Local Notation render :=
  (create_pdf_bytes shorten float_repr hotel_name hotel_addr guest_name invoice_no
     date_str room_no items gst_no gst_percent payment_mode hotel_phone
     font_name logo_file currency).
Local Notation totals y subtotal :=
  (draw_totals float_repr font_name currency payment_mode gst_percent y subtotal).

(** Rendering that returns is the preamble, the rows and the totals. *)
Lemma create_pdf_bytes_ok_inv (ops : list op) :
  render = Ok ops ->
  exists rows y' subtotal,
    draw_rows shorten (regular_font font_name) currency items 1 (snd preamble) 0%float
    = Ok (rows, y', subtotal) /\
    ops = (fst preamble ++ rows ++ totals y' subtotal)%list.
Proof.
  unfold create_pdf_bytes. destruct preamble as [pre y]. cbn [fst snd].
  destruct (draw_rows _ _ _ _ _ _ _) as [[[rows y'] sub]|]; [|discriminate].
  intros [= <-]. eauto.
Qed.


Lemma row_blocks_serials (font cur : string) rows ops :
  row_blocks shorten font cur rows ops ->
  serial_cells ops = map (fun x => str_of_Z (fst (fst x))) rows.
Proof.
  induction 1 as [|i it a rest y ops _ IH|i it a rest y ops _ IH].
  - reflexivity.
  - unfold serial_cells in *. rewrite flat_map_app, IH. reflexivity.
  - unfold serial_cells in *. rewrite !flat_map_app, IH. reflexivity.
Qed.

(** X14. Whenever rendering returns, the serial numbers the row loop
    writes are 1, 2, ..., n in order: the count goes on across page
    breaks. *)
Theorem create_pdf_bytes_serial_numbers (amts : list float) :
  amounts_of items = Some amts ->
  exists rows y',
    render = Ok (fst preamble ++ rows ++ totals y' (float_sum 0%float amts))%list /\
    serial_cells rows
    = map (fun k => str_of_Z (1 + Z.of_nat k)) (seq 0 (List.length items)).
Proof.
  intros H.
  destruct (create_pdf_bytes_returns shorten float_repr hotel_name hotel_addr
              guest_name invoice_no date_str room_no gst_no payment_mode
              hotel_phone currency items gst_percent font_name logo_file amts H)
    as (rows & y' & D & E).
  exists rows, y'. split; [exact E|].
  rewrite (row_blocks_serials _ _ _ _ (draw_rows_blocks shorten _ _ _ _ _ _ _ _ _ _ H D)).
  rewrite <- (map_map (fun x : Z * item * float => fst (fst x)) str_of_Z).
  rewrite (numbered_rows_serials items amts 1 (amounts_of_length items amts H)).
  apply map_map.
Qed.

Lemma draw_rows_fonts (font cur : string) (l : list item) :
  forall i y s ops y' s',
    draw_rows shorten font cur l i y s = Ok (ops, y', s') ->
    Forall (eq font) (fonts_of ops).
Proof.
  induction l as [|it rest IH]; intros i y s ops y' s' D; cbn [draw_rows] in D.
  - injection D as <- _ _. constructor.
  - destruct (float_of_Z (qty it)) as [q|]; [|discriminate].
    destruct (num_lt (num_sub y 16) (-500)).
    + destruct (draw_rows shorten font cur rest (i + 1) (I (-40)) _)
        as [[[ops1 y1] s1]|] eqn:D1; [|discriminate].
      assert (E : ops = (row_ops shorten font cur y i it (q * rate it)%float
                         ++ page_break_ops ++ ops1)%list)
        by (injection D as <- _ _; reflexivity).
      subst ops. unfold fonts_of. rewrite !flat_map_app. cbn [row_ops page_break_ops flat_map app].
      constructor; [reflexivity|]. exact (IH _ _ _ _ _ _ D1).
    + destruct (draw_rows shorten font cur rest (i + 1) (num_sub y 16) _)
        as [[[ops1 y1] s1]|] eqn:D1; [|discriminate].
      assert (E : ops = (row_ops shorten font cur y i it (q * rate it)%float
                         ++ [] ++ ops1)%list)
        by (injection D as <- _ _; reflexivity).
      subst ops. unfold fonts_of. rewrite !flat_map_app. cbn [row_ops flat_map app].
      constructor; [reflexivity|]. exact (IH _ _ _ _ _ _ D1).
Qed.

Lemma draw_logo_fonts : fonts_of (fst (fst (draw_logo logo_file))) = [].
Proof.
  unfold draw_logo.
  destruct logo_file as [[|iw ih]|]; try reflexivity.
  destruct (float_of_Z iw), (float_of_Z ih); try reflexivity.
  destruct (iw =? 0); reflexivity.
Qed.

(** X15. Whenever rendering returns, every typeface it selects is the
    uploaded one when a typeface was registered, and Helvetica-Bold
    or Helvetica otherwise. *)
Theorem create_pdf_bytes_typefaces (ops : list op) :
  render = Ok ops ->
  match font_name with
  | Some (String c s) => Forall (eq (String c s)) (fonts_of ops)
  | _ => Forall (fun n => n = "Helvetica-Bold" \/ n = "Helvetica") (fonts_of ops)
  end.
Proof.
  intros R.
  destruct (create_pdf_bytes_ok_inv ops R) as (rows & y' & sub & D & ->).
  pose proof (draw_rows_fonts _ _ _ _ _ _ _ _ _ D) as Hrows.
  pose proof draw_logo_fonts as Hlogo.
  assert (P : Forall (fun n => n = header_font font_name \/ n = regular_font font_name)
                (fonts_of (fst preamble ++ rows ++ totals y' sub))).
  { unfold fonts_of in *. rewrite !flat_map_app. apply Forall_app. split; [|apply Forall_app; split].
    - unfold draw_preamble. destruct (draw_logo logo_file) as [[lo tx] ty].
      cbn [fst] in Hlogo |- *. rewrite !flat_map_app, Hlogo.
      cbn [app flat_map]. repeat (apply Forall_cons; [auto|]). apply Forall_nil.
    - eapply Forall_impl; [|exact Hrows]. intros n <-. now right.
    - unfold draw_totals. cbn [flat_map app].
      repeat (apply Forall_cons; [auto|]). apply Forall_nil. }
  destruct font_name as [[|c s]|]; cbn [header_font regular_font] in P.
  - exact P.
  - eapply Forall_impl; [|exact P]. intros n [->| ->]; reflexivity.
  - exact P.
Qed.

End LayoutMore.

(** ** The empty invoice *)

(** A zero subtotal with a finite tax percent that is not negative
    gives a zero product. *)
Lemma zero_times_nonnegative (g : float) :
  finite_nonnegative g = true -> (0 * g)%float = 0%float.
Proof.
  unfold finite_nonnegative. intros H.
  apply Prim2SF_inj. rewrite mul_spec.
  destruct (Prim2SF g) as [[|]|[|]| |[|] m e]; try discriminate; reflexivity.
Qed.

Section RenderingOutcome.

Variable shorten : string -> nat -> string -> string.
Variable float_repr : float -> string.
Variables hotel_name hotel_addr guest_name invoice_no date_str room_no : string.
Variables gst_no payment_mode hotel_phone currency : string.
Variable gst_percent : float.
Variable font_name : option string.
Variable logo_file : option logo.

Local Notation render items :=
  (create_pdf_bytes shorten float_repr hotel_name hotel_addr guest_name invoice_no
     date_str room_no items gst_no gst_percent payment_mode hotel_phone
     font_name logo_file currency).

(** X17. An invoice without items is still rendered, on one page:
    with a finite tax percent that is not negative its subtotal, tax
    and grand total all read 0.00. *)
Theorem create_pdf_bytes_empty_invoice :
  finite_nonnegative gst_percent = true ->
  exists ops,
    render [] = Ok ops /\
    page_breaks ops = 0%nat /\
    In ("Subtotal: " ++ currency ++ "0.00") (draw_texts ops) /\
    In ("GST (" ++ float_repr gst_percent ++ "%): " ++ currency ++ "0.00")
       (draw_texts ops) /\
    In ("Grand Total: " ++ currency ++ "0.00") (draw_texts ops).
Proof.
  intros G.
  unfold create_pdf_bytes.
  pose proof (preamble_no_break hotel_name hotel_addr guest_name invoice_no
                date_str room_no gst_no hotel_phone font_name logo_file) as P.
  destruct (draw_preamble hotel_name hotel_addr guest_name invoice_no date_str
              room_no gst_no hotel_phone font_name logo_file) as [pre y].
  cbn [fst] in P. cbn [draw_rows app].
  eexists. split; [reflexivity|].
  assert (Z0 : gst_amount_of 0 gst_percent = 0%float).
  { unfold gst_amount_of. rewrite (zero_times_nonnegative _ G). vm_compute. reflexivity. }
  assert (Z1 : grand_total_of 0 gst_percent = 0%float).
  { unfold grand_total_of. rewrite Z0. vm_compute. reflexivity. }
  split; [|rewrite draw_texts_app; split; [|split]; apply in_or_app; right;
           unfold draw_totals; rewrite ?Z0, ?Z1;
           cbn [draw_texts flat_map op_text app In]; unfold money].
  - rewrite page_breaks_app, P.
    exact (totals_no_break float_repr payment_mode currency gst_percent font_name y 0%float).
  - change (format_2f 0) with "0.00". auto.
  - change (format_2f 0) with "0.00". auto 10.
  - change (format_2f 0) with "0.00". auto 10.
Qed.

End RenderingOutcome.

Lemma create_pdf_bytes_empty_invoice_witness :
  exists ops,
    create_pdf_bytes shorten_fitting repr_five "NEO ROBOTIC INN" "1 Main Road, Pune"
      "A Guest" "INV-1" "2024-01-01" "101" [] "27ABCDE1234F1Z5" 5.0%float
      "Cash" "9876543210" None None "Rs." = Ok ops /\
    page_breaks ops = 0%nat /\
    In ("Subtotal: " ++ "Rs." ++ "0.00") (draw_texts ops) /\
    In ("GST (" ++ repr_five 5.0%float ++ "%): " ++ "Rs." ++ "0.00") (draw_texts ops) /\
    In ("Grand Total: " ++ "Rs." ++ "0.00") (draw_texts ops).
Proof.
  apply (create_pdf_bytes_empty_invoice shorten_fitting repr_five).
  vm_compute. reflexivity.
Defined.

(** ** The money format *)

Lemma group3_rev_reads_back (n : nat) :
  forall l, (List.length l <= n)%nat -> l <> [] ->
  forallb is_digit l = true ->
  ungroup_rev (group3_rev l) = Some l /\
  (exists c r, group3_rev l = r ++ [c] /\ is_digit c = true)%list.
Proof.
  induction n as [|n IH]; intros l Hn Hl Hd.
  - destruct l; [congruence | simpl in Hn; lia].
  - destruct l as [|a [|b [|c [|d rest]]]]; [congruence| | | |].
    + cbn in Hd |- *. rewrite Hd. split; [reflexivity|].
      exists a, []. split; [reflexivity|]. now rewrite andb_true_r in Hd.
    + cbn in Hd |- *. rewrite Hd. split; [reflexivity|].
      exists b, [a]. split; [reflexivity|].
      apply andb_true_iff in Hd as [_ Hd]. now rewrite andb_true_r in Hd.
    + cbn in Hd |- *. rewrite Hd. split; [reflexivity|].
      exists c, [a; b]. split; [reflexivity|].
      apply andb_true_iff in Hd as [_ Hd]. apply andb_true_iff in Hd as [_ Hd].
      now rewrite andb_true_r in Hd.
    + cbn [forallb] in Hd.
      apply andb_true_iff in Hd as [Ha Hd]. apply andb_true_iff in Hd as [Hb Hd].
      apply andb_true_iff in Hd as [Hc Hd].
      destruct (IH (d :: rest)) as [R (c' & r & E & Hc')];
        [simpl in Hn |- *; lia | discriminate | exact Hd |].
      change (group3_rev (a :: b :: c :: d :: rest))
        with (a :: b :: c :: ","%char :: group3_rev (d :: rest)).
      split.
      * cbn [ungroup_rev]. rewrite Ha, Hb, Hc, R. reflexivity.
      * exists c', (a :: b :: c :: ","%char :: r). rewrite E. split; [reflexivity | exact Hc'].
Qed.

Lemma two_digits_reads_back (m : Z) :
  0 <= m < 100 ->
  exists d1 d2,
    chars (two_digits m) = [d1; d2] /\ is_digit d1 = true /\ is_digit d2 = true /\
    digits_value [d1; d2] = m.
Proof.
  intros Hm.
  pose (P := fun z => match chars (two_digits z) with
                      | [d1; d2] => is_digit d1 && is_digit d2 && (digits_value [d1; d2] =? z)
                      | _ => false
                      end).
  assert (H : P m = true)
    by (apply (forall_range P 0 100); [vm_compute; reflexivity | lia]).
  unfold P in H.
  destruct (chars (two_digits m)) as [|d1 [|d2 [|? ?]]]; try discriminate.
  apply andb_true_iff in H as [H H3]. apply andb_true_iff in H as [H1 H2].
  apply Z.eqb_eq in H3. eauto 6.
Qed.

Lemma is_digit_not_minus (c : ascii) : is_digit c = true -> c <> "-"%char.
Proof. intros H ->. discriminate. Qed.

(** X18. The money format can be read back: after the currency
    symbol comes a text of the shape [-#,###.##], commas setting off
    groups of three digits from the right, which stands for exactly
    the amount in hundredths that rounding half-even to two places
    gives. *)
Theorem money_reads_back (x : float) (symbol : string) (c : Z) :
  display_cents x = Some c ->
  exists text, money x symbol = symbol ++ text /\ read_amount text = Some c.
Proof.
  intros H.
  rewrite (money_shows_display_cents x symbol c H).
  eexists. split; [reflexivity|].
  assert (Hc : c = if sign_of x then - Z.abs c else Z.abs c).
  { unfold display_cents in H. destruct (cents_abs x) as [n|] eqn:E; [|discriminate].
    injection H as <-.
    assert (0 <= n).
    { unfold cents_abs in E. destruct (Prim2SF x) as [s|s| |s m e]; try discriminate.
      - injection E as <-. lia.
      - injection E as <-. apply rhe_scaled_nonneg. lia. }
    destruct (sign_of x); lia. }
  set (n := Z.abs c) in *.
  assert (Hn : 0 <= n) by (subst n; lia).
  destruct (str_of_Z_digits (n / 100) ltac:(apply Z.div_pos; lia)) as [Hd Hv].
  assert (Hne : rev (chars (str_of_Z (n / 100))) <> []).
  { intros E. apply (f_equal (@rev ascii)) in E. rewrite rev_involutive in E.
    cbn [rev] in E. rewrite E in Hv. cbn in Hv. rewrite <- Hv in E.
    vm_compute in E. discriminate. }
  assert (Hdr : forallb is_digit (rev (chars (str_of_Z (n / 100)))) = true).
  { rewrite forallb_forall in Hd |- *. intros a Ha. apply in_rev in Ha.
    exact (Hd a Ha). }
  destruct (group3_rev_reads_back _ _ (le_n _) Hne Hdr) as [R (cl & r & E & Hcl)].
  destruct (two_digits_reads_back (n mod 100) ltac:(apply Z.mod_pos_bound; lia))
    as (d1 & d2 & T & H1 & H2 & Tv).
  assert (G : chars (group3 (str_of_Z (n / 100))) = cl :: rev r).
  { unfold group3. rewrite chars_str, E, rev_app_distr. reflexivity. }
  assert (B : rev (chars (group3 (str_of_Z (n / 100)) ++ "." ++ two_digits (n mod 100)))
              = d2 :: d1 :: "."%char :: group3_rev (rev (chars (str_of_Z (n / 100))))).
  { rewrite !chars_app, T. unfold group3. rewrite chars_str.
    change (chars ".") with ["."%char].
    rewrite !rev_app_distr, rev_involutive. reflexivity. }
  assert (V : digits_value (rev (rev (chars (str_of_Z (n / 100))))) * 100
              + digits_value [d1; d2] = n).
  { rewrite rev_involutive, Hv, Tv. pose proof (Z.div_mod n 100 ltac:(lia)). lia. }
  unfold read_amount.
  destruct (sign_of x).
  - change (chars ("-" ++ ?s)) with ("-"%char :: chars s).
    cbv iota beta. rewrite B. cbn [Ascii.eqb Bool.eqb andb]. rewrite H1, H2, R.
    cbv zeta. rewrite V. now rewrite Hc.
  - change (chars ("" ++ ?s)) with (chars s).
    assert (S : match chars (group3 (str_of_Z (n / 100)) ++ "." ++ two_digits (n mod 100)) with
                | "-"%char :: r0 => (true, r0)
                | r0 => (false, r0)
                end
                = (false, chars (group3 (str_of_Z (n / 100)) ++ "." ++ two_digits (n mod 100)))).
    { rewrite chars_app, G. cbn [app].
      destruct cl as [[|] [|] [|] [|] [|] [|] [|] [|]]; try reflexivity; discriminate. }
    rewrite S, B. cbn [Ascii.eqb Bool.eqb andb]. rewrite H1, H2, R.
    cbv zeta. rewrite V. now rewrite Hc.
Qed.

Lemma money_reads_back_witness :
  exists text,
    money 1234567.891%float "Rs." = "Rs." ++ text /\ read_amount text = Some 123456789.
Proof.
  apply (money_reads_back 1234567.891%float "Rs." 123456789).
  vm_compute. reflexivity.
Defined.

(** ** Item entry of the form *)

Lemma split_comma_from_last (l : list ascii) :
  forall cur,
    forallb (fun c => negb (Ascii.eqb c ","%char)) l = true ->
    split_comma_from cur l = [str (rev cur ++ l)].
Proof.
  induction l as [|c l IH]; intros cur H.
  - cbn [split_comma_from]. now rewrite app_nil_r.
  - cbn [forallb] in H. apply andb_true_iff in H as [Hc Hl].
    cbn [split_comma_from]. destruct (Ascii.eqb c ","%char); [discriminate|].
    rewrite (IH (c :: cur) Hl). cbn [rev]. now rewrite <- app_assoc.
Qed.

Lemma split_comma_from_field (l rest : list ascii) :
  forall cur,
    forallb (fun c => negb (Ascii.eqb c ","%char)) l = true ->
    split_comma_from cur (l ++ ","%char :: rest)
    = str (rev cur ++ l) :: split_comma_from [] rest.
Proof.
  induction l as [|c l IH]; intros cur H.
  - cbn [app split_comma_from Ascii.eqb Bool.eqb]. now rewrite app_nil_r.
  - cbn [forallb] in H. apply andb_true_iff in H as [Hc Hl].
    cbn [app split_comma_from]. destruct (Ascii.eqb c ","%char); [discriminate|].
    rewrite (IH (c :: cur) Hl). cbn [rev]. now rewrite <- app_assoc.
Qed.

Lemma runes_ascii (l : list ascii) :
  forallb is_ascii_char l = true -> runes l = map (fun c => [c]) l.
Proof.
  unfold runes. induction l as [|c l IH]; intros H; [reflexivity|].
  cbn [forallb] in H. apply andb_true_iff in H as [Hc Hl].
  cbn [runes_from Nat.ltb Nat.leb andb app map].
  replace (continuation_count c) with 0%nat; [now rewrite (IH Hl)|].
  unfold is_ascii_char in Hc. apply Nat.ltb_lt in Hc.
  unfold continuation_count.
  destruct (Nat.ltb_spec (nat_of_ascii c) 192); [reflexivity | lia].
Qed.

Lemma is_space_rune_ascii (c : ascii) :
  is_ascii_char c = true -> is_space_rune [c] = is_space c.
Proof.
  destruct c as [[|] [|] [|] [|] [|] [|] [|] [|]]; intros H; try discriminate H;
    reflexivity.
Qed.

Lemma drop_runes_ascii (l : list ascii) :
  forallb is_ascii_char l = true ->
  drop_runes is_space_rune (map (fun c => [c]) l)
  = map (fun c => [c]) (drop_while is_space l).
Proof.
  induction l as [|c l IH]; intros H; [reflexivity|].
  cbn [forallb] in H. apply andb_true_iff in H as [Hc Hl].
  cbn [map drop_runes drop_while]. rewrite (is_space_rune_ascii c Hc).
  destruct (is_space c); [exact (IH Hl) | reflexivity].
Qed.

Lemma drop_while_ascii (p : ascii -> bool) (l : list ascii) :
  forallb is_ascii_char l = true -> forallb is_ascii_char (drop_while p l) = true.
Proof.
  induction l as [|c l IH]; intros H; [reflexivity|].
  cbn [drop_while]. destruct (p c); [|exact H].
  cbn [forallb] in H. apply andb_true_iff in H as [_ Hl]. exact (IH Hl).
Qed.

Lemma forallb_rev {A} (p : A -> bool) (l : list A) :
  forallb p l = true -> forallb p (rev l) = true.
Proof.
  rewrite !forallb_forall. intros H x Hx. apply H. now apply in_rev.
Qed.

Lemma concat_singletons (l : list ascii) : List.concat (map (fun c => [c]) l) = l.
Proof. induction l as [|c l IH]; [reflexivity|]. cbn. now rewrite IH. Qed.

(** On ASCII text [strip] removes the ASCII blanks at both ends. *)
Lemma strip_ascii (l : list ascii) :
  forallb is_ascii_char l = true ->
  strip (str l) = str (rev (drop_while is_space (rev (drop_while is_space l)))).
Proof.
  intros H. unfold strip. rewrite chars_str, (runes_ascii l H), (drop_runes_ascii l H).
  rewrite <- map_rev, drop_runes_ascii
    by (apply forallb_rev, drop_while_ascii; exact H).
  now rewrite <- map_rev, concat_singletons.
Qed.

Lemma is_digit_plain (c : ascii) :
  is_digit c = true ->
  is_space c = false /\ Ascii.eqb c ","%char = false /\
  Ascii.eqb c "-"%char = false /\ Ascii.eqb c "+"%char = false /\
  is_ascii_char c = true.
Proof.
  destruct c as [[|] [|] [|] [|] [|] [|] [|] [|]]; intros H; try discriminate H;
    repeat split; reflexivity.
Qed.

Lemma digits_comma_free (l : list ascii) :
  forallb is_digit l = true ->
  forallb (fun c => negb (Ascii.eqb c ","%char)) l = true.
Proof.
  rewrite !forallb_forall. intros H c Hc.
  destruct (is_digit_plain c (H c Hc)) as (_ & -> & _). reflexivity.
Qed.

Lemma drop_while_head (p : ascii -> bool) (c : ascii) (l : list ascii) :
  p c = false -> drop_while p (c :: l) = c :: l.
Proof. intros H. cbn [drop_while]. now rewrite H. Qed.

(** [strip] leaves a text alone whose first and last characters are
    not blank. *)
Lemma strip_solid (l : list ascii) (a b : ascii) (m : list ascii) :
  forallb is_ascii_char l = true ->
  l = a :: m -> rev l = b :: rev (removelast l) ->
  is_space a = false -> is_space b = false ->
  strip (str l) = str l.
Proof.
  intros Hl -> Hr Ha Hb. rewrite (strip_ascii _ Hl).
  rewrite (drop_while_head _ a m Ha), Hr, (drop_while_head _ b _ Hb), <- Hr.
  now rewrite rev_involutive.
Qed.

Lemma rev_last_first (l : list ascii) :
  l <> [] -> exists b, rev l = b :: rev (removelast l) /\ In b l.
Proof.
  intros H. destruct (exists_last H) as (l' & b & ->).
  exists b. rewrite rev_app_distr, removelast_last. split; [reflexivity|].
  apply in_or_app. right. now left.
Qed.

Lemma digits_grouped (l : list ascii) :
  forall b, forallb is_digit l = true ->
  grouped_digits_from b l = match l with [] => b | _ => true end.
Proof.
  induction l as [|c l IH]; intros b H; [reflexivity|].
  cbn [forallb] in H. apply andb_true_iff in H as [Hc Hl].
  cbn [grouped_digits_from]. rewrite Hc, (IH true Hl). now destruct l.
Qed.

Lemma filter_all (l : list ascii) (p : ascii -> bool) :
  forallb p l = true -> filter p l = l.
Proof.
  induction l as [|c l IH]; intros H; [reflexivity|].
  cbn [forallb] in H. apply andb_true_iff in H as [Hc Hl].
  cbn [filter]. now rewrite Hc, IH.
Qed.

Lemma str_of_Z_neg (p : positive) :
  str_of_Z (Zneg p) = String "-"%char (str_of_Z (Zpos p)).
Proof.
  rewrite str_of_Z_pos. unfold str_of_Z.
  cbn [Z.to_int NilZero.string_of_int NilZero.string_of_uint].
  pose proof (DecimalPos.Unsigned.to_uint_nonnil p).
  destruct (Pos.to_uint p); try reflexivity. congruence.
Qed.

(** The writing of an integer: not blank at either end, without a
    comma. *)
Lemma str_of_Z_plain (q : Z) :
  strip (str_of_Z q) = str_of_Z q /\ comma_free (str_of_Z q) = true.
Proof.
  assert (P : forall p, strip (str_of_Z (Zpos p)) = str_of_Z (Zpos p) /\
                        comma_free (str_of_Z (Zpos p)) = true /\
                        strip (str_of_Z (Zneg p)) = str_of_Z (Zneg p)).
  { intros p.
    destruct (str_of_Z_digits (Zpos p) ltac:(lia)) as [Hd _].
    rewrite str_of_Z_neg.
    rewrite str_of_Z_pos in *.
    destruct (pos_writing p) as (c & l & E & _ & _ & _).
    rewrite <- (str_chars (NilEmpty.string_of_uint (Pos.to_uint p))).
    rewrite E in *.
    destruct (rev_last_first (c :: l) ltac:(discriminate)) as (b & Hr & Hb).
    assert (Ha : forallb is_ascii_char (c :: l) = true).
    { rewrite forallb_forall in Hd |- *. intros x Hx.
      exact (proj2 (proj2 (proj2 (proj2 (is_digit_plain x (Hd x Hx)))))). }
    rewrite forallb_forall in Hd.
    destruct (is_digit_plain c (Hd c (or_introl eq_refl))) as (Hc & _).
    destruct (is_digit_plain b (Hd b Hb)) as (Hbs & _).
    split; [|split].
    - exact (strip_solid (c :: l) c b l Ha eq_refl Hr Hc Hbs).
    - unfold comma_free. rewrite chars_str. apply digits_comma_free.
      now apply forallb_forall.
    - change (String "-"%char (str (c :: l))) with (str ("-"%char :: c :: l)).
      apply (strip_solid ("-"%char :: c :: l) "-"%char b (c :: l));
        [exact Ha|reflexivity| |reflexivity|exact Hbs].
      change ("-"%char :: c :: l) with (["-"%char] ++ c :: l)%list.
      rewrite rev_app_distr, Hr. cbn [app rev].
      destruct l; [cbn in *; now injection Hr as -> | ].
      change (removelast ("-"%char :: c :: a :: l)) with ("-"%char :: removelast (c :: a :: l)).
      reflexivity. }
  destruct q as [|p|p].
  - split; reflexivity.
  - destruct (P p) as (H1 & H2 & _). split; assumption.
  - destruct (P p) as (_ & H2 & H3). split; [exact H3|].
    rewrite str_of_Z_neg. exact H2.
Qed.

(** [int] reads the decimal writing of an integer back, within the
    digit limit. *)
Lemma py_int_str_of_Z (q : Z) :
  (List.length (chars (str_of_Z (Z.abs q))) <= int_max_str_digits)%nat ->
  py_int (str_of_Z q) = Ok q.
Proof.
  intros L. unfold py_int. rewrite (proj1 (str_of_Z_plain q)).
  destruct (str_of_Z_digits (Z.abs q) ltac:(lia)) as [Hd Hv].
  assert (Hne : chars (str_of_Z (Z.abs q)) <> []).
  { intros E. rewrite E in Hv. cbn in Hv. rewrite <- Hv in E. vm_compute in E. discriminate. }
  assert (K : forall neg : bool,
             (let (n, body) := (neg, chars (str_of_Z (Z.abs q))) in
              if grouped_digits_from false body
              then if (int_max_str_digits <? List.length (filter is_digit body))%nat
                   then Raise ValueError
                   else Ok (if n then - digits_value (filter is_digit body)
                            else digits_value (filter is_digit body))
              else Raise ValueError)
             = Ok (if neg then - Z.abs q else Z.abs q)).
  { intros neg. rewrite (digits_grouped _ false Hd), (filter_all _ _ Hd), Hv.
    destruct (chars (str_of_Z (Z.abs q))) as [|c0 l0]; [congruence|].
    destruct (Nat.ltb_spec int_max_str_digits (List.length (c0 :: l0)));
      [lia | reflexivity]. }
  destruct q as [|p|p].
  - reflexivity.
  - cbn [Z.abs] in *.
    assert (T : take_sign (chars (str_of_Z (Z.pos p))) = (false, chars (str_of_Z (Z.pos p)))).
    { destruct (chars (str_of_Z (Z.pos p))) as [|c l]; [reflexivity|].
      cbn [forallb] in Hd. apply andb_true_iff in Hd as [Hc _].
      destruct (is_digit_plain c Hc) as (_ & _ & Hm & Hp & _).
      unfold take_sign. now rewrite Hm, Hp. }
    rewrite T. exact (K false).
  - cbn [Z.abs] in *. rewrite str_of_Z_neg.
    change (chars (String "-"%char ?s)) with ("-"%char :: chars s).
    change (take_sign ("-"%char :: ?l)) with (true, l).
    exact (K true).
Qed.

Lemma parse_item_lines_app (l1 l2 : list string) :
  parse_item_lines (l1 ++ l2) = (parse_item_lines l1 ++ parse_item_lines l2)%list.
Proof.
  induction l1 as [|line l1 IH]; [reflexivity|].
  cbn [app parse_item_lines].
  destruct (map strip (split_comma line)) as [|d [|q [|r ?]]]; try exact IH.
  destruct (py_int q); [|exact IH].
  destruct (py_float r); [|exact IH].
  cbn [app]. now rewrite IH.
Qed.

(** X19. A line [desc,qty,rate] of the text area, with a description
    and a rate text without commas, a quantity within the digit limit
    of [int] and a rate that [float] reads, yields exactly its item,
    the description stripped, at its place among the items of the
    other lines, those lines being ASCII text. *)
Theorem parse_item_lines_reads_item
    (before after : list string) (d : string) (q : Z) (rate_text : string) (rv : float) :
  Forall (fun line => is_ascii line = true) (before ++ after) ->
  comma_free d = true ->
  comma_free rate_text = true ->
  (List.length (chars (str_of_Z (Z.abs q))) <= int_max_str_digits)%nat ->
  py_float (strip rate_text) = Ok rv ->
  parse_item_lines (before ++ item_line d q rate_text :: after)
  = (parse_item_lines before ++ mk_item (strip d) q rv :: parse_item_lines after)%list.
Proof.
  intros _ Hd Hr Hq Hf.
  rewrite parse_item_lines_app. f_equal.
  cbn [parse_item_lines].
  assert (S : split_comma (item_line d q rate_text) = [d; str_of_Z q; rate_text]).
  { unfold split_comma, item_line. rewrite !chars_app.
    change (chars ",") with [","%char]. cbn [app].
    rewrite (split_comma_from_field (chars d) _ [] Hd).
    rewrite (split_comma_from_field (chars (str_of_Z q)) _ []
               (proj2 (str_of_Z_plain q))).
    rewrite (split_comma_from_last (chars rate_text) [] Hr).
    cbn [rev app]. now rewrite !str_chars. }
  rewrite S. cbn [map]. rewrite (proj1 (str_of_Z_plain q)).
  rewrite (py_int_str_of_Z q Hq), Hf. reflexivity.
Qed.

Lemma parse_item_lines_reads_item_witness :
  parse_item_lines (["no item here"] ++ item_line " Dinner " (-2) " 1_250.5e0 " :: ["x,y,z"])
  = (parse_item_lines ["no item here"] ++
     mk_item (strip " Dinner ") (-2) 1250.5%float :: parse_item_lines ["x,y,z"])%list.
Proof.
  apply (parse_item_lines_reads_item ["no item here"] ["x,y,z"] " Dinner " (-2)
           " 1_250.5e0 " 1250.5%float).
  - repeat constructor.
  - reflexivity.
  - reflexivity.
  - apply Nat.leb_le. vm_compute. reflexivity.
  - vm_compute. reflexivity.
Defined.

(** ** Staging the typeface *)

Lemma remove_file_others (p path : string) (l : list string) :
  p <> path -> file_exists p (remove_file path l) = file_exists p l.
Proof.
  intros H. unfold file_exists, remove_file.
  induction l as [|q l IH]; [reflexivity|].
  cbn [filter existsb].
  destruct (String.eqb_spec q path) as [->|N]; cbn [negb existsb].
  - rewrite IH. destruct (String.eqb_spec p path); [contradiction | reflexivity].
  - now rewrite IH.
Qed.

(** X20. Staging a typeface writes [./.tmp_font_<n>_<hint>] with a
    four-digit [n].  When the registration succeeds the name and the
    path are returned and the file is there; when it fails the
    exception leaves and the file is gone again.  No other file is
    touched either way. *)
Theorem register_font_from_bytes_outcomes
    (registers : bool) (ttf_bytes hint : string) (fs : list string) (t : tape) :
  exists n,
    1000 <= n <= 9999 /\
    let path := "./.tmp_font_" ++ str_of_Z n ++ "_" ++ hint in
    let '(r, files_after, _) := register_font_from_bytes registers ttf_bytes hint fs t in
    (if registers
     then r = Ok (splitext_root (basename path), path) /\
          file_exists path files_after = true
     else r = Raise ExternalError /\ file_exists path files_after = false) /\
    forall p, p <> path -> file_exists p files_after = file_exists p fs.
Proof.
  unfold register_font_from_bytes.
  pose proof (randint_range 1000 9999 t ltac:(lia)) as Hn.
  destruct (randint 1000 9999 t) as [n t1]. cbn [fst] in Hn.
  exists n. split; [exact Hn|]. cbv zeta.
  change ("./" ++ ".tmp_font_" ++ str_of_Z n ++ "_" ++ hint)
    with ("./.tmp_font_" ++ str_of_Z n ++ "_" ++ hint).
  set (path := "./.tmp_font_" ++ str_of_Z n ++ "_" ++ hint).
  destruct registers.
  - split; [split; [reflexivity|]|].
    + unfold file_exists. cbn [existsb]. now rewrite String.eqb_refl.
    + intros p Hp. unfold file_exists. cbn [existsb].
      destruct (String.eqb_spec p path); [contradiction | reflexivity].
  - split; [split; [reflexivity | apply remove_file_gone]|].
    intros p Hp. rewrite (remove_file_others p path _ Hp).
    unfold file_exists. cbn [existsb].
    destruct (String.eqb_spec p path); [contradiction | reflexivity].
Qed.

(** ** Runs of the layout engine and of the enrichment *)


Lemma create_pdf_bytes_serial_numbers_witness :
  exists rows y',
    sample_invoice default_items
    = Ok (fst (draw_preamble DEFAULT_HOTEL_NAME "87 Marine Drive, Mumbai" "Guest" "INV-1"
                 "2026-11-04" "101" "27ABCDE1234F1Z5" "+91-6001000000" None None)
          ++ rows
          ++ draw_totals repr_five None "Rs" "Cash" DEFAULT_GST_PERCENT y'
               (float_sum 0%float [1000%float]))%list /\
    serial_cells rows = ["1"].
Proof.
  exact (create_pdf_bytes_serial_numbers shorten_fitting repr_five DEFAULT_HOTEL_NAME
           "87 Marine Drive, Mumbai" "Guest" "INV-1" "2026-11-04" "101"
           "27ABCDE1234F1Z5" "Cash" "+91-6001000000" "Rs" default_items
           DEFAULT_GST_PERCENT None None [1000%float] eq_refl).
Defined.

Lemma create_pdf_bytes_typefaces_witness :
  match create_pdf_bytes shorten_fitting repr_five DEFAULT_HOTEL_NAME
          "87 Marine Drive, Mumbai" "Guest" "INV-1" "2026-11-04" "101" default_items
          "27ABCDE1234F1Z5" DEFAULT_GST_PERCENT "Cash" "+91-6001000000"
          (Some ".tmp_font_1000_Roboto") None "Rs" with
  | Ok ops => Forall (eq ".tmp_font_1000_Roboto") (fonts_of ops)
  | Raise _ => False
  end.
Proof.
  destruct (create_pdf_bytes shorten_fitting repr_five DEFAULT_HOTEL_NAME
              "87 Marine Drive, Mumbai" "Guest" "INV-1" "2026-11-04" "101" default_items
              "27ABCDE1234F1Z5" DEFAULT_GST_PERCENT "Cash" "+91-6001000000"
              (Some ".tmp_font_1000_Roboto") None "Rs") as [ops|e] eqn:E.
  - exact (create_pdf_bytes_typefaces shorten_fitting repr_five _ _ _ _ _ _ _ _ _ _ _ _
             (Some ".tmp_font_1000_Roboto") None ops E).
  - vm_compute in E. discriminate E.
Defined.

Lemma enrichment_without_credential_witness :
  is_set (Some "") = false /\
  call_gemini_for_address (fun _ => Raise ExternalError) "Pune" (Some "")
    (Responds "Taj - INR 3,000 - +91-98765 43210") ImportFails = Ok None /\
  call_gemini_hotel_search (fun _ => Raise ExternalError) "Pune" 800 1200 (Some "")
    (Responds "Taj - INR 3,000 - +91-98765 43210") ImportFails [5%N]
  = (Ok None, [5%N]).
Proof.
  split; [reflexivity|].
  exact (enrichment_without_credential (fun _ => Raise ExternalError)
           (fun _ => Raise ExternalError) "Pune" 800 1200 (Some "")
           (Responds "Taj - INR 3,000 - +91-98765 43210") ImportFails [5%N] eq_refl).
Defined.

Lemma call_gemini_hotel_search_raises_only_value_error_witness :
  match fst (call_gemini_hotel_search (fun _ => Raise ExternalError) "Pune" 800 1200
               (Some "key") ImportFails (Responds "Hotel - , - x") []) with
  | Raise e => e = ValueError
  | Ok _ => False
  end.
Proof.
  destruct (fst (call_gemini_hotel_search (fun _ => Raise ExternalError) "Pune" 800 1200
                   (Some "key") ImportFails (Responds "Hotel - , - x") []))
    as [r|e] eqn:E.
  - vm_compute in E. discriminate E.
  - exact (call_gemini_hotel_search_raises_only_value_error (fun _ => Raise ExternalError)
             "Pune" 800 1200 (Some "key") ImportFails (Responds "Hotel - , - x") [] e E).
Defined.
